(** * swagger2 compiler: validators and path matcher

    A shallow embedding of [src/compiler.ts]: the coercing validator built
    for query and header parameters ([stringValidator]), the pass that
    attaches a validator to every parameter and response, the regular
    expression built for every path template and the dispatcher returned by
    [compile].

    The file is organised as follows.
    - Part I models the JavaScript host: dynamic values, the Number type
      (IEEE 754 binary64, through [SpecFloat]), the conversions [ToNumber],
      [ToString] and [ToBoolean], [String.prototype.split], and the fragment
      of regular expressions that path templates produce.
    - Part II gives the Swagger document, the outcome of a call, and the
      collaborators the compiler is handed, with reference stand-ins for
      them.
    - Part III is the compiler itself, followed by the specification's
      wording of what it does and by a sample document.
    - Part IV holds the properties, for any collaborators.
    - Part V runs the compiler and the properties on the sample. *)

From Stdlib Require Import ZArith NArith List String Ascii Bool Lia.
From Stdlib Require Import DecimalString.
From Stdlib Require Import Permutation.
From Stdlib Require Import Floats.SpecFloat.
Import ListNotations.

#[local] Set Warnings "-register-all".
#[local] Open Scope string_scope.

(* ===================================================================== *)
(** * Part I. The JavaScript host *)
(* ===================================================================== *)

(** ** Strings

    A JavaScript string is a sequence of 16-bit code units.  The model uses
    Rocq's [string], a sequence of 8-bit characters read as the code units
    0..255; every character the program inspects ([,], space, tab, [|],
    [/], [{], [}], the digits) lies in that range. *)

Definition code (c : ascii) : N := N_of_ascii c.

Definition is_char (c d : ascii) : bool := Ascii.eqb c d.

(** Does the character [c] occur in [s]? *)
Fixpoint occurs (c : ascii) (s : string) : bool :=
  match s with
  | EmptyString => false
  | String d rest => is_char d c || occurs c rest
  end.

(** How many times does [c] occur in [s]? *)
Fixpoint count_char (c : ascii) (s : string) : nat :=
  match s with
  | EmptyString => 0
  | String d rest => (if is_char d c then 1 else 0) + count_char c rest
  end.

Fixpoint join (sep : string) (l : list string) : string :=
  match l with
  | [] => ""
  | [s] => s
  | s :: rest => s ++ sep ++ join sep rest
  end.

(** [s.split(sep)] for a separator of one character: the pieces between the
    occurrences of [sep], in order; a string without [sep] is returned
    whole, and the empty string gives one empty piece. *)
Fixpoint split (sep : ascii) (s : string) : list string :=
  match s with
  | EmptyString => [""]
  | String c rest =>
      if is_char c sep then "" :: split sep rest
      else match split sep rest with
           | piece :: pieces => String c piece :: pieces
           | [] => [String c ""]
           end
  end.

(** ** Numbers

    The Number type is IEEE 754 binary64: [spec_float] at precision 53 and
    maximal exponent 1024, with a single NaN. *)

Definition number : Set := spec_float.
Definition prec : Z := 53.
Definition emax : Z := 1024.

Definition NaN : number := S754_nan.
Definition Infinity (negative : bool) : number := S754_infinity negative.

(** The Number nearest to the integer [z] (round to nearest, ties to even). *)
Definition number_of_Z (z : Z) : number := binary_normalize prec emax z 0 false.

(** The Number nearest to [(-1)^negative * m * 10^e]. *)
Definition number_of_decimal (negative : bool) (m : N) (e : Z) : number :=
  match m with
  | N0 => S754_zero negative
  | Npos p =>
      if (0 <=? e)%Z
      then binary_normalize prec emax
             (cond_Zopp negative (Zpos p * 10 ^ e)%Z) 0 negative
      else SFdiv prec emax (S754_finite negative p 0)
             (S754_finite false (Z.to_pos (10 ^ (- e))) 0)
  end.

Definition Number_isNaN (n : number) : bool :=
  match n with S754_nan => true | _ => false end.

Definition Number_isZero (n : number) : bool :=
  match n with S754_zero _ => true | _ => false end.

Definition Number_isFinite (n : number) : bool :=
  match n with S754_nan | S754_infinity _ => false | _ => true end.

(** *** StringToNumber (ECMAScript 7.1.3.1)

    The grammar of [StringNumericLiteral]: optional white space around
    nothing (value +0), a signed decimal literal, [Infinity], or an
    unsigned binary, octal or hexadecimal integer literal.  Anything else
    is NaN. *)

Definition is_StrWhiteSpaceChar (c : ascii) : bool :=
  let n := code c in
  ((9 <=? n) && (n <=? 13) || (n =? 32) || (n =? 160))%N.

Fixpoint trimStart (s : string) : string :=
  match s with
  | String c rest => if is_StrWhiteSpaceChar c then trimStart rest else s
  | EmptyString => ""
  end.

Fixpoint trimEnd (s : string) : string :=
  match s with
  | EmptyString => ""
  | String c rest =>
      match trimEnd rest with
      | EmptyString => if is_StrWhiteSpaceChar c then "" else String c ""
      | kept => String c kept
      end
  end.

Definition trim (s : string) : string := trimEnd (trimStart s).

(** The value of a digit in any radix up to 36. *)
Definition digit_value (c : ascii) : option N :=
  let n := code c in
  if ((48 <=? n) && (n <=? 57))%N then Some (n - 48)%N
  else if ((97 <=? n) && (n <=? 122))%N then Some (n - 87)%N
  else if ((65 <=? n) && (n <=? 90))%N then Some (n - 55)%N
  else None.

Definition is_digit (radix : N) (c : ascii) : bool :=
  match digit_value c with
  | Some d => (d <? radix)%N
  | None => false
  end.

(** The integer written by [s] in [radix], continuing from [acc]; [None]
    when some character is not a digit of that radix. *)
Fixpoint digits_value (radix acc : N) (s : string) : option N :=
  match s with
  | EmptyString => Some acc
  | String c rest =>
      match digit_value c with
      | Some d =>
          if (d <? radix)%N then digits_value radix (acc * radix + d)%N rest
          else None
      | None => None
      end
  end.

(** The longest prefix of decimal digits, and what follows it. *)
Fixpoint span_digits (s : string) : string * string :=
  match s with
  | String c rest =>
      if is_digit 10 c
      then let (ds, tl) := span_digits rest in (String c ds, tl)
      else ("", s)
  | EmptyString => ("", "")
  end.

(** An optional sign: whether it is [-], and what follows it. *)
Definition signed (s : string) : bool * string :=
  match s with
  | String c r =>
      if is_char c "+" then (false, r)
      else if is_char c "-" then (true, r)
      else (false, s)
  | EmptyString => (false, s)
  end.

(** [ExponentPart], or nothing: the decimal exponent it denotes. *)
Definition ExponentPart (s : string) : option Z :=
  match s with
  | EmptyString => Some 0%Z
  | String c rest =>
      if is_char c "e" || is_char c "E" then
        let (negative, ds) := signed rest in
        match ds with
        | EmptyString => None
        | _ => option_map (fun n => cond_Zopp negative (Z.of_N n))
                 (digits_value 10 0 ds)
        end
      else None
  end.

(** [StrUnsignedDecimalLiteral] other than [Infinity]: digits, an optional
    fraction, an optional exponent, with at least one digit before the
    exponent.  The result is the pair [(m, e)] of the value [m * 10^e]. *)
Definition StrUnsignedDecimalLiteral (s : string) : option (N * Z) :=
  let (int_part, after_int) := span_digits s in
  let (frac_part, after_frac) :=
    match after_int with
    | String "." r => span_digits r
    | _ => ("", after_int)
    end in
  match int_part ++ frac_part with
  | EmptyString => None
  | mantissa =>
      match digits_value 10 0 mantissa, ExponentPart after_frac with
      | Some m, Some e => Some (m, (e - Z.of_nat (length frac_part))%Z)
      | _, _ => None
      end
  end.

Definition StrDecimalLiteral (s : string) : option number :=
  let (negative, body) := signed s in
  if body =? "Infinity" then Some (Infinity negative)
  else option_map (fun '(m, e) => number_of_decimal negative m e)
         (StrUnsignedDecimalLiteral body).

(** [0x], [0o] and [0b] literals carry no sign. *)
Definition NonDecimalIntegerLiteral (s : string) : option number :=
  match s with
  | String z (String p digits) =>
      let radix :=
        if negb (is_char z "0") then None
        else if is_char p "x" || is_char p "X" then Some 16%N
        else if is_char p "o" || is_char p "O" then Some 8%N
        else if is_char p "b" || is_char p "B" then Some 2%N
        else None in
      match radix, digits with
      | Some r, String _ _ =>
          option_map (fun n => number_of_Z (Z.of_N n)) (digits_value r 0 digits)
      | _, _ => None
      end
  | _ => None
  end.

(** [StrNumericLiteral]: the Number a literal denotes, [None] when the
    text is no literal. *)
Definition StrNumericLiteral (lit : string) : option number :=
  match NonDecimalIntegerLiteral lit with
  | Some n => Some n
  | None => StrDecimalLiteral lit
  end.

Definition StringToNumber (s : string) : number :=
  match trim s with
  | EmptyString => S754_zero false
  | lit =>
      match StrNumericLiteral lit with
      | Some n => n
      | None => NaN
      end
  end.

(** ** Values

    What a validator can be handed: the validated value is typed [any] in
    the source.  An object is an ordinary object, with [Object.prototype]
    as its prototype, given by its own data properties.  There are no
    function values: no member of an object is callable. *)

Inductive value : Type :=
  | undefined
  | null
  | VBool (b : bool)
  | VNum (n : number)
  | VStr (s : string)
  | VArr (elements : list value)
  | VObj (properties : list (string * value)).

Definition is_undefined (v : value) : bool :=
  match v with undefined => true | _ => false end.

Definition Array_isArray (v : value) : bool :=
  match v with VArr _ => true | _ => false end.

(** [v === lit] for a string literal [lit]. *)
Definition strict_equals_string (v : value) (lit : string) : bool :=
  match v with VStr s => s =? lit | _ => false end.

(** A string that, white space around it apart, is a numeric literal. *)
Definition is_numeric_string (v : value) : bool :=
  match v with
  | VStr s =>
      match StrNumericLiteral (trim s) with
      | Some _ => true
      | None => false
      end
  | _ => false
  end.

(** [Object.prototype.hasOwnProperty] *)
Fixpoint has_own_property (properties : list (string * value)) (name : string)
  : bool :=
  match properties with
  | [] => false
  | (key, _) :: rest => (key =? name) || has_own_property rest name
  end.

(** The results of a list of conversions, when none of them failed. *)
Fixpoint all_converted {A : Type} (l : list (option A)) : option (list A) :=
  match l with
  | [] => Some []
  | Some a :: rest => option_map (cons a) (all_converted rest)
  | None :: _ => None
  end.

(** [ToBoolean] (ECMAScript 7.1.2). *)
Definition ToBoolean (v : value) : bool :=
  match v with
  | undefined | null => false
  | VBool b => b
  | VNum n => negb (Number_isNaN n || Number_isZero n)
  | VStr s => negb (s =? "")
  | VArr _ | VObj _ => true
  end.

Section Conversions.

(** [Number::toString] (ECMAScript 6.1.6.1.20), the shortest decimal that
    reads back as the Number, is left to the host. *)
Variable Number_toString : number -> string.

(** [ToString] (ECMAScript 7.1.17); [None] stands for the [TypeError]
    that [ToPrimitive] throws.  An array goes through
    [Array.prototype.join], which writes nothing for [undefined] and
    [null] elements and converts the others in turn.  An object goes
    through [OrdinaryToPrimitive]: its [toString] member is
    [Object.prototype.toString], which answers ["[object Object]"], unless
    the object has a member of that name of its own; that one is not
    callable, [valueOf] answers the object itself, and the conversion
    throws. *)
Fixpoint ToString (v : value) : option string :=
  match v with
  | undefined => Some "undefined"
  | null => Some "null"
  | VBool true => Some "true"
  | VBool false => Some "false"
  | VNum n => Some (Number_toString n)
  | VStr s => Some s
  | VArr elements =>
      option_map (join ",")
        (all_converted
           (map (fun e => match e with
                          | undefined | null => Some ""
                          | _ => ToString e
                          end) elements))
  | VObj properties =>
      if has_own_property properties "toString" then None
      else Some "[object Object]"
  end.

(** [ToNumber] (ECMAScript 7.1.4).  Arrays and objects are first turned
    into a primitive, which for both is their string when they have one. *)
Definition ToNumber (v : value) : option number :=
  match v with
  | undefined => Some NaN
  | null => Some (S754_zero false)
  | VBool true => Some (number_of_Z 1)
  | VBool false => Some (S754_zero false)
  | VNum n => Some n
  | VStr s => Some (StringToNumber s)
  | VArr _ | VObj _ => option_map StringToNumber (ToString v)
  end.

(** The global [isNaN(v)] and the unary [+v]. *)
Definition isNaN (v : value) : option bool :=
  option_map Number_isNaN (ToNumber v).
Definition unary_plus (v : value) : option value :=
  option_map VNum (ToNumber v).

End Conversions.

(** ** Regular expressions

    [new RegExp(source)] and [string.match(regex)] for the fragment of the
    pattern language that path templates give rise to: a sequence of terms,
    each an atom (a literal character, [.], or a class [[...]] / [[^...]] of
    listed characters) with an optional quantifier [*], [+] or [?], or one of
    the assertions [^] and [$].  A backslash may escape a syntax character.
    Groups, alternation, braces, ranges and the other escapes are outside
    the fragment: [RegExp_parse] answers [None] for them.  No flag is set,
    as in the source. *)

Inductive atom : Set :=
  | Lit (c : ascii)
  | AnyChar
  | CharClass (negated : bool) (members : list ascii).

Inductive quantifier : Set := Once | ZeroOrOne | ZeroOrMore | OneOrMore.

Inductive term : Set :=
  | Atom (a : atom) (q : quantifier)
  | AssertStart
  | AssertEnd.

Definition pattern : Set := list term.

Inductive token : Set :=
  | TAtom (a : atom)
  | TQuantifier (q : quantifier)
  | TCaret
  | TDollar.

(** The characters that are syntax outside a class; none stands for itself
    in the fragment. *)
Definition is_syntax_char (c : ascii) : bool :=
  existsb (is_char c)
    ["^"; "$"; "\"; "."; "*"; "+"; "?"; "("; ")"; "["; "]"; "{"; "}"; "|"]%char.

(** Lexing.  [open] is [Some (negated, members)] while inside a class, with
    the members read so far in reverse. *)
Fixpoint tokens (open : option (bool * list ascii)) (s : string)
  : option (list token) :=
  match open, s with
  | None, EmptyString => Some []
  | Some _, EmptyString => None
  | Some (negated, members), String c rest =>
      if is_char c "]" then
        option_map (cons (TAtom (CharClass negated (rev members))))
          (tokens None rest)
      else if is_char c "\" || is_char c "-" then None
      else tokens (Some (negated, c :: members)) rest
  | None, String c rest =>
      let emit t := option_map (cons t) (tokens None rest) in
      if is_char c "[" then
        match rest with
        | String "^" rest' => tokens (Some (true, [])) rest'
        | _ => tokens (Some (false, [])) rest
        end
      else if is_char c "\" then
        match rest with
        | String e rest' =>
            if is_syntax_char e || is_char e "/" || is_char e "-"
            then option_map (cons (TAtom (Lit e))) (tokens None rest')
            else None
        | EmptyString => None
        end
      else if is_char c "." then emit (TAtom AnyChar)
      else if is_char c "*" then emit (TQuantifier ZeroOrMore)
      else if is_char c "+" then emit (TQuantifier OneOrMore)
      else if is_char c "?" then emit (TQuantifier ZeroOrOne)
      else if is_char c "^" then emit TCaret
      else if is_char c "$" then emit TDollar
      else if is_syntax_char c then None
      else emit (TAtom (Lit c))
  end.

(** Parsing: a quantifier applies to the atom just before it, and to
    nothing else. *)
Fixpoint terms (ts : list token) : option pattern :=
  match ts with
  | [] => Some []
  | TAtom a :: TQuantifier q :: rest => option_map (cons (Atom a q)) (terms rest)
  | TAtom a :: rest => option_map (cons (Atom a Once)) (terms rest)
  | TCaret :: rest => option_map (cons AssertStart) (terms rest)
  | TDollar :: rest => option_map (cons AssertEnd) (terms rest)
  | TQuantifier _ :: _ => None
  end.

Definition RegExp_parse (source : string) : option pattern :=
  match tokens None source with
  | Some ts => terms ts
  | None => None
  end.

(** [.] matches any character but a line terminator. *)
Definition atom_matches (a : atom) (c : ascii) : bool :=
  match a with
  | Lit d => is_char c d
  | AnyChar => negb ((code c =? 10) || (code c =? 13))%N
  | CharClass negated members => xorb negated (existsb (is_char c) members)
  end.

(** One character accepted by [a], then [k] on what follows. *)
Definition match_one (a : atom) (k : string -> bool) (s : string) : bool :=
  match s with
  | String c rest => atom_matches a c && k rest
  | EmptyString => false
  end.

(** Any number of characters accepted by [a], then [k]. *)
Fixpoint match_star (a : atom) (k : string -> bool) (s : string) : bool :=
  k s || match s with
         | String c rest => atom_matches a c && match_star a k rest
         | EmptyString => false
         end.

(** Does [p] match a prefix of [s]?  [at_start] tells whether [s] is the
    whole input, for [^]; [$] asks for the end of the input. *)
Fixpoint match_here (p : pattern) (at_start : bool) (s : string) : bool :=
  match p with
  | [] => true
  | AssertStart :: p' => at_start && match_here p' at_start s
  | AssertEnd :: p' =>
      match s with
      | EmptyString => match_here p' at_start s
      | String _ _ => false
      end
  | Atom a Once :: p' => match_one a (match_here p' false) s
  | Atom a ZeroOrOne :: p' =>
      match_one a (match_here p' false) s || match_here p' at_start s
  | Atom a ZeroOrMore :: p' =>
      match_one a (match_star a (match_here p' false)) s
      || match_here p' at_start s
  | Atom a OneOrMore :: p' =>
      match_one a (match_star a (match_here p' false)) s
  end.

(** Does [p] match somewhere in the input? *)
Fixpoint match_from (p : pattern) (at_start : bool) (s : string) : bool :=
  match_here p at_start s
  || match s with
     | String _ rest => match_from p false rest
     | EmptyString => false
     end.

(** A RegExp object: its source text and the pattern it was compiled to. *)
Record RegExp : Set := { source : string; compiled : pattern }.

(** [!!s.match(regex)]: is there a match anywhere in [s]? *)
Definition String_match (s : string) (regex : RegExp) : bool :=
  match_from (compiled regex) true s.

(** [name.replace(/\{[^}]*}/g, replacement)]: every stretch from a [{] to
    the first [}] after it is replaced, scanning left to right.  [held] is
    the text read since a [{] still waiting for its [}]; it is given back
    unchanged when the name ends first. *)
Fixpoint replace_braces_from (replacement : string) (held : option string)
    (name : string) : string :=
  match held, name with
  | None, EmptyString => ""
  | Some h, EmptyString => h
  | None, String c rest =>
      if is_char c "{"
      then replace_braces_from replacement (Some "{") rest
      else String c (replace_braces_from replacement None rest)
  | Some h, String c rest =>
      if is_char c "}"
      then replacement ++ replace_braces_from replacement None rest
      else replace_braces_from replacement (Some (h ++ String c "")) rest
  end.

Definition replace_braces (replacement name : string) : string :=
  replace_braces_from replacement None name.

(** [name.match(/[^\/]+/g) || []]: the maximal runs of characters other
    than [/], in order.  [run] is the run being read. *)
Fixpoint slash_free_runs_from (run : string) (name : string) : list string :=
  let flush := match run with EmptyString => [] | _ => [run] end in
  match name with
  | EmptyString => flush
  | String c rest =>
      if is_char c "/" then flush ++ slash_free_runs_from "" rest
      else slash_free_runs_from (run ++ String c "") rest
  end.

Definition slash_free_runs (name : string) : list string :=
  slash_free_runs_from "" name.

(* ===================================================================== *)
(** * Part II. The document and the collaborators *)
(* ===================================================================== *)

(** ** Completions

    A JavaScript call either returns or throws.  [Unmodelled] marks a call
    that leaves what this development describes: a regular expression
    outside the fragment of Part I, which the host either rejects or gives
    a meaning not modelled here.  A validator may moreover call the
    predicate that the schema-validator generator produced; a run of a
    validator records the arguments of those calls, in order. *)

Inductive exception : Set :=
  | TypeError (message : string).

Inductive completion (A : Type) : Type :=
  | Normal (result : A)
  | Throw (e : exception)
  | Unmodelled (what : string).

Arguments Normal {A} result.
Arguments Throw {A} e.
Arguments Unmodelled {A} what.

Definition run (A : Type) : Type := completion A * list value.

Definition ret {A : Type} (a : A) : run A := (Normal a, []).

Definition throw {A : Type} (e : exception) : run A := (Throw e, []).

Definition bind {A B : Type} (m : run A) (k : A -> run B) : run B :=
  match m with
  | (Normal a, calls) => let (r, calls') := k a in (r, (calls ++ calls')%list)
  | (Throw e, calls) => (Throw e, calls)
  | (Unmodelled what, calls) => (Unmodelled what, calls)
  end.

(** [validator(v)], for a predicate made by the generator. *)
Definition call (validator : value -> bool) (v : value) : run bool :=
  (Normal (validator v), [v]).

(** The error of [ToPrimitive] (ECMAScript 7.1.1), and a conversion as a
    step of a run. *)
Definition not_primitive : exception :=
  TypeError "Cannot convert object to primitive value".

Definition primitive {A : Type} (converted : option A) : run A :=
  match converted with
  | Some a => ret a
  | None => throw not_primitive
  end.

Declare Scope run_scope.
Delimit Scope run_scope with run.
Notation "x <- m ;; k" := (bind m (fun x => k))
  (at level 61, m at next level, right associativity) : run_scope.

Definition result_of {A : Type} (r : run A) : completion A := fst r.
Definition delegated {A : Type} (r : run A) : list value := snd r.

(** A validator as attached to a parameter or a response:
    [(value: any) => boolean]. *)
Definition Validator : Type := value -> run bool.

(** ** The Swagger document

    The compiler imports the interfaces [Document], [PathItem], [Parameter]
    and [CollectionFormat] from [./schema]; section 3 of the specification
    gives their fields.  Objects used as maps are association lists in the
    order of [Object.keys]. *)

Module Schema.

(** Modelled from the spec: a schema fragment, typed [any] in the source,
    with the members that [stringValidator] reads.  [required] is a boolean
    on a parameter and a list of names in a JSON schema; the program reads
    its truthiness only.  [keywords] are the other members, which only the
    underlying validator looks at. *)
Inductive t : Type := make {
  type : option string;
  required : value;
  collectionFormat : option string;
  items : option t;
  keywords : list (string * value)
}.

End Schema.

Module Param.

(** Modelled from the spec: the interface [Parameter], and
    [CompiledParameter], which adds [validator].  [as_schema] is the
    parameter object itself read as a schema fragment: its own [type],
    [required], [collectionFormat] and [items]. *)
Record t : Type := make {
  name : string;
  in_ : string;
  schema : option Schema.t;
  as_schema : Schema.t;
  validator : option Validator
}.

Definition required (parameter : t) : value :=
  Schema.required (as_schema parameter).

Definition set_validator (parameter : t) (v : Validator) : t :=
  {| name := name parameter;
     in_ := in_ parameter;
     schema := schema parameter;
     as_schema := as_schema parameter;
     validator := Some v |}.

End Param.

Module Response.

(** Modelled from the spec: a response, with the [validator] that
    compilation adds. *)
Record t : Type := make {
  schema : option Schema.t;
  validator : option Validator
}.

Definition set_validator (response : t) (v : Validator) : t :=
  {| schema := schema response; validator := Some v |}.

End Response.

Module Operation.

(** Modelled from the spec: an operation; [parameters] may be absent. *)
Record t : Type := make {
  parameters : option (list Param.t);
  responses : list (string * Response.t)
}.

End Operation.

(** Modelled from the spec: the interface [PathItem], from operation name
    to operation. *)
Definition PathItem : Type := list (string * Operation.t).

Module Document.

(** Modelled from the spec: the interface [Document]; [basePath] is a
    string, as section 3 has it. *)
Record t : Type := make {
  basePath : string;
  paths : list (string * PathItem)
}.

End Document.

Module CompiledPath.

(** [interface CompiledPath] *)
Record t : Type := make {
  regex : RegExp;
  path : PathItem;
  name : string;
  expected : list string
}.

End CompiledPath.

(** [interface Compiled { (path: string): CompiledPath | undefined }] *)
Definition Compiled : Type := string -> option CompiledPath.t.

(** ** The collaborators

    What the compiler receives from outside: the host's [Number::toString]
    (ECMAScript 6.1.6.1.20); [jsonValidator], the generator of the package
    [is-my-json-valid], which turns a schema fragment into a total predicate
    on values; and [deref], of the package [json-schema-deref-sync].  The
    generator is taken to accept every schema fragment it is handed, as the
    specification does; the package throws on a [type] it does not know,
    and [compile] with it. *)

Class Host : Type := {
  Number_toString : number -> string;
  jsonValidator : Schema.t -> value -> bool;
  deref : Document.t -> Document.t
}.

(** ** Reference collaborators

    Stand-ins for the collaborators, so that the model runs on concrete
    inputs.  The properties of Part IV are stated for any collaborators and
    name what they assume of them. *)

(** The decimal digits of a natural number. *)
Definition decimal_digits (n : N) : string :=
  DecimalString.NilZero.string_of_uint (N.to_uint n).

Definition left_pad_zeros (width : nat) (s : string) : string :=
  string_of_list_ascii (repeat "0"%char (width - length s)) ++ s.

Fixpoint strip_trailing_zeros (s : string) : string :=
  match s with
  | EmptyString => ""
  | String c rest =>
      match strip_trailing_zeros rest with
      | EmptyString => if is_char c "0" then "" else String c ""
      | kept => String c kept
      end
  end.

(** The exact decimal expansion of a Number.  [Number::toString] writes the
    shortest decimal that reads back as the same Number instead; the two
    agree on NaN, the infinities, the zeros and the integers below 2^53. *)
Definition exact_decimal (n : number) : string :=
  match n with
  | S754_nan => "NaN"
  | S754_infinity negative => if negative then "-Infinity" else "Infinity"
  | S754_zero _ => "0"
  | S754_finite negative m e =>
      (if negative then "-" else "") ++
      match e with
      | Zneg k =>
          let scaled := (Npos m * 5 ^ Npos k)%N in
          let unit := (10 ^ Npos k)%N in
          let fraction :=
            strip_trailing_zeros
              (left_pad_zeros (Pos.to_nat k) (decimal_digits (scaled mod unit))) in
          decimal_digits (scaled / unit) ++
          match fraction with
          | EmptyString => ""
          | _ => "." ++ fraction
          end
      | _ => decimal_digits (Npos m * 2 ^ Z.to_N e)
      end
  end.

Definition Number_isInteger (n : number) : bool :=
  match n with
  | S754_nan | S754_infinity _ => false
  | S754_zero _ => true
  | S754_finite _ m e =>
      match e with
      | Zneg k => (Npos m mod 2 ^ Npos k =? 0)%N
      | _ => true
      end
  end.

(** The [type] and [items] keywords of JSON Schema, the part of a
    generated validator that coercion is meant to satisfy. *)
Fixpoint type_validator (schema : Schema.t) (v : value) : bool :=
  match Schema.type schema with
  | None => true
  | Some ty =>
      if ty =? "number" then
        match v with VNum n => Number_isFinite n | _ => false end
      else if ty =? "integer" then
        match v with VNum n => Number_isInteger n | _ => false end
      else if ty =? "boolean" then
        match v with VBool _ => true | _ => false end
      else if ty =? "string" then
        match v with VStr _ => true | _ => false end
      else if ty =? "null" then
        match v with null => true | _ => false end
      else if ty =? "object" then
        match v with VObj _ => true | _ => false end
      else if ty =? "array" then
        match v, Schema.items schema with
        | VArr elements, Some item => forallb (type_validator item) elements
        | VArr _, None => true
        | _, _ => false
        end
      else true
  end.

(** A document without references is its own dereferenced form. *)
Definition no_references (document : Document.t) : Document.t := document.

Definition reference_host : Host :=
  {| Number_toString := exact_decimal;
     jsonValidator := type_validator;
     deref := no_references |}.

(* ===================================================================== *)
(** * Part III. The compiler *)
(* ===================================================================== *)

Section Compiler.

#[local] Open Scope run_scope.

Context {host : Host}.

(** [schema.type === lit], one [case] of a [switch]. *)
Definition case (scrutinee : option string) (lit : string) : bool :=
  match scrutinee with
  | Some s => s =? lit
  | None => false
  end.

(** [o.member] where [o] may be undefined. *)
Definition member {A B : Type} (o : option A) (get : A -> B) (name : string)
  : run B :=
  match o with
  | Some a => ret (get a)
  | None => throw (TypeError ("Cannot read property '" ++ name ++ "' of undefined"))
  end.

(** [value.map(f)]: the callback is run on the elements in turn. *)
Fixpoint map_elements (f : value -> run value) (elements : list value)
  : run (list value) :=
  match elements with
  | [] => ret []
  | element :: rest =>
      mapped <- f element ;;
      others <- map_elements f rest ;;
      ret (mapped :: others)
  end.

Definition Array_map (f : value -> run value) (v : value) : run value :=
  match v with
  | VArr elements => mapped <- map_elements f elements ;; ret (VArr mapped)
  | _ => throw (TypeError "value.map is not a function")
  end.

(** [String(value).split(sep)] *)
Definition String_split (v : value) (sep : ascii) : run value :=
  s <- primitive (ToString Number_toString v) ;;
  ret (VArr (map VStr (split sep s))).

(** [if (!isNaN(num)) { return +num; } else { return num; }] *)
Definition to_number_if_numeric (num : value) : run value :=
  nan <- primitive (isNaN Number_toString num) ;;
  if negb nan then primitive (unary_plus Number_toString num)
  else ret num.

(** [if (bool === 'true') ... else if (bool === 'false') ... else bool] *)
Definition to_boolean_if_literal (bool : value) : value :=
  if strict_equals_string bool "true" then VBool true
  else if strict_equals_string bool "false" then VBool false
  else bool.

(** [schema.collectionFormat || 'csv'] *)
Definition format_of (schema : Schema.t) : string :=
  match Schema.collectionFormat schema with
  | Some f => if f =? "" then "csv" else f
  | None => "csv"
  end.

(** Lines 60-141. *)
Definition stringValidator (schema : Schema.t) : Validator :=
  let validator := jsonValidator schema in
  fun value =>
    if is_undefined value then
      ret (negb (ToBoolean (Schema.required schema)))
    else
      value <-
        (let type := Schema.type schema in
         if case type "number" || case type "integer" then
           to_number_if_numeric value
         else if case type "boolean" then
           ret (to_boolean_if_literal value)
         else if case type "array" then
           value <-
             (if negb (Array_isArray value) then
                let format := format_of schema in
                if format =? "csv" then String_split value ","
                else if format =? "ssv" then String_split value " "
                else if format =? "tsv" then String_split value "009"
                else if format =? "pipes" then String_split value "|"
                else ret (VArr [value])
              else ret value) ;;
           items_type <- member (Schema.items schema) Schema.type "type" ;;
           if case items_type "number" || case items_type "integer" then
             Array_map to_number_if_numeric value
           else if case items_type "boolean" then
             Array_map (fun bool => ret (to_boolean_if_literal bool)) value
           else ret value
         else ret value) ;;
      call validator value.

(** [parameter.schema || parameter] *)
Definition schema_of (parameter : Param.t) : Schema.t :=
  match Param.schema parameter with
  | Some nested => nested
  | None => Param.as_schema parameter
  end.

(** [parameter.in === 'query' || parameter.in === 'header'] *)
Definition in_query_or_header (parameter : Param.t) : bool :=
  (Param.in_ parameter =? "query") || (Param.in_ parameter =? "header").

(** Lines 153-160: the body of [parameters.forEach]. *)
Definition compile_parameter (parameter : Param.t) : Param.t :=
  let schema := schema_of parameter in
  if in_query_or_header parameter
  then Param.set_validator parameter (stringValidator schema)
  else Param.set_validator parameter (call (jsonValidator schema)).

(** Line 168. *)
Definition no_body : Validator :=
  fun body =>
    ret (match body with
         | undefined | null => true
         | _ => strict_equals_string body ""
         end).

(** Lines 161-170: the body of [Object.keys(operation.responses).forEach]. *)
Definition compile_response (response : Response.t) : Response.t :=
  match Response.schema response with
  | Some schema => Response.set_validator response (call (jsonValidator schema))
  | None => Response.set_validator response no_body
  end.

(** Lines 151-171.  [operation.parameters || []] leaves an absent list
    absent. *)
Definition compile_operation (operation : Operation.t) : Operation.t :=
  {| Operation.parameters :=
       option_map (map compile_parameter) (Operation.parameters operation);
     Operation.responses :=
       map (fun '(statusCode, response) => (statusCode, compile_response response))
         (Operation.responses operation) |}.

Definition compile_path (path : PathItem) : PathItem :=
  map (fun '(operationName, operation) => (operationName, compile_operation operation))
    path.

(** Lines 149-172: the document after every parameter and response got its
    validator.  The source updates the objects in place; here the updated
    document is a new value of the same shape. *)
Definition add_validators (swagger : Document.t) : Document.t :=
  {| Document.basePath := Document.basePath swagger;
     Document.paths :=
       map (fun '(pathName, path) => (pathName, compile_path path))
         (Document.paths swagger) |}.

(** [new RegExp(source)], for a source inside the modelled fragment. *)
Definition new_RegExp (src : string) : completion RegExp :=
  match RegExp_parse src with
  | Some p => Normal {| source := src; compiled := p |}
  | None => Unmodelled ("new RegExp: /" ++ src ++ "/")
  end.

(** Line 179: the text handed to [new RegExp]. *)
Definition regex_source (basePath name : string) : string :=
  basePath ++ replace_braces "[^/]+" name ++ "$".

(** Lines 174-182, one entry after the other. *)
Fixpoint compile_matcher (basePath : string) (paths : list (string * PathItem))
  : completion (list CompiledPath.t) :=
  match paths with
  | [] => Normal []
  | (name, path) :: rest =>
      match new_RegExp (regex_source basePath name) with
      | Throw e => Throw e
      | Unmodelled what => Unmodelled what
      | Normal regex =>
          match compile_matcher basePath rest with
          | Throw e => Throw e
          | Unmodelled what => Unmodelled what
          | Normal entries =>
              Normal ({| CompiledPath.name := name;
                         CompiledPath.path := path;
                         CompiledPath.regex := regex;
                         CompiledPath.expected := slash_free_runs name |}
                      :: entries)
          end
      end
  end.

(** Lines 184-191: the function [compile] returns. *)
Definition dispatcher (matcher : list CompiledPath.t) : Compiled :=
  fun path =>
    let matches :=
      filter (fun entry => String_match path (CompiledPath.regex entry)) matcher in
    if negb (List.length matches =? 1)%nat then None
    else hd_error matches.

(** Lines 144-192. *)
Definition compile (document : Document.t) : completion Compiled :=
  let swagger := add_validators (deref document) in
  match compile_matcher (Document.basePath swagger) (Document.paths swagger) with
  | Throw e => Throw e
  | Unmodelled what => Unmodelled what
  | Normal matcher => Normal (dispatcher matcher)
  end.

(** ** Reading a document

    The parameters and the responses of a document, in the order in which
    the compiler visits them. *)

Definition operations_of (document : Document.t) : list Operation.t :=
  flat_map (fun entry : string * PathItem => map snd (snd entry))
    (Document.paths document).

Definition parameters_of_operation (operation : Operation.t) : list Param.t :=
  match Operation.parameters operation with
  | Some parameters => parameters
  | None => []
  end.

Definition responses_of_operation (operation : Operation.t) : list Response.t :=
  map snd (Operation.responses operation).

Definition parameters_of (document : Document.t) : list Param.t :=
  flat_map parameters_of_operation (operations_of document).

Definition responses_of (document : Document.t) : list Response.t :=
  flat_map responses_of_operation (operations_of document).

(** ** The specification's wording of array coercion

    Section 4.1: the value is stringified and split according to the
    collection format, then the elements are converted according to the
    declared item type. *)

Definition separator_of (format : string) : option ascii :=
  if format =? "csv" then Some ","%char
  else if format =? "ssv" then Some " "%char
  else if format =? "tsv" then Some "009"%char
  else if format =? "pipes" then Some "|"%char
  else None.

(** The value, or the element, after the conversion of a [number] or
    [integer]; [None] when the conversion throws. *)
Definition number_if_numeric (v : value) : option value :=
  match ToNumber Number_toString v with
  | Some n => Some (if Number_isNaN n then v else VNum n)
  | None => None
  end.

Definition split_by_format (format : string) (v : value) : option (list value) :=
  match separator_of format with
  | Some sep =>
      option_map (fun s => map VStr (split sep s)) (ToString Number_toString v)
  | None => Some [v]
  end.

Definition coerce_elements (item_type : option string) (elements : list value)
  : option (list value) :=
  if case item_type "number" || case item_type "integer"
  then all_converted (map number_if_numeric elements)
  else if case item_type "boolean"
  then Some (map to_boolean_if_literal elements)
  else Some elements.

(** The schema [{type: "number"}]. *)
Definition number_schema : Schema.t :=
  Schema.make (Some "number") undefined None None [].

(** The schema [{type: "boolean"}]. *)
Definition boolean_schema : Schema.t :=
  Schema.make (Some "boolean") undefined None None [].

(** A run that hands [v] to the predicate [validator] and returns its
    answer. *)
Definition delegates (validator : value -> bool) (v : value) : run bool :=
  (Normal (validator v), [v]).

(** A run that delegates what a conversion gave, or throws as the
    conversion did, without a call of the predicate. *)
Definition delegating (validator : value -> bool) (converted : option value)
  : run bool :=
  match converted with
  | Some v => delegates validator v
  | None => throw not_primitive
  end.

(** ** Values that have a primitive

    [ToPrimitive] succeeds on every value but an object with a [toString]
    member of its own, and an array that holds such an object, however
    deep. *)

Fixpoint converts_to_primitive (v : value) : bool :=
  match v with
  | VArr elements => forallb converts_to_primitive elements
  | VObj properties => negb (has_own_property properties "toString")
  | _ => true
  end.

(** ** The specification's wording of path templates

    A template is text interleaved with placeholders [{label}].  An
    instance of it is a string in which every placeholder is replaced by
    one or more characters other than [/]. *)

Inductive part : Set :=
  | Text (text : string)
  | Placeholder (label : string).

Definition template : Set := list part.

Fixpoint render (t : template) : string :=
  match t with
  | [] => ""
  | Text text :: rest => text ++ render rest
  | Placeholder label :: rest => "{" ++ label ++ "}" ++ render rest
  end.

(** The template with every placeholder replaced by the wildcard. *)
Fixpoint wildcarded (t : template) : string :=
  match t with
  | [] => ""
  | Text text :: rest => text ++ wildcarded rest
  | Placeholder _ :: rest => "[^/]+" ++ wildcarded rest
  end.

Fixpoint all_chars (test : ascii -> bool) (s : string) : bool :=
  match s with
  | EmptyString => true
  | String c rest => test c && all_chars test rest
  end.

(** A character that stands for itself in a pattern. *)
Definition plain (c : ascii) : bool := negb (is_syntax_char c).

(** Text is made of plain characters; a label holds no [}]. *)
Definition well_formed (p : part) : Prop :=
  match p with
  | Text text => all_chars plain text = true
  | Placeholder label => occurs "}" label = false
  end.

Inductive instance_of : template -> string -> Prop :=
  | instance_nil : instance_of [] ""
  | instance_text (text : string) (t : template) (s : string) :
      instance_of t s -> instance_of (Text text :: t) (text ++ s)
  | instance_placeholder (label : string) (t : template) (segment s : string) :
      segment <> "" -> occurs "/" segment = false ->
      instance_of t s -> instance_of (Placeholder label :: t) (segment ++ s).

(** The pattern that the wildcarded template, followed by [$], is compiled
    to. *)
Definition literals (text : string) : pattern :=
  map (fun c => Atom (Lit c) Once) (list_ascii_of_string text).

Definition wildcard : term := Atom (CharClass true ["/"%char]) OneOrMore.

Fixpoint template_pattern (t : template) : pattern :=
  match t with
  | [] => [AssertEnd]
  | Text text :: rest => (literals text ++ template_pattern rest)%list
  | Placeholder _ :: rest => wildcard :: template_pattern rest
  end.

(** The tokens of the same text. *)
Definition literal_tokens (text : string) : list token :=
  map (fun c => TAtom (Lit c)) (list_ascii_of_string text).

Fixpoint template_tokens (t : template) : list token :=
  match t with
  | [] => [TDollar]
  | Text text :: rest => (literal_tokens text ++ template_tokens rest)%list
  | Placeholder _ :: rest =>
      TAtom (CharClass true ["/"%char]) :: TQuantifier OneOrMore
      :: template_tokens rest
  end.

Definition no_leading_quantifier (ts : list token) : Prop :=
  match ts with
  | TQuantifier _ :: _ => False
  | _ => True
  end.

(** [path.match(entry.regex)], the test of the dispatcher's filter. *)
Definition matches (path : string) (entry : CompiledPath.t) : bool :=
  String_match path (CompiledPath.regex entry).

(** ** Segments

    A path written from its segments, and what a template holds besides
    its placeholders. *)

Fixpoint path_of_segments (segments : list string) : string :=
  match segments with
  | [] => ""
  | segment :: rest => "/" ++ segment ++ path_of_segments rest
  end.

Definition is_segment (s : string) : Prop := s <> "" /\ occurs "/" s = false.

Fixpoint literal_text (t : template) : string :=
  match t with
  | [] => ""
  | Text text :: rest => text ++ literal_text rest
  | Placeholder _ :: rest => literal_text rest
  end.

Fixpoint placeholders (t : template) : nat :=
  match t with
  | [] => 0
  | Text _ :: rest => placeholders rest
  | Placeholder _ :: rest => S (placeholders rest)
  end.

(** ** A document without its validators

    The document as it is when every [validator] member is taken away:
    what the attachment pass is not meant to touch. *)

Definition parameter_without_validator (parameter : Param.t) : Param.t :=
  {| Param.name := Param.name parameter;
     Param.in_ := Param.in_ parameter;
     Param.schema := Param.schema parameter;
     Param.as_schema := Param.as_schema parameter;
     Param.validator := None |}.

Definition response_without_validator (response : Response.t) : Response.t :=
  {| Response.schema := Response.schema response;
     Response.validator := None |}.

Definition operation_without_validators (operation : Operation.t)
  : Operation.t :=
  {| Operation.parameters :=
       option_map (map parameter_without_validator)
         (Operation.parameters operation);
     Operation.responses :=
       map (fun entry : string * Response.t =>
              (fst entry, response_without_validator (snd entry)))
         (Operation.responses operation) |}.

Definition path_without_validators (path : PathItem) : PathItem :=
  map (fun entry : string * Operation.t =>
         (fst entry, operation_without_validators (snd entry))) path.

Definition without_validators (document : Document.t) : Document.t :=
  {| Document.basePath := Document.basePath document;
     Document.paths :=
       map (fun entry : string * PathItem =>
              (fst entry, path_without_validators (snd entry)))
         (Document.paths document) |}.

(** ** What reaches the underlying validator

    The value that lines 69-138 leave in [value], for a value other than
    [undefined] and a schema that declares its items when its type is
    [array]; [None] when a conversion throws on the way. *)

Definition items_type (schema : Schema.t) : option string :=
  match Schema.items schema with
  | Some item => Schema.type item
  | None => None
  end.

Definition elements_of (schema : Schema.t) (input : value)
  : option (list value) :=
  match input with
  | VArr elements => Some elements
  | _ => split_by_format (format_of schema) input
  end.

Definition coerced (schema : Schema.t) (input : value) : option value :=
  let type := Schema.type schema in
  if case type "number" || case type "integer" then number_if_numeric input
  else if case type "boolean" then Some (to_boolean_if_literal input)
  else if case type "array" then
    match elements_of schema input with
    | Some elements =>
        option_map VArr (coerce_elements (items_type schema) elements)
    | None => None
    end
  else Some input.

(** Does a run on this schema convert the value, or its elements, to a
    primitive?  It does for the types [number] and [integer]; for the type
    [array] it does when the value is split, which takes its string, and
    when the items are of type [number] or [integer]. *)
Definition needs_primitive (schema : Schema.t) (input : value) : bool :=
  let type := Schema.type schema in
  if case type "number" || case type "integer" then true
  else if case type "boolean" then false
  else if case type "array" then
    (negb (Array_isArray input)
     && match separator_of (format_of schema) with
        | Some _ => true
        | None => false
        end)
    || case (items_type schema) "number"
    || case (items_type schema) "integer"
  else false.

End Compiler.

(** ** A sample document

    One path with one operation: a required query parameter of type
    [number], a header parameter that is a [|]-separated array of numbers,
    a body parameter, a response with a schema and one without; and two
    more paths, whose patterns both match [/api/items/7]. *)

Definition limit : Param.t :=
  {| Param.name := "limit";
     Param.in_ := "query";
     Param.schema := None;
     Param.as_schema := Schema.make (Some "number") (VBool true) None None [];
     Param.validator := None |}.

Definition tags_schema : Schema.t :=
  Schema.make (Some "array") undefined (Some "pipes") (Some number_schema) [].

Definition tags : Param.t :=
  {| Param.name := "tags";
     Param.in_ := "header";
     Param.schema := None;
     Param.as_schema := tags_schema;
     Param.validator := None |}.

Definition no_content : Response.t :=
  {| Response.schema := None; Response.validator := None |}.

Definition count : Response.t :=
  {| Response.schema := Some number_schema; Response.validator := None |}.

Definition payload : Param.t :=
  {| Param.name := "payload";
     Param.in_ := "body";
     Param.schema := Some number_schema;
     Param.as_schema := Schema.make None (VBool true) None None [];
     Param.validator := None |}.

Definition get_user : Operation.t :=
  {| Operation.parameters := Some [limit; tags; payload];
     Operation.responses := [("200", count); ("204", no_content)] |}.

Definition users_api : Document.t :=
  {| Document.basePath := "/api";
     Document.paths :=
       [("/users/{id}", [("get", get_user)]);
        ("/items/{id}", []);
        ("/items/{sku}", [])] |}.

(** The same document with its paths declared in the opposite order. *)
Definition users_api_reordered : Document.t :=
  {| Document.basePath := "/api";
     Document.paths :=
       [("/items/{sku}", []);
        ("/items/{id}", []);
        ("/users/{id}", [("get", get_user)])] |}.

Definition sample_validator : Schema.t -> Validator :=
  @stringValidator reference_host.

Definition compiled_api : Document.t :=
  @add_validators reference_host (no_references users_api).

Definition compiled_limit : Param.t :=
  @compile_parameter reference_host limit.

Definition compiled_no_content : Response.t :=
  @compile_response reference_host no_content.

Definition compiled_count : Response.t :=
  @compile_response reference_host count.

Definition compiled_payload : Param.t :=
  @compile_parameter reference_host payload.

(** The entries that the three paths are compiled to under [/api]. *)
Definition users_entry : CompiledPath.t :=
  {| CompiledPath.regex :=
       {| source := "/api/users/[^/]+$";
          compiled := template_pattern [Text "/api/users/"; Placeholder "id"] |};
     CompiledPath.path := @compile_path reference_host [("get", get_user)];
     CompiledPath.name := "/users/{id}";
     CompiledPath.expected := ["users"; "{id}"] |}.

Definition items_by_id : CompiledPath.t :=
  {| CompiledPath.regex :=
       {| source := "/api/items/[^/]+$";
          compiled := template_pattern [Text "/api/items/"; Placeholder "id"] |};
     CompiledPath.path := [];
     CompiledPath.name := "/items/{id}";
     CompiledPath.expected := ["items"; "{id}"] |}.

Definition items_by_sku : CompiledPath.t :=
  {| CompiledPath.regex :=
       {| source := "/api/items/[^/]+$";
          compiled := template_pattern [Text "/api/items/"; Placeholder "sku"] |};
     CompiledPath.path := [];
     CompiledPath.name := "/items/{sku}";
     CompiledPath.expected := ["items"; "{sku}"] |}.

Definition sample_matcher : list CompiledPath.t :=
  [users_entry; items_by_id; items_by_sku].

(** An array schema that declares no items. *)
Definition array_without_items : Schema.t :=
  Schema.make (Some "array") undefined None None [].

(** An array schema with an empty collection format. *)
Definition empty_format_schema : Schema.t :=
  Schema.make (Some "array") undefined (Some "") (Some number_schema) [].

(** A required query parameter that nests its schema:
    [{name: "filter", in: "query", required: true, schema: {type: "string"}}]. *)
Definition nested_filter : Param.t :=
  {| Param.name := "filter";
     Param.in_ := "query";
     Param.schema := Some (Schema.make (Some "string") undefined None None []);
     Param.as_schema := Schema.make None (VBool true) None None [];
     Param.validator := None |}.

Definition search_api : Document.t :=
  {| Document.basePath := "/api";
     Document.paths :=
       [("/search",
         [("get", {| Operation.parameters := Some [nested_filter];
                     Operation.responses := [] |})])] |}.

Definition compiled_filter : Param.t :=
  @compile_parameter reference_host nested_filter.

(** The object [{toString: "x"}], which has no primitive. *)
Definition no_primitive_value : value := VObj [("toString", VStr "x")].

(* ===================================================================== *)
(** * Part IV. Properties *)
(* ===================================================================== *)

Section Properties.

Context {host : Host}.

#[local] Open Scope run_scope.

(** ** Numbers

    Rounding never produces NaN, so a numeric literal never denotes it:
    [isNaN] is false of a string exactly when the string is blank or, white
    space around it apart, a numeric literal. *)

Lemma shr_1_nonneg (mrs : shr_record) :
  (0 <= shr_m mrs)%Z -> (0 <= shr_m (shr_1 mrs))%Z.
Proof.
  destruct mrs as [m r s]. simpl.
  destruct m as [|p|p]; simpl; try lia; destruct p; simpl; lia.
Qed.

Lemma iter_shr_1_nonneg (n : positive) (mrs : shr_record) :
  (0 <= shr_m mrs)%Z -> (0 <= shr_m (iter_pos shr_1 n mrs))%Z.
Proof.
  revert mrs. induction n as [n IH|n IH|]; intros mrs H; simpl.
  - apply IH, IH, shr_1_nonneg, H.
  - apply IH, IH, H.
  - apply shr_1_nonneg, H.
Qed.

Lemma shr_fexp_nonneg (p x m e : Z) (l : location) :
  (0 <= m)%Z -> (0 <= shr_m (fst (shr_fexp p x m e l)))%Z.
Proof.
  intros H. unfold shr_fexp, shr.
  assert (H0 : (0 <= shr_m (shr_record_of_loc m l))%Z)
    by (destruct l as [|[]]; exact H).
  destruct (fexp p x (Zdigits2 m + e) - e)%Z; simpl; try exact H0.
  apply iter_shr_1_nonneg, H0.
Qed.

Lemma round_nearest_even_nonneg (m : Z) (l : location) :
  (0 <= m)%Z -> (0 <= round_nearest_even m l)%Z.
Proof.
  intros H. destruct l as [|[]]; simpl; try lia.
  destruct (Z.even m); lia.
Qed.

Lemma binary_round_aux_not_nan (p x : Z) (sx : bool) (mx ex : Z) (lx : location) :
  (0 <= mx)%Z -> binary_round_aux p x sx mx ex lx <> S754_nan.
Proof.
  intros H. unfold binary_round_aux.
  pose proof (shr_fexp_nonneg p x mx ex lx H) as H1.
  destruct (shr_fexp p x mx ex lx) as [mrs' e']. simpl in H1.
  pose proof (shr_fexp_nonneg p x _ e' loc_Exact
                (round_nearest_even_nonneg _ (loc_of_shr_record mrs') H1)) as H2.
  destruct (shr_fexp p x (round_nearest_even (shr_m mrs') (loc_of_shr_record mrs'))
              e' loc_Exact) as [mrs'' e'']. simpl in H2.
  destruct (shr_m mrs'') as [|q|q]; try discriminate.
  - destruct (e'' <=? x - p)%Z; discriminate.
  - lia.
Qed.

Lemma binary_normalize_not_nan (p x m e : Z) (szero : bool) :
  binary_normalize p x m e szero <> S754_nan.
Proof.
  unfold binary_normalize, binary_round.
  destruct m as [|q|q]; try discriminate.
  - destruct (shl_align q e _) as [mz ez]. apply binary_round_aux_not_nan. lia.
  - destruct (shl_align q e _) as [mz ez]. apply binary_round_aux_not_nan. lia.
Qed.

Lemma SFdiv_finite_not_nan (p x : Z) (sx sy : bool) (mx my : positive) (ex ey : Z) :
  SFdiv p x (S754_finite sx mx ex) (S754_finite sy my ey) <> S754_nan.
Proof.
  unfold SFdiv, SFdiv_core_binary.
  set (s := (ex - ey - _)%Z).
  set (m' := match s with
             | Zpos _ => Z.shiftl (Zpos mx) s
             | Z0 => Zpos mx
             | Zneg _ => Z0
             end).
  assert (Hm' : (0 <= m')%Z).
  { unfold m'. destruct s; try lia. apply Z.shiftl_nonneg. lia. }
  pose proof (Z.div_pos m' (Zpos my) Hm' ltac:(lia)) as Hq.
  unfold Z.div in Hq.
  destruct (Z.div_eucl m' (Zpos my)) as [q r].
  apply binary_round_aux_not_nan. exact Hq.
Qed.

Lemma number_of_Z_not_nan (z : Z) : Number_isNaN (number_of_Z z) = false.
Proof.
  pose proof (binary_normalize_not_nan prec emax z 0 false) as H.
  unfold number_of_Z. destruct (binary_normalize prec emax z 0 false);
    congruence || reflexivity.
Qed.

Lemma number_of_decimal_not_nan (negative : bool) (m : N) (e : Z) :
  Number_isNaN (number_of_decimal negative m e) = false.
Proof.
  unfold number_of_decimal. destruct m as [|q]; [reflexivity|].
  destruct (0 <=? e)%Z.
  - pose proof (binary_normalize_not_nan prec emax
                  (cond_Zopp negative (Z.pos q * 10 ^ e)) 0 negative) as H.
    destruct (binary_normalize _ _ _ _ _); congruence || reflexivity.
  - pose proof (SFdiv_finite_not_nan prec emax negative false q
                  (Z.to_pos (10 ^ (- e))) 0 0) as H.
    destruct (SFdiv _ _ _ _); congruence || reflexivity.
Qed.

Lemma StrNumericLiteral_not_nan (lit : string) (n : number) :
  StrNumericLiteral lit = Some n -> Number_isNaN n = false.
Proof.
  unfold StrNumericLiteral.
  destruct (NonDecimalIntegerLiteral lit) as [k|] eqn:Hnon.
  - intros H. injection H as <-. unfold NonDecimalIntegerLiteral in Hnon.
    destruct lit as [|z [|q digits]]; try discriminate.
    destruct (if negb (is_char z "0") then None
              else if is_char q "x" || is_char q "X" then Some 16%N
              else if is_char q "o" || is_char q "O" then Some 8%N
              else if is_char q "b" || is_char q "B" then Some 2%N
              else None) as [radix|]; [|discriminate].
    destruct digits as [|d ds]; [discriminate|].
    destruct (digits_value radix 0 (String d ds)); [|discriminate].
    injection Hnon as <-. apply number_of_Z_not_nan.
  - unfold StrDecimalLiteral. destruct (signed lit) as [negative body].
    destruct (body =? "Infinity").
    + intros H. injection H as <-. reflexivity.
    + destruct (StrUnsignedDecimalLiteral body) as [[m e]|]; [|discriminate].
      intros H. injection H as <-. apply number_of_decimal_not_nan.
Qed.

Lemma isNaN_string (s : string) :
  isNaN Number_toString (VStr s)
  = Some (negb ((trim s =? "") || is_numeric_string (VStr s))).
Proof.
  unfold isNaN, ToNumber, StringToNumber, is_numeric_string. cbn [option_map].
  f_equal.
  destruct (trim s) as [|c lit] eqn:Htrim; [reflexivity|].
  destruct (StrNumericLiteral (String c lit)) as [n|] eqn:Hlit; [|reflexivity].
  rewrite (StrNumericLiteral_not_nan _ _ Hlit). reflexivity.
Qed.

(** ** Conversions that throw *)

Lemma ToString_converts :
  forall v : value,
    ToString Number_toString v = None <-> converts_to_primitive v = false.
Proof.
  fix IH 1. intros [| |b|n|s|elements|properties].
  - split; discriminate.
  - split; discriminate.
  - destruct b; split; discriminate.
  - split; discriminate.
  - split; discriminate.
  - cbn [ToString converts_to_primitive].
    induction elements as [|e rest IHrest].
    + split; discriminate.
    + cbn [map all_converted forallb].
      assert (Hhead : match e with
                      | undefined | null => Some ""
                      | _ => ToString Number_toString e
                      end = None <-> converts_to_primitive e = false).
      { pose proof (IH e) as He.
        destruct e; try exact He; split; discriminate. }
      destruct (match e with
                | undefined | null => Some ""
                | _ => ToString Number_toString e
                end) as [head|];
        destruct (converts_to_primitive e);
        try (exfalso; destruct Hhead as [H1 H2];
             (discriminate (H1 eq_refl) || discriminate (H2 eq_refl)));
        cbn [andb].
      * destruct (all_converted _); cbn [option_map] in *; [|exact IHrest].
        split; [discriminate|].
        intros H. apply IHrest in H. discriminate H.
      * split; reflexivity.
  - cbn [ToString converts_to_primitive].
    destruct (has_own_property properties "toString"); split;
      (reflexivity || discriminate).
Qed.

Lemma ToNumber_converts (v : value) :
  ToNumber Number_toString v = None <-> converts_to_primitive v = false.
Proof.
  rewrite <- ToString_converts.
  destruct v as [| |b|n|s|elements|properties];
    try (destruct b); try (split; discriminate);
    unfold ToNumber;
    (destruct (ToString Number_toString _); split; (reflexivity || discriminate)).
Qed.

Lemma number_if_numeric_converts (v : value) :
  number_if_numeric v = None <-> converts_to_primitive v = false.
Proof.
  rewrite <- ToNumber_converts. unfold number_if_numeric.
  destruct (ToNumber Number_toString v); split; (reflexivity || discriminate).
Qed.

Lemma numbers_convert (l : list value) :
  all_converted (map number_if_numeric l) = None
  <-> forallb converts_to_primitive l = false.
Proof.
  induction l as [|e rest IH]; cbn [map all_converted forallb].
  - split; discriminate.
  - pose proof (number_if_numeric_converts e) as He.
    destruct (number_if_numeric e) as [head|];
      destruct (converts_to_primitive e);
      try (exfalso; destruct He as [H1 H2];
           (discriminate (H1 eq_refl) || discriminate (H2 eq_refl)));
      cbn [andb].
    + destruct (all_converted _); cbn [option_map] in *; [|exact IH].
      split; [discriminate|].
      intros H. apply IH in H. discriminate H.
    + split; reflexivity.
Qed.

Lemma strings_convert (strings : list string) :
  all_converted (map number_if_numeric (map VStr strings))
  = Some (map (fun s => if Number_isNaN (StringToNumber s) then VStr s
                        else VNum (StringToNumber s)) strings).
Proof.
  induction strings as [|s rest IH]; [reflexivity|].
  cbn [map all_converted]. rewrite IH. reflexivity.
Qed.

(** ** Runs *)

Lemma bind_ret {A B : Type} (a : A) (k : A -> run B) : bind (ret a) k = k a.
Proof. unfold bind, ret. destruct (k a). reflexivity. Qed.

Lemma bind_primitive_call (validator : value -> bool) (converted : option value) :
  bind (primitive converted) (fun v => call validator v)
  = delegating validator converted.
Proof. destruct converted; reflexivity. Qed.

Lemma to_number_if_numeric_run (v : value) :
  to_number_if_numeric v = primitive (number_if_numeric v).
Proof.
  unfold to_number_if_numeric, number_if_numeric, isNaN, unary_plus.
  destruct (ToNumber Number_toString v) as [n|]; [|reflexivity].
  cbn. destruct (Number_isNaN n); reflexivity.
Qed.

Lemma map_elements_numbers (l : list value) :
  map_elements to_number_if_numeric l
  = primitive (all_converted (map number_if_numeric l)).
Proof.
  induction l as [|e rest IH]; [reflexivity|].
  cbn [map_elements map all_converted].
  rewrite to_number_if_numeric_run, IH.
  destruct (number_if_numeric e); [|reflexivity].
  destruct (all_converted (map number_if_numeric rest)); reflexivity.
Qed.

Lemma map_elements_booleans (l : list value) :
  map_elements (fun bool => ret (to_boolean_if_literal bool)) l
  = ret (map to_boolean_if_literal l).
Proof.
  induction l as [|e rest IH]; [reflexivity|].
  cbn [map_elements map]. rewrite IH. reflexivity.
Qed.

(** ** The validator attachment pass *)

Lemma operations_of_add_validators (document : Document.t) :
  operations_of (add_validators document)
  = map compile_operation (operations_of document).
Proof.
  unfold operations_of, add_validators; simpl.
  induction (Document.paths document) as [|[pathName path] rest IH]; simpl.
  - reflexivity.
  - rewrite map_app, IH. f_equal.
    unfold compile_path. rewrite !map_map.
    apply map_ext. intros [operationName operation]. reflexivity.
Qed.

Lemma parameters_of_add_validators (document : Document.t) :
  parameters_of (add_validators document)
  = map compile_parameter (parameters_of document).
Proof.
  unfold parameters_of. rewrite operations_of_add_validators.
  induction (operations_of document) as [|operation rest IH]; simpl.
  - reflexivity.
  - rewrite map_app, IH. f_equal.
    unfold parameters_of_operation; simpl.
    destruct (Operation.parameters operation); reflexivity.
Qed.

Lemma responses_of_add_validators (document : Document.t) :
  responses_of (add_validators document)
  = map compile_response (responses_of document).
Proof.
  unfold responses_of. rewrite operations_of_add_validators.
  induction (operations_of document) as [|operation rest IH]; simpl.
  - reflexivity.
  - rewrite map_app, IH. f_equal.
    unfold responses_of_operation; simpl. rewrite !map_map.
    apply map_ext. intros [statusCode response]. reflexivity.
Qed.

Lemma compile_parameter_validator (parameter : Param.t) :
  Param.validator (compile_parameter parameter)
  = Some (if in_query_or_header parameter
          then stringValidator (schema_of parameter)
          else call (jsonValidator (schema_of parameter))).
Proof.
  unfold compile_parameter.
  destruct (in_query_or_header parameter); reflexivity.
Qed.

Lemma compile_parameter_keeps (parameter : Param.t) :
  Param.name (compile_parameter parameter) = Param.name parameter
  /\ Param.in_ (compile_parameter parameter) = Param.in_ parameter
  /\ Param.schema (compile_parameter parameter) = Param.schema parameter
  /\ Param.as_schema (compile_parameter parameter) = Param.as_schema parameter.
Proof.
  unfold compile_parameter.
  destruct (in_query_or_header parameter); repeat split.
Qed.

Lemma compile_response_validator (response : Response.t) :
  Response.validator (compile_response response)
  = Some match Response.schema response with
         | Some schema => call (jsonValidator schema)
         | None => no_body
         end.
Proof.
  unfold compile_response.
  destruct (Response.schema response); reflexivity.
Qed.

Lemma compile_response_keeps (response : Response.t) :
  Response.schema (compile_response response) = Response.schema response.
Proof.
  unfold compile_response.
  destruct (Response.schema response) eqn:E; simpl; exact E.
Qed.

(** ** Absent values *)

Lemma stringValidator_undefined (schema : Schema.t) :
  stringValidator schema undefined
  = (Normal (negb (ToBoolean (Schema.required schema))), []).
Proof. reflexivity. Qed.

(** C1, as the code has it.  In a compiled document, the validator of a
    query or header parameter applied to [undefined] returns the negation
    of the [required] member of the fragment it was built from, that is of
    [parameter.schema || parameter], whatever the declared type, and the
    run records no call of the underlying validator.  For a parameter
    without a nested [schema] that member is the parameter's own
    [required] flag; for a parameter that nests a [schema] it is the
    member of the nested schema, and the parameter's own flag is not
    read. *)
Theorem absent_value_depends_on_required_only
    (document : Document.t) (parameter : Param.t) :
  In parameter (parameters_of (add_validators (deref document))) ->
  Param.in_ parameter = "query" \/ Param.in_ parameter = "header" ->
  exists validator : Validator,
    Param.validator parameter = Some validator
    /\ result_of (validator undefined)
       = Normal (negb (ToBoolean (Schema.required (schema_of parameter))))
    /\ delegated (validator undefined) = []
    /\ (Param.schema parameter = None ->
        forall required : bool,
          Param.required parameter = VBool required ->
          validator undefined = (Normal (negb required), []))
    /\ (forall nested : Schema.t,
          Param.schema parameter = Some nested ->
          validator undefined
          = (Normal (negb (ToBoolean (Schema.required nested))), [])).
Proof.
  intros Hin Hwhere.
  rewrite parameters_of_add_validators in Hin.
  apply in_map_iff in Hin. destruct Hin as [original [<- _]].
  destruct (compile_parameter_keeps original) as (_ & Hloc & Hnested & Hown).
  assert (Hschema : schema_of (compile_parameter original) = schema_of original)
    by (unfold schema_of; rewrite Hnested, Hown; reflexivity).
  assert (Hwhere' : in_query_or_header original = true).
  { unfold in_query_or_header. rewrite <- Hloc.
    destruct Hwhere as [-> | ->]; reflexivity. }
  exists (stringValidator (schema_of original)).
  rewrite compile_parameter_validator, Hwhere', Hschema.
  rewrite stringValidator_undefined.
  repeat split.
  - intros Hnone required Hrequired.
    unfold Param.required in Hrequired.
    unfold schema_of. rewrite <- Hnested, Hnone, <- Hown, Hrequired.
    reflexivity.
  - intros nested Hsome.
    unfold schema_of. rewrite <- Hnested, Hsome. reflexivity.
Qed.

(** C4.  In a compiled document, the validator of a response that declares
    no schema returns [true] exactly for the bodies [undefined], [null] and
    the empty string, and [false] for every other body. *)
Theorem no_schema_response_requires_no_body
    (document : Document.t) (response : Response.t) :
  In response (responses_of (add_validators (deref document))) ->
  Response.schema response = None ->
  exists validator : Validator,
    Response.validator response = Some validator
    /\ forall body : value,
         exists accepted : bool,
           validator body = (Normal accepted, [])
           /\ (accepted = true
               <-> body = undefined \/ body = null \/ body = VStr "").
Proof.
  intros Hin Hnone.
  rewrite responses_of_add_validators in Hin.
  apply in_map_iff in Hin. destruct Hin as [original [<- _]].
  rewrite compile_response_keeps in Hnone.
  exists no_body. split.
  - rewrite compile_response_validator, Hnone. reflexivity.
  - intros body. unfold no_body, ret.
    destruct body as [| |b|n|s|elements|properties]; simpl;
      eexists; (split; [reflexivity|]).
    + tauto.
    + tauto.
    + split; [discriminate|]. intros [H|[H|H]]; discriminate.
    + split; [discriminate|]. intros [H|[H|H]]; discriminate.
    + split.
      * intros H. apply String.eqb_eq in H. subst s. tauto.
      * intros [H|[H|H]]; try discriminate. injection H as ->. reflexivity.
    + split; [discriminate|]. intros [H|[H|H]]; discriminate.
    + split; [discriminate|]. intros [H|[H|H]]; discriminate.
Qed.

(** C8.  After the attachment pass every parameter and every response of
    the document carries a validator, and only one; the pass adds nothing
    and drops nothing. *)
Theorem every_parameter_and_response_gets_a_validator (document : Document.t) :
  let compiled := add_validators (deref document) in
  Forall (fun parameter => exists! v, Param.validator parameter = Some v)
    (parameters_of compiled)
  /\ Forall (fun response => exists! v, Response.validator response = Some v)
      (responses_of compiled)
  /\ parameters_of compiled = map compile_parameter (parameters_of (deref document))
  /\ responses_of compiled = map compile_response (responses_of (deref document)).
Proof.
  cbv zeta.
  rewrite parameters_of_add_validators, responses_of_add_validators.
  repeat split.
  - apply Forall_forall. intros parameter Hin.
    apply in_map_iff in Hin. destruct Hin as [original [<- _]].
    rewrite compile_parameter_validator.
    eexists. split; [reflexivity|].
    intros v' H. injection H as <-. reflexivity.
  - apply Forall_forall. intros response Hin.
    apply in_map_iff in Hin. destruct Hin as [original [<- _]].
    rewrite compile_response_validator.
    eexists. split; [reflexivity|].
    intros v' H. injection H as <-. reflexivity.
Qed.

(** ** The run of the validator

    What a run does with a value other than [undefined], by the declared
    type. *)

Lemma case_true (scrutinee : option string) (lit : string) :
  case scrutinee lit = true -> scrutinee = Some lit.
Proof.
  destruct scrutinee as [s|]; simpl; [|discriminate].
  intros H. apply String.eqb_eq in H. subst s. reflexivity.
Qed.

Lemma is_undefined_false (v : value) : v <> undefined -> is_undefined v = false.
Proof. destruct v; (congruence || reflexivity). Qed.

Lemma stringValidator_numeric (schema : Schema.t) (value : value) :
  case (Schema.type schema) "number" || case (Schema.type schema) "integer" = true ->
  value <> undefined ->
  stringValidator schema value
  = delegating (jsonValidator schema) (number_if_numeric value).
Proof.
  intros Htype Hdefined. unfold stringValidator. cbv zeta.
  rewrite (is_undefined_false _ Hdefined), Htype.
  rewrite to_number_if_numeric_run. apply bind_primitive_call.
Qed.

Lemma stringValidator_number (schema : Schema.t) (value : value) :
  Schema.type schema = Some "number" \/ Schema.type schema = Some "integer" ->
  value <> undefined ->
  stringValidator schema value
  = delegating (jsonValidator schema) (number_if_numeric value).
Proof.
  intros Htype. apply stringValidator_numeric.
  destruct Htype as [-> | ->]; reflexivity.
Qed.

Lemma split_not_nil (sep : ascii) (s : string) : split sep s <> [].
Proof.
  destruct s as [|c rest]; simpl; [discriminate|].
  destruct (is_char c sep); [discriminate|].
  destruct (split sep rest); discriminate.
Qed.

(** Joining the pieces with the separator gives the string back. *)
Lemma join_split (sep : ascii) (s : string) :
  join (String sep "") (split sep s) = s.
Proof.
  induction s as [|c rest IH]; simpl; [reflexivity|].
  destruct (is_char c sep) eqn:Hc.
  - apply Ascii.eqb_eq in Hc. subst c.
    pose proof (split_not_nil sep rest) as Hne.
    destruct (split sep rest) as [|piece pieces]; [congruence|].
    simpl in *. rewrite IH. reflexivity.
  - destruct (split sep rest) as [|piece pieces] eqn:Hsplit.
    + exfalso. exact (split_not_nil sep rest Hsplit).
    + destruct pieces; simpl in *; rewrite IH; reflexivity.
Qed.

(** No piece contains the separator. *)
Lemma split_pieces (sep : ascii) (s : string) :
  Forall (fun piece => occurs sep piece = false) (split sep s).
Proof.
  induction s as [|c rest IH]; simpl.
  - constructor; [reflexivity|constructor].
  - destruct (is_char c sep) eqn:Hc.
    + constructor; [reflexivity|exact IH].
    + destruct (split sep rest) as [|piece pieces].
      * constructor; [simpl; rewrite Hc; reflexivity|constructor].
      * inversion IH; subst. constructor; [|assumption].
        simpl. rewrite Hc. assumption.
Qed.

Lemma separator_of_other (format : string) :
  format <> "csv" -> format <> "ssv" -> format <> "tsv" -> format <> "pipes" ->
  separator_of format = None.
Proof.
  intros H1 H2 H3 H4. unfold separator_of.
  apply String.eqb_neq in H1, H2, H3, H4.
  rewrite H1, H2, H3, H4. reflexivity.
Qed.

(** Lines 108-133, once [value] holds the array [l]. *)
Lemma coercion_of_elements (item : Schema.t) (l : list value)
    (validator : value -> bool) :
  bind
    (bind (member (Some item) Schema.type "type")
       (fun items_type =>
          if case items_type "number" || case items_type "integer" then
            Array_map to_number_if_numeric (VArr l)
          else if case items_type "boolean" then
            Array_map (fun bool => ret (to_boolean_if_literal bool)) (VArr l)
          else ret (VArr l)))
    (fun v => call validator v)
  = delegating validator (option_map VArr (coerce_elements (Schema.type item) l)).
Proof.
  unfold member. rewrite bind_ret. unfold coerce_elements, Array_map.
  destruct (case (Schema.type item) "number" || case (Schema.type item) "integer").
  - rewrite map_elements_numbers.
    destruct (all_converted (map number_if_numeric l)); reflexivity.
  - destruct (case (Schema.type item) "boolean"); [|reflexivity].
    rewrite map_elements_booleans. reflexivity.
Qed.

Lemma stringValidator_array (schema item : Schema.t) (value : value) :
  Schema.type schema = Some "array" ->
  Schema.items schema = Some item ->
  value <> undefined ->
  stringValidator schema value
  = delegating (jsonValidator schema)
      match elements_of schema value with
      | Some elements =>
          option_map VArr (coerce_elements (Schema.type item) elements)
      | None => None
      end.
Proof.
  intros Htype Hitems Hdefined.
  unfold stringValidator. cbv zeta.
  rewrite (is_undefined_false _ Hdefined), Htype, Hitems.
  change (case (Some "array") "number") with false.
  change (case (Some "array") "integer") with false.
  change (case (Some "array") "boolean") with false.
  change (case (Some "array") "array") with true.
  cbn [orb].
  destruct (Array_isArray value) eqn:Harray.
  - destruct value; try discriminate Harray.
    cbn [negb elements_of]. rewrite bind_ret. apply coercion_of_elements.
  - assert (Helements : elements_of schema value
                        = split_by_format (format_of schema) value)
      by (destruct value; (discriminate Harray || reflexivity)).
    rewrite Helements. unfold split_by_format, separator_of. cbn [negb].
    set (format := format_of schema).
    assert (Hsplit : forall sep : ascii,
               bind
                 (bind (String_split value sep)
                    (fun value0 =>
                       bind (member (Some item) Schema.type "type")
                         (fun items_type =>
                            if case items_type "number" || case items_type "integer"
                            then Array_map to_number_if_numeric value0
                            else if case items_type "boolean"
                            then Array_map
                                   (fun bool => ret (to_boolean_if_literal bool))
                                   value0
                            else ret value0)))
                 (fun v => call (jsonValidator schema) v)
               = delegating (jsonValidator schema)
                   match
                     option_map (fun s => map VStr (split sep s))
                       (ToString Number_toString value)
                   with
                   | Some elements =>
                       option_map VArr
                         (coerce_elements (Schema.type item) elements)
                   | None => None
                   end).
    { intros sep. unfold String_split.
      destruct (ToString Number_toString value) as [s|]; [|reflexivity].
      cbn [primitive option_map]. rewrite !bind_ret.
      apply coercion_of_elements. }
    destruct (format =? "csv"); [apply Hsplit|].
    destruct (format =? "ssv"); [apply Hsplit|].
    destruct (format =? "tsv"); [apply Hsplit|].
    destruct (format =? "pipes"); [apply Hsplit|].
    rewrite bind_ret. apply coercion_of_elements.
Qed.

Lemma stringValidator_without_items (schema : Schema.t) (input : value) :
  input <> undefined ->
  Schema.type schema = Some "array" ->
  Schema.items schema = None ->
  stringValidator schema input
  = throw match elements_of schema input with
          | Some _ => TypeError "Cannot read property 'type' of undefined"
          | None => not_primitive
          end.
Proof.
  intros Hdefined Htype Hitems.
  unfold stringValidator. cbv zeta.
  rewrite (is_undefined_false _ Hdefined), Htype, Hitems.
  change (case (Some "array") "number") with false.
  change (case (Some "array") "integer") with false.
  change (case (Some "array") "boolean") with false.
  change (case (Some "array") "array") with true.
  cbn [orb].
  destruct (Array_isArray input) eqn:Harray.
  - destruct input; try discriminate Harray. reflexivity.
  - assert (Helements : elements_of schema input
                        = split_by_format (format_of schema) input)
      by (destruct input; (discriminate Harray || reflexivity)).
    rewrite Helements. unfold split_by_format, separator_of. cbn [negb].
    set (format := format_of schema).
    assert (Hsplit : forall sep : ascii,
               bind
                 (bind (String_split input sep)
                    (fun value0 =>
                       bind (@member Schema.t _ None Schema.type "type")
                         (fun items_type =>
                            if case items_type "number" || case items_type "integer"
                            then Array_map to_number_if_numeric value0
                            else if case items_type "boolean"
                            then Array_map
                                   (fun bool => ret (to_boolean_if_literal bool))
                                   value0
                            else ret value0)))
                 (fun v => call (jsonValidator schema) v)
               = throw match
                         option_map (fun s => map VStr (split sep s))
                           (ToString Number_toString input)
                       with
                       | Some _ =>
                           TypeError "Cannot read property 'type' of undefined"
                       | None => not_primitive
                       end).
    { intros sep. unfold String_split.
      destruct (ToString Number_toString input) as [s|]; reflexivity. }
    destruct (format =? "csv"); [apply Hsplit|].
    destruct (format =? "ssv"); [apply Hsplit|].
    destruct (format =? "tsv"); [apply Hsplit|].
    destruct (format =? "pipes"); [apply Hsplit|].
    reflexivity.
Qed.

Lemma stringValidator_coerced (schema : Schema.t) (input : value) :
  input <> undefined ->
  (Schema.type schema = Some "array" -> Schema.items schema <> None) ->
  stringValidator schema input
  = delegating (jsonValidator schema) (coerced schema input).
Proof.
  intros Hdefined Hitems. unfold coerced. cbv zeta.
  destruct (case (Schema.type schema) "number" || case (Schema.type schema) "integer")
    eqn:Hnumber; [apply stringValidator_numeric; assumption|].
  destruct (case (Schema.type schema) "boolean") eqn:Hboolean.
  { unfold stringValidator. cbv zeta.
    rewrite (is_undefined_false _ Hdefined), Hnumber, Hboolean. reflexivity. }
  destruct (case (Schema.type schema) "array") eqn:Harray.
  - apply case_true in Harray.
    destruct (Schema.items schema) as [item|] eqn:Hitem;
      [|exfalso; apply (Hitems Harray); reflexivity].
    rewrite (stringValidator_array schema item) by assumption.
    unfold items_type. rewrite Hitem. reflexivity.
  - unfold stringValidator. cbv zeta.
    rewrite (is_undefined_false _ Hdefined), Hnumber, Hboolean, Harray.
    reflexivity.
Qed.

(** A run throws in a conversion exactly when it needs a primitive that
    the value does not have. *)
Lemma coerced_throws (schema : Schema.t) (input : value) :
  coerced schema input = None
  <-> needs_primitive schema input = true
      /\ converts_to_primitive input = false.
Proof.
  unfold coerced, needs_primitive. cbv zeta.
  destruct (case (Schema.type schema) "number" || case (Schema.type schema) "integer").
  { rewrite number_if_numeric_converts. tauto. }
  destruct (case (Schema.type schema) "boolean").
  { split; [discriminate|]. intros [H _]. discriminate H. }
  destruct (case (Schema.type schema) "array").
  2:{ split; [discriminate|]. intros [H _]. discriminate H. }
  set (item_type := items_type schema).
  assert (Hcoerce : forall l,
             option_map VArr (coerce_elements item_type l) = None
             <-> (case item_type "number" || case item_type "integer" = true
                  /\ forallb converts_to_primitive l = false)).
  { intros l. unfold coerce_elements.
    destruct (case item_type "number" || case item_type "integer").
    - rewrite <- numbers_convert.
      destruct (all_converted (map number_if_numeric l)); cbn [option_map].
      + split; [discriminate|]. intros [_ H]. discriminate H.
      + tauto.
    - destruct (case item_type "boolean"); cbn [option_map];
        (split; [discriminate|]; intros [H _]; discriminate H). }
  destruct (Array_isArray input) eqn:Harray.
  - destruct input; try discriminate Harray.
    cbn [elements_of negb andb orb converts_to_primitive]. apply Hcoerce.
  - assert (Helements : elements_of schema input
                        = split_by_format (format_of schema) input)
      by (destruct input; (discriminate Harray || reflexivity)).
    rewrite Helements. unfold split_by_format. cbn [negb andb].
    pose proof (ToString_converts input) as Hstring.
    destruct (separator_of (format_of schema)) as [sep|]; cbn [orb].
    + destruct (ToString Number_toString input) as [s|]; cbn [option_map].
      * rewrite Hcoerce.
        assert (Hpieces : forallb converts_to_primitive (map VStr (split sep s))
                          = true)
          by (induction (split sep s); [reflexivity|assumption]).
        rewrite Hpieces.
        destruct (converts_to_primitive input).
        -- split; intros [_ H]; discriminate H.
        -- destruct Hstring as [_ H]. discriminate (H eq_refl).
      * split; [|reflexivity]. intros _. split; [reflexivity|].
        apply Hstring. reflexivity.
    + rewrite Hcoerce. cbn [forallb]. rewrite andb_true_r. reflexivity.
Qed.

(** ** Numbers *)

(** C2, as the code has it.  With a schema of type [number] or [integer],
    a value other than [undefined] that has a numeric value is replaced by
    it exactly when [isNaN] is false of it, and handed on unchanged
    otherwise; for a string, [isNaN] is false exactly when the string is
    blank or a numeric literal.  A value that has no numeric value at all,
    because its conversion throws, is neither converted nor handed on: the
    validator throws; these are the values that have no primitive.  If the
    underlying validator of [{type: "number"}] accepts finite Numbers and
    rejects strings, then ["5"] is valid and ["abc"] is not. *)
Theorem numeric_values_are_converted (schema : Schema.t) (value : value) :
  Schema.type schema = Some "number" \/ Schema.type schema = Some "integer" ->
  value <> undefined ->
  (forall n, Number_isFinite n = true -> jsonValidator number_schema (VNum n) = true) ->
  (forall s, jsonValidator number_schema (VStr s) = false) ->
  stringValidator schema value
  = match ToNumber Number_toString value with
    | Some n =>
        delegates (jsonValidator schema)
          (if Number_isNaN n then value else VNum n)
    | None => throw not_primitive
    end
  /\ (ToNumber Number_toString value = None
      <-> converts_to_primitive value = false)
  /\ (forall s : string,
        isNaN Number_toString (VStr s)
        = Some (negb ((trim s =? "") || is_numeric_string (VStr s))))
  /\ stringValidator number_schema (VStr "5")
     = (Normal true, [VNum (number_of_Z 5)])
  /\ stringValidator number_schema (VStr "abc")
     = (Normal false, [VStr "abc"]).
Proof.
  intros Htype Hdefined Haccept Hreject. split; [|split; [|split; [|split]]].
  - rewrite stringValidator_number by assumption.
    unfold number_if_numeric.
    destruct (ToNumber Number_toString value); reflexivity.
  - apply ToNumber_converts.
  - exact isNaN_string.
  - rewrite stringValidator_number by (auto; discriminate).
    replace (number_if_numeric (VStr "5")) with (Some (VNum (number_of_Z 5)))
      by reflexivity.
    unfold delegating, delegates.
    rewrite Haccept by reflexivity. reflexivity.
  - rewrite stringValidator_number by (auto; discriminate).
    replace (number_if_numeric (VStr "abc")) with (Some (VStr "abc"))
      by reflexivity.
    unfold delegating, delegates.
    rewrite Hreject. reflexivity.
Qed.

(** A string that is no numeric literal and of which [isNaN] is false is
    blank, and its numeric value is +0. *)
Lemma blank_string_is_zero (s : string) :
  is_numeric_string (VStr s) = false ->
  isNaN Number_toString (VStr s) = Some false ->
  trim s = "" /\ ToNumber Number_toString (VStr s) = Some (number_of_Z 0).
Proof.
  unfold is_numeric_string, isNaN, ToNumber, StringToNumber. cbn [option_map].
  destruct (trim s) as [|c lit]; [split; reflexivity|].
  destruct (StrNumericLiteral (String c lit)); discriminate.
Qed.

(** C9, as the code has it.  With a schema of type [number] or [integer],
    every value other than [undefined] of which [isNaN] is false is handed
    to the underlying validator as its numeric value.  That value is 0 for
    [null] and for every string that is no numeric literal, which is then
    the empty string or white space; [null] is not treated as absent. *)
Theorem values_that_are_not_NaN_become_numbers (schema : Schema.t) :
  Schema.type schema = Some "number" \/ Schema.type schema = Some "integer" ->
  (forall value : value,
      value <> undefined ->
      isNaN Number_toString value = Some false ->
      exists n : number,
        ToNumber Number_toString value = Some n
        /\ stringValidator schema value
           = delegates (jsonValidator schema) (VNum n))
  /\ (forall s : string,
        is_numeric_string (VStr s) = false ->
        isNaN Number_toString (VStr s) = Some false ->
        stringValidator schema (VStr s)
        = delegates (jsonValidator schema) (VNum (number_of_Z 0)))
  /\ stringValidator schema (VStr "")
     = delegates (jsonValidator schema) (VNum (number_of_Z 0))
  /\ stringValidator schema null
     = delegates (jsonValidator schema) (VNum (number_of_Z 0)).
Proof.
  intros Htype.
  assert (Hgeneral : forall value : value,
             value <> undefined ->
             isNaN Number_toString value = Some false ->
             exists n : number,
               ToNumber Number_toString value = Some n
               /\ stringValidator schema value
                  = delegates (jsonValidator schema) (VNum n)).
  { intros value Hdefined Hnumeric.
    rewrite stringValidator_number by assumption.
    unfold isNaN in Hnumeric. unfold number_if_numeric.
    destruct (ToNumber Number_toString value) as [n|]; [|discriminate].
    cbn [option_map] in Hnumeric. injection Hnumeric as Hnumeric.
    exists n. rewrite Hnumeric. split; reflexivity. }
  split; [exact Hgeneral|]. split; [|split].
  - intros s Hliteral Hnumeric.
    destruct (Hgeneral (VStr s)) as (n & Hn & ->);
      [discriminate|assumption|].
    destruct (blank_string_is_zero s Hliteral Hnumeric) as [_ Hzero].
    rewrite Hzero in Hn. injection Hn as <-. reflexivity.
  - destruct (Hgeneral (VStr "")) as (n & Hn & ->);
      [discriminate|reflexivity|].
    injection Hn as <-. reflexivity.
  - destruct (Hgeneral null) as (n & Hn & ->);
      [discriminate|reflexivity|].
    injection Hn as <-. reflexivity.
Qed.

(** ** Arrays *)

Lemma strings_are_coerced (item_type : option string) (pieces : list string) :
  exists coerced : list value,
    coerce_elements item_type (map VStr pieces) = Some coerced.
Proof.
  unfold coerce_elements.
  destruct (case item_type "number" || case item_type "integer").
  - rewrite strings_convert. eexists. reflexivity.
  - destruct (case item_type "boolean"); eexists; reflexivity.
Qed.

(** C3, as the code has it.  With a schema of type [array] that declares
    its items, a value that is neither [undefined] nor an array and has a
    string is stringified and split at the separator of the declared
    collection format: [,] for [csv] and when no format or an empty one is
    declared, a space for [ssv], a tab for [tsv], [|] for [pipes]; the
    pieces, in order, contain no separator and give the string back when
    joined.  A value that has no string, because its conversion throws,
    makes the validator throw.  For [multi] and every other format that
    is not empty the value itself is the only element.  The elements are
    then converted according to the declared item type and the resulting
    array is what the underlying validator receives. *)
Theorem array_values_are_split_then_coerced
    (schema item : Schema.t) (input : value) :
  Schema.type schema = Some "array" ->
  Schema.items schema = Some item ->
  input <> undefined ->
  Array_isArray input = false ->
  let format := format_of schema in
  ((Schema.collectionFormat schema = None
    \/ Schema.collectionFormat schema = Some "" -> format = "csv")
   /\ (forall declared : string,
         Schema.collectionFormat schema = Some declared ->
         declared <> "" -> format = declared))
  /\ (separator_of "csv" = Some ","%char
      /\ separator_of "ssv" = Some " "%char
      /\ separator_of "tsv" = Some "009"%char
      /\ separator_of "pipes" = Some "|"%char
      /\ separator_of "multi" = None
      /\ forall other : string,
           other <> "csv" -> other <> "ssv" -> other <> "tsv" ->
           other <> "pipes" -> separator_of other = None)
  /\ (forall sep : ascii,
        separator_of format = Some sep ->
        (forall s : string,
            ToString Number_toString input = Some s ->
            exists coerced : list value,
              coerce_elements (Schema.type item) (map VStr (split sep s))
              = Some coerced
              /\ stringValidator schema input
                 = delegates (jsonValidator schema) (VArr coerced)
              /\ join (String sep "") (split sep s) = s
              /\ Forall (fun piece => occurs sep piece = false) (split sep s))
        /\ (ToString Number_toString input = None ->
            stringValidator schema input = throw not_primitive))
  /\ (separator_of format = None ->
      stringValidator schema input
      = delegating (jsonValidator schema)
          (option_map VArr (coerce_elements (Schema.type item) [input])))
  /\ (Schema.type item = Some "number" \/ Schema.type item = Some "integer" ->
      (forall pieces : list string,
          coerce_elements (Schema.type item) (map VStr pieces)
          = Some (map (fun piece =>
                         if Number_isNaN (StringToNumber piece) then VStr piece
                         else VNum (StringToNumber piece)) pieces))
      /\ coerce_elements (Schema.type item) [input]
         = match ToNumber Number_toString input with
           | Some n => Some [if Number_isNaN n then input else VNum n]
           | None => None
           end)
  /\ (Schema.type item = Some "boolean" ->
      forall elements : list value,
        coerce_elements (Schema.type item) elements
        = Some (map (fun element =>
                       if strict_equals_string element "true" then VBool true
                       else if strict_equals_string element "false" then VBool false
                       else element) elements)).
Proof.
  intros Htype Hitems Hdefined Hscalar format.
  assert (Hrun : stringValidator schema input
                 = delegating (jsonValidator schema)
                     match split_by_format format input with
                     | Some elements =>
                         option_map VArr
                           (coerce_elements (Schema.type item) elements)
                     | None => None
                     end).
  { rewrite (stringValidator_array schema item) by assumption.
    destruct input; try discriminate; reflexivity. }
  split; [|split; [|split; [|split; [|split]]]].
  - split.
    + unfold format, format_of. intros [-> | ->]; reflexivity.
    + intros declared Hdeclared Hnonempty. unfold format, format_of.
      rewrite Hdeclared. apply String.eqb_neq in Hnonempty.
      rewrite Hnonempty. reflexivity.
  - repeat split. exact separator_of_other.
  - intros sep Hsep. unfold split_by_format in Hrun. rewrite Hsep in Hrun.
    split.
    + intros s Hs. rewrite Hs in Hrun. cbn [option_map] in Hrun.
      destruct (strings_are_coerced (Schema.type item) (split sep s))
        as [coerced Hcoerced].
      exists coerced. rewrite Hcoerced in Hrun.
      split; [exact Hcoerced|]. split; [exact Hrun|].
      split; [apply join_split|apply split_pieces].
    + intros Hnone. rewrite Hnone in Hrun. exact Hrun.
  - intros Hnone. unfold split_by_format in Hrun. rewrite Hnone in Hrun.
    exact Hrun.
  - intros Hnum. unfold coerce_elements.
    replace (case (Schema.type item) "number" || case (Schema.type item) "integer")
      with true by (destruct Hnum as [-> | ->]; reflexivity).
    split; [exact strings_convert|].
    cbn [map all_converted]. unfold number_if_numeric.
    destruct (ToNumber Number_toString input); reflexivity.
  - intros Hbool elements. unfold coerce_elements. rewrite Hbool. reflexivity.
Qed.

(** C10.  With a schema of type [array] that declares its items, a value
    that already is an array is not split; its elements are converted
    according to the declared item type all the same: with [number] or
    [integer] items every string element of which [isNaN] is false becomes
    its Number, so ["5"] becomes the Number 5, and with [boolean] items
    ["true"] and ["false"] become the booleans.  With [number] or
    [integer] items an element that has no numeric value, because its
    conversion throws, makes the validator throw. *)
Theorem array_elements_are_coerced_without_splitting
    (schema item : Schema.t) (elements : list value) :
  Schema.type schema = Some "array" ->
  Schema.items schema = Some item ->
  (Schema.type item = Some "number" \/ Schema.type item = Some "integer" ->
   stringValidator schema (VArr elements)
   = match
       all_converted
         (map (fun element =>
                 match ToNumber Number_toString element with
                 | Some n => Some (if Number_isNaN n then element else VNum n)
                 | None => None
                 end) elements)
     with
     | Some coerced => delegates (jsonValidator schema) (VArr coerced)
     | None => throw not_primitive
     end
   /\ (forall strings : list string,
         stringValidator schema (VArr (map VStr strings))
         = delegates (jsonValidator schema)
             (VArr (map (fun s =>
                           if Number_isNaN (StringToNumber s) then VStr s
                           else VNum (StringToNumber s)) strings)))
   /\ stringValidator schema (VArr [VStr "5"])
      = delegates (jsonValidator schema) (VArr [VNum (number_of_Z 5)]))
  /\ (Schema.type item = Some "boolean" ->
      stringValidator schema (VArr elements)
      = delegates (jsonValidator schema)
          (VArr (map (fun element =>
                        if strict_equals_string element "true" then VBool true
                        else if strict_equals_string element "false" then VBool false
                        else element) elements))
      /\ stringValidator schema (VArr [VStr "true"; VStr "false"; VStr "no"])
         = delegates (jsonValidator schema)
             (VArr [VBool true; VBool false; VStr "no"]))
  /\ (Schema.type item <> Some "number" -> Schema.type item <> Some "integer" ->
      Schema.type item <> Some "boolean" ->
      stringValidator schema (VArr elements)
      = delegates (jsonValidator schema) (VArr elements)).
Proof.
  intros Htype Hitems.
  assert (Hrun : forall l,
             stringValidator schema (VArr l)
             = delegating (jsonValidator schema)
                 (option_map VArr (coerce_elements (Schema.type item) l)))
    by (intros l; apply (stringValidator_array schema item);
        [assumption..|discriminate]).
  split; [|split].
  - intros Hnum. rewrite !Hrun. unfold coerce_elements.
    replace (case (Schema.type item) "number" || case (Schema.type item) "integer")
      with true by (destruct Hnum as [-> | ->]; reflexivity).
    split; [|split].
    + change (fun element : value =>
                match ToNumber Number_toString element with
                | Some n => Some (if Number_isNaN n then element else VNum n)
                | None => None
                end) with number_if_numeric.
      destruct (all_converted (map number_if_numeric elements)); reflexivity.
    + intros strings. rewrite Hrun. unfold coerce_elements.
      replace (case (Schema.type item) "number" || case (Schema.type item) "integer")
        with true by (destruct Hnum as [-> | ->]; reflexivity).
      rewrite strings_convert. reflexivity.
    + reflexivity.
  - intros Hbool. rewrite !Hrun. unfold coerce_elements. rewrite Hbool.
    split; reflexivity.
  - intros Hn Hi Hb. rewrite Hrun. unfold coerce_elements, case.
    destruct (Schema.type item) as [ty|]; [|reflexivity].
    destruct (String.eqb_spec ty "number"); [congruence|].
    destruct (String.eqb_spec ty "integer"); [congruence|].
    destruct (String.eqb_spec ty "boolean"); [congruence|].
    reflexivity.
Qed.

(** ** Exceptions *)

Lemma stringValidator_returns
    (schema : Schema.t) (input : value) :
  (Schema.type schema = Some "array" -> Schema.items schema <> None) ->
  (needs_primitive schema input = true -> converts_to_primitive input = true) ->
  input <> undefined ->
  exists coerced : value,
    stringValidator schema input = delegates (jsonValidator schema) coerced.
Proof.
  intros Hitems Hprimitive Hdefined.
  rewrite stringValidator_coerced by assumption.
  destruct (coerced schema input) as [v|] eqn:Hcoerced.
  - exists v. reflexivity.
  - exfalso. apply coerced_throws in Hcoerced.
    destruct Hcoerced as [Hneeds Hnone].
    rewrite (Hprimitive Hneeds) in Hnone. discriminate Hnone.
Qed.

(** C7, as the code has it.  When a schema of type [array] declares its
    items, the validator throws for no value that has a primitive, which
    every string, Number, boolean, [null] and [undefined] has, and every
    array and object that holds no [toString] member of its own: it
    returns a boolean, and for every such value other than [undefined]
    that boolean is the answer of the underlying validator on the value
    after coercion. *)
Theorem validator_never_throws_when_items_declared
    (schema : Schema.t) (input : value) :
  (Schema.type schema = Some "array" -> Schema.items schema <> None) ->
  converts_to_primitive input = true ->
  (exists answer : bool, result_of (stringValidator schema input) = Normal answer)
  /\ (input <> undefined ->
      exists coerced : value,
        stringValidator schema input = delegates (jsonValidator schema) coerced)
  /\ (forall s : string, converts_to_primitive (VStr s) = true).
Proof.
  intros Hitems Hprimitive.
  assert (Hrun : input <> undefined ->
                 exists coerced : value,
                   stringValidator schema input
                   = delegates (jsonValidator schema) coerced)
    by (apply stringValidator_returns; auto).
  split; [|split; [exact Hrun|reflexivity]].
  destruct input; try (destruct Hrun as [coerced ->]; [discriminate|];
                       eexists; reflexivity).
  eexists. reflexivity.
Qed.

(** X5.  The validator throws in two situations only, both for a value
    other than [undefined]: the schema is of type [array] and declares no
    [items]; or the run converts the value, or its elements, to a
    primitive, and the value has none. *)
Theorem validator_throws_without_items_or_primitive
    (schema : Schema.t) (input : value) :
  (exists e, result_of (stringValidator schema input) = Throw e)
  <-> input <> undefined
      /\ ((Schema.type schema = Some "array" /\ Schema.items schema = None)
          \/ (needs_primitive schema input = true
              /\ converts_to_primitive input = false)).
Proof.
  assert (Hitems : (Schema.type schema = Some "array" /\ Schema.items schema = None)
                   \/ (Schema.type schema = Some "array" ->
                       Schema.items schema <> None)).
  { destruct (Schema.items schema); [right; discriminate|].
    destruct (Schema.type schema) as [ty|]; [|right; discriminate].
    destruct (String.eqb_spec ty "array") as [->|Hother];
      [left; split; reflexivity|right; congruence]. }
  split.
  - intros [e He].
    assert (Hdefined : input <> undefined)
      by (intros ->; discriminate He).
    split; [exact Hdefined|].
    destruct Hitems as [Hnone | Hitems]; [left; exact Hnone|right].
    rewrite stringValidator_coerced in He by assumption.
    apply coerced_throws.
    destruct (coerced schema input); [discriminate He|reflexivity].
  - intros (Hdefined & Hcases).
    destruct Hitems as [[Htype Hnone] | Hitems].
    + rewrite stringValidator_without_items by assumption.
      eexists. reflexivity.
    + destruct Hcases as [[Htype Hnone] | Hthrows];
        [exfalso; exact (Hitems Htype Hnone)|].
      apply coerced_throws in Hthrows.
      rewrite stringValidator_coerced by assumption.
      rewrite Hthrows. eexists. reflexivity.
Qed.

(** ** Booleans and the other types *)

(** X1.  With a schema of type [boolean], the strings ["true"] and ["false"]
    become the booleans and every other value is handed on unchanged.  If
    the underlying validator of [{type: "boolean"}] accepts booleans and
    rejects strings, then ["true"] is valid and ["maybe"] is not. *)
Theorem boolean_literals_are_converted (schema : Schema.t) (input : value) :
  Schema.type schema = Some "boolean" ->
  input <> undefined ->
  (forall b, jsonValidator boolean_schema (VBool b) = true) ->
  (forall s, jsonValidator boolean_schema (VStr s) = false) ->
  stringValidator schema input
  = delegates (jsonValidator schema)
      (if strict_equals_string input "true" then VBool true
       else if strict_equals_string input "false" then VBool false
       else input)
  /\ stringValidator boolean_schema (VStr "true") = (Normal true, [VBool true])
  /\ stringValidator boolean_schema (VStr "false") = (Normal true, [VBool false])
  /\ stringValidator boolean_schema (VStr "maybe") = (Normal false, [VStr "maybe"]).
Proof.
  intros Htype Hdefined Haccept Hreject.
  assert (Hrun : forall (s : Schema.t) (v : value),
             Schema.type s = Some "boolean" -> v <> undefined ->
             stringValidator s v
             = delegates (jsonValidator s) (to_boolean_if_literal v)).
  { intros s v Hs Hv. unfold stringValidator. rewrite Hs.
    destruct v; try congruence; reflexivity. }
  split; [apply Hrun; assumption|].
  rewrite !Hrun by (reflexivity || discriminate).
  unfold delegates.
  change (to_boolean_if_literal (VStr "true")) with (VBool true).
  change (to_boolean_if_literal (VStr "false")) with (VBool false).
  change (to_boolean_if_literal (VStr "maybe")) with (VStr "maybe").
  rewrite !Haccept, Hreject. repeat split.
Qed.

(** X2.  With a schema whose type is none of [number], [integer],
    [boolean] and [array], or that declares no type, a value other than
    [undefined] is handed to the underlying validator as it came. *)
Theorem other_types_are_not_coerced (schema : Schema.t) (input : value) :
  Schema.type schema <> Some "number" ->
  Schema.type schema <> Some "integer" ->
  Schema.type schema <> Some "boolean" ->
  Schema.type schema <> Some "array" ->
  input <> undefined ->
  stringValidator schema input = delegates (jsonValidator schema) input.
Proof.
  intros Hn Hi Hb Ha Hdefined. unfold stringValidator, case.
  destruct (Schema.type schema) as [ty|].
  - destruct (String.eqb_spec ty "number"); [congruence|].
    destruct (String.eqb_spec ty "integer"); [congruence|].
    destruct (String.eqb_spec ty "boolean"); [congruence|].
    destruct (String.eqb_spec ty "array"); [congruence|].
    destruct input; try congruence; reflexivity.
  - destruct input; try congruence; reflexivity.
Qed.

(** X3.  In a compiled document, the validator of a parameter that is
    neither in the query nor in a header is the underlying validator of
    its schema, the nested [schema] when there is one: every value,
    [undefined] too, is handed to it as it came. *)
Theorem other_parameters_are_validated_as_they_come
    (document : Document.t) (parameter : Param.t) :
  In parameter (parameters_of (add_validators (deref document))) ->
  in_query_or_header parameter = false ->
  exists validator : Validator,
    Param.validator parameter = Some validator
    /\ forall input : value,
         validator input
         = delegates (jsonValidator (schema_of parameter)) input.
Proof.
  intros Hin Hwhere.
  rewrite parameters_of_add_validators in Hin.
  apply in_map_iff in Hin. destruct Hin as [original [<- _]].
  destruct (compile_parameter_keeps original) as (_ & Hloc & Hnested & Hown).
  assert (Hschema : schema_of (compile_parameter original) = schema_of original)
    by (unfold schema_of; rewrite Hnested, Hown; reflexivity).
  assert (Hwhere' : in_query_or_header original = false)
    by (unfold in_query_or_header in *; rewrite <- Hloc; exact Hwhere).
  exists (call (jsonValidator (schema_of original))).
  rewrite compile_parameter_validator, Hwhere', Hschema.
  split; reflexivity.
Qed.

(** X4.  In a compiled document, the validator of a response that
    declares a schema is the underlying validator of that schema. *)
Theorem response_with_schema_is_validated_against_it
    (document : Document.t) (response : Response.t) (schema : Schema.t) :
  In response (responses_of (add_validators (deref document))) ->
  Response.schema response = Some schema ->
  exists validator : Validator,
    Response.validator response = Some validator
    /\ forall body : value,
         validator body = delegates (jsonValidator schema) body.
Proof.
  intros Hin Hschema.
  rewrite responses_of_add_validators in Hin.
  apply in_map_iff in Hin. destruct Hin as [original [<- _]].
  rewrite compile_response_keeps in Hschema.
  exists (call (jsonValidator schema)).
  rewrite compile_response_validator, Hschema.
  split; reflexivity.
Qed.

(** ** The dispatcher *)

Lemma filter_nothing {A : Type} (f : A -> bool) (l : list A) :
  (forall x, In x l -> f x = false) -> filter f l = [].
Proof.
  induction l as [|x l IH]; simpl; intros H; [reflexivity|].
  rewrite (H x) by (left; reflexivity).
  apply IH. intros y Hy. apply H. right. exact Hy.
Qed.

Lemma dispatcher_single (matcher before after : list CompiledPath.t)
    (entry : CompiledPath.t) (path : string) :
  matcher = (before ++ entry :: after)%list ->
  matches path entry = true ->
  (forall other, In other before -> matches path other = false) ->
  (forall other, In other after -> matches path other = false) ->
  dispatcher matcher path = Some entry.
Proof.
  intros -> Hentry Hbefore Hafter. unfold dispatcher.
  fold (matches path). rewrite filter_app. simpl. rewrite Hentry.
  rewrite (filter_nothing _ before Hbefore), (filter_nothing _ after Hafter).
  reflexivity.
Qed.

Lemma dispatcher_none (matcher : list CompiledPath.t) (path : string) :
  (forall entry, In entry matcher -> matches path entry = false) ->
  dispatcher matcher path = None.
Proof.
  intros H. unfold dispatcher. fold (matches path).
  rewrite (filter_nothing _ matcher H). reflexivity.
Qed.

Lemma dispatcher_ambiguous (matcher l1 l2 l3 : list CompiledPath.t)
    (e1 e2 : CompiledPath.t) (path : string) :
  matcher = (l1 ++ e1 :: l2 ++ e2 :: l3)%list ->
  matches path e1 = true ->
  matches path e2 = true ->
  dispatcher matcher path = None.
Proof.
  intros -> H1 H2. unfold dispatcher. fold (matches path).
  rewrite filter_app. simpl. rewrite H1, filter_app. simpl. rewrite H2.
  rewrite length_app. simpl. rewrite length_app. simpl.
  replace (_ =? 1)%nat with false; [reflexivity|].
  symmetry. apply Nat.eqb_neq. lia.
Qed.

Lemma compile_matcher_entries (basePath : string)
    (paths : list (string * PathItem)) (matcher : list CompiledPath.t) :
  compile_matcher basePath paths = Normal matcher ->
  Forall2 (fun (declared : string * PathItem) (entry : CompiledPath.t) =>
             CompiledPath.name entry = fst declared
             /\ CompiledPath.path entry = snd declared
             /\ CompiledPath.expected entry = slash_free_runs (fst declared)
             /\ source (CompiledPath.regex entry)
                = regex_source basePath (fst declared)
             /\ RegExp_parse (regex_source basePath (fst declared))
                = Some (compiled (CompiledPath.regex entry)))
    paths matcher.
Proof.
  revert matcher.
  induction paths as [|[name item] rest IH]; simpl; intros matcher H.
  - injection H as <-. constructor.
  - unfold new_RegExp in H.
    destruct (RegExp_parse (regex_source basePath name)) as [p|] eqn:Hparse;
      [|discriminate].
    destruct (compile_matcher basePath rest) as [entries|e|what];
      [|discriminate..].
    injection H as <-. constructor; [|apply IH; reflexivity].
    repeat split. exact Hparse.
Qed.

Lemma compile_matcher_names (basePath : string)
    (paths : list (string * PathItem)) (matcher : list CompiledPath.t) :
  compile_matcher basePath paths = Normal matcher ->
  map CompiledPath.name matcher = map fst paths.
Proof.
  intros H. apply compile_matcher_entries in H.
  induction H as [|declared entry paths matcher (Hname & _) _ IH]; simpl.
  - reflexivity.
  - rewrite Hname, IH. reflexivity.
Qed.

(** C6.  The function returned by a successful compilation scans the
    entries built from the document's paths, one per path and in their
    order.  For every request path: when one entry matches and no other
    does, that entry is returned; when no entry matches, and also when two
    entries match, the answer is [undefined]. *)
Theorem dispatcher_returns_the_only_match
    (document : Document.t) (compiled : Compiled) :
  compile document = Normal compiled ->
  exists matcher : list CompiledPath.t,
    compile_matcher (Document.basePath (deref document))
      (Document.paths (add_validators (deref document))) = Normal matcher
    /\ map CompiledPath.name matcher = map fst (Document.paths (deref document))
    /\ forall path : string,
        (forall before entry after,
            matcher = (before ++ entry :: after)%list ->
            matches path entry = true ->
            (forall other, In other before -> matches path other = false) ->
            (forall other, In other after -> matches path other = false) ->
            compiled path = Some entry)
        /\ ((forall entry, In entry matcher -> matches path entry = false) ->
            compiled path = None)
        /\ (forall l1 e1 l2 e2 l3,
              matcher = (l1 ++ e1 :: l2 ++ e2 :: l3)%list ->
              matches path e1 = true ->
              matches path e2 = true ->
              compiled path = None).
Proof.
  unfold compile. intros H.
  destruct (compile_matcher _ _) as [matcher|e|what] eqn:Hmatcher;
    [|discriminate..].
  injection H as <-. exists matcher. split; [reflexivity|]. split.
  - rewrite (compile_matcher_names _ _ _ Hmatcher). simpl.
    rewrite map_map. apply map_ext. intros [name item]. reflexivity.
  - intros path. split; [|split].
    + intros before entry after. apply dispatcher_single.
    + apply dispatcher_none.
    + intros l1 e1 l2 e2 l3. apply dispatcher_ambiguous.
Qed.

(** ** Path patterns *)

Lemma append_assoc (a b c : string) : (a ++ b) ++ c = a ++ b ++ c.
Proof. induction a as [|x a IH]; simpl; [reflexivity|]. rewrite IH. reflexivity. Qed.

Lemma plain_not_syntax (c d : ascii) :
  plain c = true -> is_syntax_char d = true -> is_char c d = false.
Proof.
  intros Hplain Hsyntax. destruct (is_char c d) eqn:Heq; [|reflexivity].
  apply Ascii.eqb_eq in Heq. subst d.
  unfold plain in Hplain. rewrite Hsyntax in Hplain. discriminate.
Qed.

(** *** What [replace] does to a template *)

Lemma replace_braces_text (replacement text rest : string) :
  all_chars plain text = true ->
  replace_braces_from replacement None (text ++ rest)
  = text ++ replace_braces_from replacement None rest.
Proof.
  induction text as [|c text IH]; simpl; intros H; [reflexivity|].
  apply andb_true_iff in H. destruct H as [Hc Htext].
  rewrite (plain_not_syntax c "{" Hc) by reflexivity.
  rewrite IH by assumption. reflexivity.
Qed.

Lemma replace_braces_placeholder (replacement label rest held : string) :
  occurs "}" label = false ->
  replace_braces_from replacement (Some held) (label ++ String "}" rest)
  = replacement ++ replace_braces_from replacement None rest.
Proof.
  revert held.
  induction label as [|c label IH]; simpl; intros held H; [reflexivity|].
  apply orb_false_iff in H. destruct H as [Hc Hlabel].
  rewrite Hc. apply IH. assumption.
Qed.

Lemma replace_braces_render (t : template) :
  Forall well_formed t ->
  replace_braces "[^/]+" (render t) = wildcarded t.
Proof.
  unfold replace_braces.
  induction 1 as [|[text|label] t Hpart _ IH]; simpl in *.
  - reflexivity.
  - rewrite replace_braces_text by assumption. rewrite IH. reflexivity.
  - rewrite replace_braces_placeholder by assumption. rewrite IH. reflexivity.
Qed.

(** *** How the wildcarded template is parsed *)

Lemma tokens_plain (c : ascii) (rest : string) :
  plain c = true ->
  tokens None (String c rest)
  = option_map (cons (TAtom (Lit c))) (tokens None rest).
Proof.
  intros H. simpl.
  rewrite !(plain_not_syntax c _ H) by reflexivity.
  unfold plain in H. apply negb_true_iff in H. rewrite H. reflexivity.
Qed.

Lemma tokens_text (text rest : string) :
  all_chars plain text = true ->
  tokens None (text ++ rest)
  = option_map (app (literal_tokens text)) (tokens None rest).
Proof.
  induction text as [|c text IH]; intros H.
  - simpl. destruct (tokens None rest); reflexivity.
  - simpl in H. apply andb_true_iff in H. destruct H as [Hc Htext].
    change (String c text ++ rest) with (String c (text ++ rest)).
    rewrite tokens_plain by assumption. rewrite IH by assumption.
    destruct (tokens None rest); reflexivity.
Qed.

Lemma tokens_wildcarded (t : template) :
  Forall well_formed t ->
  tokens None (wildcarded t ++ "$") = Some (template_tokens t).
Proof.
  induction 1 as [|[text|label] t Hpart _ IH]; simpl in *.
  - reflexivity.
  - rewrite append_assoc, tokens_text by assumption. rewrite IH. reflexivity.
  - rewrite IH. reflexivity.
Qed.

Lemma template_tokens_head (t : template) :
  no_leading_quantifier (template_tokens t).
Proof.
  induction t as [|[text|label] t IH]; simpl; try exact I.
  destruct text; simpl; [exact IH|exact I].
Qed.

Lemma terms_literals (text : string) (ts : list token) :
  no_leading_quantifier ts ->
  terms (literal_tokens text ++ ts) = option_map (app (literals text)) (terms ts).
Proof.
  intros Hts. induction text as [|c text IH].
  - simpl. destruct (terms ts); reflexivity.
  - change (terms (TAtom (Lit c) :: literal_tokens text ++ ts)
            = option_map (app (literals (String c text))) (terms ts)).
    assert (Hnext : terms (TAtom (Lit c) :: literal_tokens text ++ ts)
                    = option_map (cons (Atom (Lit c) Once))
                        (terms (literal_tokens text ++ ts))).
    { destruct text as [|d text]; simpl.
      - destruct ts as [|[a|q| |] ts]; try reflexivity. destruct Hts.
      - reflexivity. }
    rewrite Hnext, IH. destruct (terms ts); reflexivity.
Qed.

Lemma terms_template (t : template) :
  terms (template_tokens t) = Some (template_pattern t).
Proof.
  induction t as [|[text|label] t IH]; simpl.
  - reflexivity.
  - rewrite terms_literals by apply template_tokens_head.
    rewrite IH. reflexivity.
  - rewrite IH. reflexivity.
Qed.

Lemma RegExp_parse_template (t : template) :
  Forall well_formed t ->
  RegExp_parse (wildcarded t ++ "$") = Some (template_pattern t).
Proof.
  intros H. unfold RegExp_parse.
  rewrite tokens_wildcarded by assumption. apply terms_template.
Qed.

(** *** What the compiled pattern matches *)

Lemma instance_nil_iff (s : string) : instance_of [] s <-> s = "".
Proof.
  split.
  - intros H. inversion H. reflexivity.
  - intros ->. constructor.
Qed.

Lemma instance_text_iff (text : string) (t : template) (s : string) :
  instance_of (Text text :: t) s
  <-> exists r, s = text ++ r /\ instance_of t r.
Proof.
  split.
  - intros H. inversion H; subst. eauto.
  - intros (r & -> & H). constructor. exact H.
Qed.

Lemma instance_placeholder_iff (label : string) (t : template) (s : string) :
  instance_of (Placeholder label :: t) s
  <-> exists segment r,
        s = segment ++ r /\ segment <> "" /\ occurs "/" segment = false
        /\ instance_of t r.
Proof.
  split.
  - intros H. inversion H; subst. eauto 6.
  - intros (segment & r & -> & Hne & Hfree & H). constructor; assumption.
Qed.

Lemma match_star_spec (a : atom) (k : string -> bool) (s : string) :
  match_star a k s = true
  <-> exists s1 s2,
        s = s1 ++ s2 /\ all_chars (atom_matches a) s1 = true /\ k s2 = true.
Proof.
  induction s as [|c r IH]; simpl.
  - rewrite orb_false_r. split.
    + intros H. exists "", "". auto.
    + intros (s1 & s2 & Heq & _ & Hk).
      destruct s1; [|discriminate]. simpl in Heq. subst s2. exact Hk.
  - rewrite orb_true_iff, andb_true_iff, IH. split.
    + intros [Hk | (Hc & s1 & s2 & -> & Hall & Hk)].
      * exists "", (String c r). auto.
      * exists (String c s1), s2. simpl. rewrite Hc, Hall. auto.
    + intros (s1 & s2 & Heq & Hall & Hk).
      destruct s1 as [|d s1]; simpl in *.
      * subst s2. left. exact Hk.
      * injection Heq as <- ->. apply andb_true_iff in Hall.
        destruct Hall as [Hc Hall]. right. split; [exact Hc|].
        exists s1, s2. auto.
Qed.

Lemma slash_free_iff (s : string) :
  all_chars (atom_matches (CharClass true ["/"%char])) s = true
  <-> occurs "/" s = false.
Proof.
  induction s as [|c r IH]; simpl; [tauto|].
  rewrite orb_false_r, andb_true_iff, orb_false_iff, IH.
  destruct (is_char c "/"); simpl; intuition congruence.
Qed.

Lemma match_literals (text : string) (p : pattern) (L : string -> Prop) :
  (forall b s, match_here p b s = true <-> L s) ->
  forall b s,
    match_here (literals text ++ p)%list b s = true
    <-> exists r, s = text ++ r /\ L r.
Proof.
  intros Hp. induction text as [|c text IH]; intros b s.
  - simpl. rewrite Hp. split; [eauto|]. intros (r & -> & H). exact H.
  - change (match_one (Lit c) (match_here (literals text ++ p)%list false) s = true
            <-> exists r, s = String c text ++ r /\ L r).
    destruct s as [|d s]; simpl.
    + split; [discriminate|]. intros (r & Heq & _). discriminate.
    + rewrite andb_true_iff, IH. unfold is_char. rewrite Ascii.eqb_eq. split.
      * intros (-> & r & -> & H). eauto.
      * intros (r & Heq & H). injection Heq as -> ->. eauto.
Qed.

Lemma match_wildcard (p : pattern) (L : string -> Prop) :
  (forall b s, match_here p b s = true <-> L s) ->
  forall b s,
    match_here (wildcard :: p) b s = true
    <-> exists segment r,
          s = segment ++ r /\ segment <> "" /\ occurs "/" segment = false /\ L r.
Proof.
  intros Hp b s. unfold wildcard.
  change (match_one (CharClass true ["/"%char])
            (match_star (CharClass true ["/"%char]) (match_here p false)) s = true
          <-> exists segment r,
                s = segment ++ r /\ segment <> "" /\ occurs "/" segment = false
                /\ L r).
  destruct s as [|c s]; cbn [match_one].
  - split; [discriminate|]. intros (segment & r & Heq & Hne & _).
    destruct segment; [congruence|discriminate].
  - rewrite andb_true_iff, match_star_spec. split.
    + intros (Hc & s1 & s2 & -> & Hall & Hk).
      exists (String c s1), s2. split; [reflexivity|]. split; [discriminate|].
      split; [|apply Hp in Hk; exact Hk].
      apply slash_free_iff. cbn [all_chars]. rewrite Hc, Hall. reflexivity.
    + intros (segment & r & Heq & Hne & Hfree & Hr).
      destruct segment as [|d segment]; [congruence|].
      simpl in Heq. injection Heq as <- ->.
      apply slash_free_iff in Hfree. cbn [all_chars] in Hfree.
      apply andb_true_iff in Hfree. destruct Hfree as [Hc Hall].
      split; [exact Hc|]. exists segment, r.
      split; [reflexivity|]. split; [exact Hall|]. apply Hp. exact Hr.
Qed.

Lemma template_semantics (t : template) :
  forall b s, match_here (template_pattern t) b s = true <-> instance_of t s.
Proof.
  induction t as [|[text|label] t IH]; intros b s.
  - rewrite instance_nil_iff. simpl. destruct s; split; congruence.
  - rewrite instance_text_iff. apply match_literals. exact IH.
  - rewrite instance_placeholder_iff. apply match_wildcard. exact IH.
Qed.

Lemma match_from_spec (p : pattern) (L : string -> Prop) :
  (forall b s, match_here p b s = true <-> L s) ->
  forall b s,
    match_from p b s = true <-> exists prefix r, s = prefix ++ r /\ L r.
Proof.
  intros Hp b s. revert b.
  induction s as [|c s IH]; intros b; simpl.
  - rewrite orb_false_r, Hp. split.
    + intros H. exists "", "". auto.
    + intros (prefix & r & Heq & H).
      destruct prefix; [|discriminate]. simpl in Heq. subst r. exact H.
  - rewrite orb_true_iff, Hp, IH. split.
    + intros [H | (prefix & r & -> & H)].
      * exists "", (String c s). auto.
      * exists (String c prefix), r. auto.
    + intros (prefix & r & Heq & H).
      destruct prefix as [|d prefix]; simpl in Heq.
      * subst r. left. exact H.
      * injection Heq as <- ->. right. eauto.
Qed.

(** The pattern of a well-formed template under a plain base path, and the
    paths it matches. *)
Lemma regex_of_template (basePath : string) (t : template) :
  all_chars plain basePath = true ->
  Forall well_formed t ->
  regex_source basePath (render t) = basePath ++ wildcarded t ++ "$"
  /\ RegExp_parse (regex_source basePath (render t))
     = Some (template_pattern (Text basePath :: t))
  /\ forall path,
       match_from (template_pattern (Text basePath :: t)) true path = true
       <-> exists prefix instance,
             path = prefix ++ basePath ++ instance /\ instance_of t instance.
Proof.
  intros Hbase Ht.
  assert (Hsource : regex_source basePath (render t)
                    = basePath ++ wildcarded t ++ "$")
    by (unfold regex_source; rewrite replace_braces_render by assumption;
        reflexivity).
  split; [exact Hsource|]. split.
  - rewrite Hsource, <- append_assoc.
    apply (RegExp_parse_template (Text basePath :: t)).
    constructor; assumption.
  - intros path.
    rewrite (match_from_spec _ (instance_of (Text basePath :: t)))
      by apply template_semantics.
    split.
    + intros (prefix & r & -> & H). apply instance_text_iff in H.
      destruct H as (instance & -> & H). eauto.
    + intros (prefix & instance & -> & H).
      exists prefix, (basePath ++ instance). split; [reflexivity|].
      apply instance_text_iff. eauto.
Qed.

Lemma Forall2_in_right {A B : Type} (R : A -> B -> Prop)
    (l1 : list A) (l2 : list B) (y : B) :
  Forall2 R l1 l2 -> In y l2 -> exists x, In x l1 /\ R x y.
Proof.
  induction 1 as [|x y' l1 l2 Hxy _ IH]; simpl; intros Hin; [contradiction|].
  destruct Hin as [-> | Hin].
  - exists x. auto.
  - destruct (IH Hin) as (x' & Hx' & HR). exists x'. auto.
Qed.

(** C5.  The matcher has one entry per declared path, in order; the text
    of an entry's pattern is the base path, then the template in which every
    stretch from [{] to the next [}] is replaced by [[^/]+], then [$], and
    nothing before the base path.  When the template is text and
    placeholders and the base path and the text are plain characters, the
    entry matches exactly the strings that end with the base path followed
    by the template with every placeholder filled by one or more
    characters other than [/].  So [/users/{id}] under [/api] matches
    [/api/users/42] and not [/api/users/42/extra], and it matches the
    longer string [/v2/api/users/42]. *)
Theorem path_pattern_is_base_path_and_wildcarded_template
    (basePath : string) (paths : list (string * PathItem))
    (matcher : list CompiledPath.t) (entry : CompiledPath.t) :
  compile_matcher basePath paths = Normal matcher ->
  In entry matcher ->
  map CompiledPath.name matcher = map fst paths
  /\ (exists item, In (CompiledPath.name entry, item) paths)
  /\ source (CompiledPath.regex entry)
     = basePath ++ replace_braces "[^/]+" (CompiledPath.name entry) ++ "$"
  /\ RegExp_parse (source (CompiledPath.regex entry))
     = Some (compiled (CompiledPath.regex entry))
  /\ (forall t : template,
        render t = CompiledPath.name entry ->
        all_chars plain basePath = true ->
        Forall well_formed t ->
        source (CompiledPath.regex entry) = basePath ++ wildcarded t ++ "$"
        /\ forall path : string,
             matches path entry = true
             <-> exists prefix instance : string,
                   path = prefix ++ basePath ++ instance
                   /\ instance_of t instance)
  /\ (forall item : PathItem,
        exists users : CompiledPath.t,
          compile_matcher "/api" [("/users/{id}", item)] = Normal [users]
          /\ source (CompiledPath.regex users) = "/api/users/[^/]+$"
          /\ matches "/api/users/42" users = true
          /\ matches "/api/users/42/extra" users = false
          /\ matches "/v2/api/users/42" users = true).
Proof.
  intros Hmatcher Hin.
  split; [exact (compile_matcher_names _ _ _ Hmatcher)|].
  apply compile_matcher_entries in Hmatcher.
  destruct (Forall2_in_right _ _ _ _ Hmatcher Hin)
    as ([name item] & Hdeclared & Hname & _ & _ & Hsource & Hparse).
  simpl in Hname, Hsource, Hparse.
  split; [|split; [|split; [|split]]].
  - exists item. rewrite Hname. exact Hdeclared.
  - rewrite Hsource, Hname. reflexivity.
  - rewrite Hsource. exact Hparse.
  - intros t Hrender Hbase Ht.
    assert (Heq : name = render t) by congruence. rewrite Heq in *.
    destruct (regex_of_template basePath t Hbase Ht) as (Htext & Hp & Hmatch).
    split; [rewrite Hsource; exact Htext|].
    intros path. unfold matches, String_match.
    rewrite Hp in Hparse. injection Hparse as <-. apply Hmatch.
  - intros sample. eexists. split; [reflexivity|]. repeat split.
Qed.

(** ** What reaches the underlying validator *)

Lemma number_if_numeric_idempotent (v w : value) :
  number_if_numeric v = Some w -> number_if_numeric w = Some w.
Proof.
  unfold number_if_numeric.
  destruct (ToNumber Number_toString v) as [n|] eqn:Hv; [|discriminate].
  destruct (Number_isNaN n) eqn:Hn; intros H; injection H as <-.
  - rewrite Hv, Hn. reflexivity.
  - cbn [ToNumber]. rewrite Hn. reflexivity.
Qed.

Lemma to_boolean_if_literal_idempotent (v : value) :
  to_boolean_if_literal (to_boolean_if_literal v) = to_boolean_if_literal v.
Proof.
  unfold to_boolean_if_literal.
  destruct (strict_equals_string v "true") eqn:Ht; [reflexivity|].
  destruct (strict_equals_string v "false") eqn:Hf; [reflexivity|].
  rewrite Ht, Hf. reflexivity.
Qed.

Lemma numbers_idempotent (l r : list value) :
  all_converted (map number_if_numeric l) = Some r ->
  all_converted (map number_if_numeric r) = Some r.
Proof.
  revert r. induction l as [|e rest IH]; cbn [map all_converted]; intros r H.
  - injection H as <-. reflexivity.
  - destruct (number_if_numeric e) as [w|] eqn:He; [|discriminate].
    destruct (all_converted (map number_if_numeric rest)) as [ws|];
      [|discriminate].
    cbn [option_map] in H. injection H as <-.
    cbn [map all_converted].
    rewrite (number_if_numeric_idempotent _ _ He), (IH ws eq_refl).
    reflexivity.
Qed.

Lemma coerce_elements_idempotent (item_type : option string) (l r : list value) :
  coerce_elements item_type l = Some r -> coerce_elements item_type r = Some r.
Proof.
  unfold coerce_elements.
  destruct (case item_type "number" || case item_type "integer").
  - apply numbers_idempotent.
  - destruct (case item_type "boolean"); intros H; injection H as <-;
      [|reflexivity].
    rewrite map_map. f_equal. apply map_ext.
    apply to_boolean_if_literal_idempotent.
Qed.

Lemma coerced_defined (schema : Schema.t) (input v : value) :
  coerced schema input = Some v -> input <> undefined -> v <> undefined.
Proof.
  unfold coerced. cbv zeta. intros H Hdefined.
  destruct (case (Schema.type schema) "number" || case (Schema.type schema) "integer").
  - unfold number_if_numeric in H.
    destruct (ToNumber Number_toString input) as [n|]; [|discriminate].
    destruct (Number_isNaN n); injection H as <-; [assumption|discriminate].
  - destruct (case (Schema.type schema) "boolean").
    + injection H as <-. unfold to_boolean_if_literal.
      destruct (strict_equals_string input "true"); [discriminate|].
      destruct (strict_equals_string input "false"); [discriminate|assumption].
    + destruct (case (Schema.type schema) "array").
      * destruct (elements_of schema input) as [elements|]; [|discriminate].
        destruct (coerce_elements (items_type schema) elements);
          [|discriminate].
        injection H as <-. discriminate.
      * injection H as <-. assumption.
Qed.

Lemma coerced_idempotent (schema : Schema.t) (input v : value) :
  coerced schema input = Some v -> coerced schema v = Some v.
Proof.
  unfold coerced. cbv zeta.
  destruct (case (Schema.type schema) "number" || case (Schema.type schema) "integer").
  - apply number_if_numeric_idempotent.
  - destruct (case (Schema.type schema) "boolean").
    + intros H. injection H as <-.
      rewrite to_boolean_if_literal_idempotent. reflexivity.
    + destruct (case (Schema.type schema) "array");
        [|intros H; injection H as <-; reflexivity].
      destruct (elements_of schema input) as [elements|]; [|discriminate].
      destruct (coerce_elements (items_type schema) elements) as [r|] eqn:Hr;
        [|discriminate].
      intros H. injection H as <-. cbn [elements_of].
      rewrite (coerce_elements_idempotent _ _ _ Hr). reflexivity.
Qed.

(** A run that delegates is the run of a value other than [undefined] on
    a schema that has the items it needs, and no conversion threw. *)
Lemma delegating_run (schema : Schema.t) (input v : value) :
  stringValidator schema input = delegates (jsonValidator schema) v ->
  input <> undefined
  /\ (Schema.type schema = Some "array" -> Schema.items schema <> None)
  /\ coerced schema input = Some v.
Proof.
  intros Hrun.
  assert (Hdefined : input <> undefined) by (intros ->; discriminate Hrun).
  assert (Hitems : Schema.type schema = Some "array" ->
                   Schema.items schema <> None).
  { intros Htype Hnone.
    rewrite (stringValidator_without_items schema input Hdefined Htype Hnone)
      in Hrun. discriminate Hrun. }
  split; [exact Hdefined|]. split; [exact Hitems|].
  rewrite (stringValidator_coerced schema input Hdefined Hitems) in Hrun.
  destruct (coerced schema input) as [w|]; [|discriminate Hrun].
  unfold delegating, delegates in Hrun. injection Hrun as _ Hv.
  rewrite Hv. reflexivity.
Qed.

(** X6.  Coercion is idempotent: the value that a run hands to the
    underlying validator is handed on unchanged when it is validated
    again, so the second run gives the same answer. *)
Theorem coercion_is_idempotent (schema : Schema.t) (input v : value) :
  stringValidator schema input = delegates (jsonValidator schema) v ->
  stringValidator schema v = delegates (jsonValidator schema) v.
Proof.
  intros Hrun.
  destruct (delegating_run schema input v Hrun) as (Hdefined & Hitems & Hv).
  rewrite stringValidator_coerced
    by (apply (coerced_defined schema input); assumption) || assumption.
  rewrite (coerced_idempotent _ _ _ Hv). reflexivity.
Qed.

(** X7.  A run of the validator calls the underlying validator once at
    most, and then returns its answer on that one argument; it does not
    call it at all exactly when the value is [undefined], or the schema is
    of type [array] without [items], or the run converts the value, or
    its elements, to a primitive and the value has none. *)
Theorem underlying_validator_is_called_at_most_once
    (schema : Schema.t) (input : value) :
  (delegated (stringValidator schema input) = []
   \/ exists v : value,
        stringValidator schema input = delegates (jsonValidator schema) v)
  /\ (delegated (stringValidator schema input) = []
      <-> input = undefined
          \/ (Schema.type schema = Some "array" /\ Schema.items schema = None)
          \/ (needs_primitive schema input = true
              /\ converts_to_primitive input = false)).
Proof.
  assert (Hcases : input = undefined
                   \/ (input <> undefined
                       /\ Schema.type schema = Some "array"
                       /\ Schema.items schema = None)
                   \/ (input <> undefined
                       /\ (Schema.type schema = Some "array" ->
                           Schema.items schema <> None))).
  { destruct input; try (left; reflexivity);
      (destruct (Schema.type schema) as [ty|];
       [destruct (String.eqb_spec ty "array") as [->|Hother];
        [destruct (Schema.items schema);
         [right; right; split; [discriminate|intros _; discriminate]
         |right; left; repeat split; discriminate]
        |right; right; split; [discriminate|congruence]]
       |right; right; split; [discriminate|discriminate]]). }
  destruct Hcases as [-> | [(Hdefined & Htype & Hnone) | (Hdefined & Hitems)]].
  - split; [left; reflexivity|]. split; [left; reflexivity|reflexivity].
  - rewrite (stringValidator_without_items schema input Hdefined Htype Hnone).
    split; [left; reflexivity|].
    split; [right; left; split; assumption|reflexivity].
  - rewrite (stringValidator_coerced schema input Hdefined Hitems).
    pose proof (coerced_throws schema input) as Hthrows.
    destruct (coerced schema input) as [v|].
    + split; [right; eexists; reflexivity|].
      split; [discriminate|].
      intros [Habsent | [(Htype & Hnone) | Hnone]]; [contradiction| |].
      * exfalso. exact (Hitems Htype Hnone).
      * apply Hthrows in Hnone. discriminate Hnone.
    + split; [left; reflexivity|].
      split; [|reflexivity].
      intros _. right. right. apply Hthrows. reflexivity.
Qed.

(** X8.  Coercion never makes a NaN: with a schema of type [number] or
    [integer], when the underlying validator receives the Number NaN the
    incoming value was that Number already; and with [number] or [integer]
    items, a NaN among the elements received was among the elements of the
    incoming array. *)
Theorem coercion_never_produces_NaN
    (schema : Schema.t) (input : value) (n : number) :
  Number_isNaN n = true ->
  (Schema.type schema = Some "number" \/ Schema.type schema = Some "integer" ->
   stringValidator schema input = delegates (jsonValidator schema) (VNum n) ->
   input = VNum n)
  /\ (forall (item : Schema.t) (elements received : list value),
        Schema.type schema = Some "array" ->
        Schema.items schema = Some item ->
        Schema.type item = Some "number" \/ Schema.type item = Some "integer" ->
        input = VArr elements ->
        stringValidator schema input
        = delegates (jsonValidator schema) (VArr received) ->
        In (VNum n) received -> In (VNum n) elements).
Proof.
  intros Hnan.
  assert (Hone : forall e, number_if_numeric e = Some (VNum n) -> e = VNum n).
  { intros e. unfold number_if_numeric.
    destruct (ToNumber Number_toString e) as [m|]; [|discriminate].
    destruct (Number_isNaN m) eqn:Hm; intros H; injection H as H;
      [exact H|congruence]. }
  assert (Hall : forall l r,
             all_converted (map number_if_numeric l) = Some r ->
             In (VNum n) r -> In (VNum n) l).
  { induction l as [|e rest IH]; cbn [map all_converted]; intros r H Hin.
    - injection H as <-. exact Hin.
    - destruct (number_if_numeric e) as [w|] eqn:He; [|discriminate].
      destruct (all_converted (map number_if_numeric rest)) as [ws|];
        [|discriminate].
      cbn [option_map] in H. injection H as <-.
      destruct Hin as [-> | Hin].
      + left. apply Hone. exact He.
      + right. apply (IH ws eq_refl Hin). }
  split.
  - intros Htype Hrun.
    destruct (delegating_run schema input _ Hrun) as (Hdefined & _ & Hv).
    apply Hone. rewrite <- Hv. unfold coerced. cbv zeta.
    replace (case (Schema.type schema) "number" || case (Schema.type schema) "integer")
      with true by (destruct Htype as [-> | ->]; reflexivity).
    reflexivity.
  - intros item elements received Htype Hitem Hnum -> Hrun Hin.
    rewrite (stringValidator_array schema item) in Hrun
      by (assumption || discriminate).
    cbn [elements_of] in Hrun. unfold coerce_elements in Hrun.
    replace (case (Schema.type item) "number" || case (Schema.type item) "integer")
      with true in Hrun by (destruct Hnum as [-> | ->]; reflexivity).
    destruct (all_converted (map number_if_numeric elements)) as [r|] eqn:Hr;
      [|discriminate Hrun].
    unfold delegating, delegates in Hrun. cbn [option_map] in Hrun.
    injection Hrun as _ Hreceived. subst received.
    exact (Hall elements r Hr Hin).
Qed.

(** ** The elements of an array *)

Lemma length_split (sep : ascii) (s : string) :
  List.length (split sep s) = S (count_char sep s).
Proof.
  induction s as [|c rest IH]; simpl; [reflexivity|].
  destruct (is_char c sep); simpl.
  - rewrite IH. reflexivity.
  - destruct (split sep rest) as [|piece pieces]; simpl in *; [discriminate|].
    exact IH.
Qed.

Lemma split_without_separator (sep : ascii) (piece : string) :
  occurs sep piece = false -> split sep piece = [piece].
Proof.
  induction piece as [|c rest IH]; simpl; intros H; [reflexivity|].
  apply orb_false_iff in H. destruct H as [Hc Hrest].
  rewrite Hc, (IH Hrest). reflexivity.
Qed.

Lemma split_at_separator (sep : ascii) (piece rest : string) :
  occurs sep piece = false ->
  split sep (piece ++ String sep rest) = piece :: split sep rest.
Proof.
  induction piece as [|c piece IH]; simpl; intros H.
  - unfold is_char. rewrite Ascii.eqb_refl. reflexivity.
  - apply orb_false_iff in H. destruct H as [Hc Hpiece].
    rewrite Hc, (IH Hpiece). reflexivity.
Qed.

(** Splitting what was joined gives the pieces back. *)
Lemma split_join (sep : ascii) (parts : list string) :
  parts <> [] ->
  Forall (fun part => occurs sep part = false) parts ->
  split sep (join (String sep "") parts) = parts.
Proof.
  induction parts as [|part rest IH]; intros Hne Hfree; [congruence|].
  inversion Hfree as [|? ? Hpart Hrest]; subst.
  destruct rest as [|next rest].
  - simpl. apply split_without_separator. exact Hpart.
  - change (join (String sep "") (part :: next :: rest))
      with (part ++ String sep (join (String sep "") (next :: rest))).
    rewrite split_at_separator by exact Hpart.
    rewrite IH by (discriminate || assumption). reflexivity.
Qed.

Lemma length_all_converted {A : Type} (l : list (option A)) (r : list A) :
  all_converted l = Some r -> List.length r = List.length l.
Proof.
  revert r. induction l as [|[a|] rest IH]; cbn [all_converted]; intros r H;
    [injection H as <-; reflexivity| |discriminate].
  destruct (all_converted rest) as [ws|]; [|discriminate].
  cbn [option_map] in H. injection H as <-.
  cbn [List.length]. rewrite (IH ws eq_refl). reflexivity.
Qed.

Lemma length_coerce_elements (item_type : option string) (l r : list value) :
  coerce_elements item_type l = Some r -> List.length r = List.length l.
Proof.
  unfold coerce_elements.
  destruct (case item_type "number" || case item_type "integer").
  - intros H. rewrite (length_all_converted _ _ H). apply length_map.
  - destruct (case item_type "boolean"); intros H; injection H as <-;
      [apply length_map|reflexivity].
Qed.

(** X9.  With a schema of type [array] that declares its items, a value
    other than [undefined] that has the primitive the run asks for
    reaches the underlying validator as an array.  An incoming array
    keeps its length; any other value gives one element more than its
    string has separators, or one element for [multi] and the other
    formats: never an empty array, so the empty string gives one
    element. *)
Theorem array_schema_delegates_an_array
    (schema item : Schema.t) (input : value) :
  Schema.type schema = Some "array" ->
  Schema.items schema = Some item ->
  input <> undefined ->
  (needs_primitive schema input = true -> converts_to_primitive input = true) ->
  exists elements : list value,
    stringValidator schema input
    = delegates (jsonValidator schema) (VArr elements)
    /\ (forall given : list value,
          input = VArr given -> List.length elements = List.length given)
    /\ (Array_isArray input = false ->
        (forall (sep : ascii) (s : string),
            separator_of (format_of schema) = Some sep ->
            ToString Number_toString input = Some s ->
            List.length elements = S (count_char sep s))
        /\ (separator_of (format_of schema) = None ->
            List.length elements = 1)
        /\ elements <> []).
Proof.
  intros Htype Hitem Hdefined Hprimitive.
  assert (Hcoerced : coerced schema input <> None).
  { intros Hnone. apply coerced_throws in Hnone.
    destruct Hnone as [Hneeds Hnone].
    rewrite (Hprimitive Hneeds) in Hnone. discriminate Hnone. }
  rewrite (stringValidator_array schema item) by assumption.
  unfold coerced in Hcoerced. cbv zeta in Hcoerced.
  rewrite Htype in Hcoerced. unfold items_type in Hcoerced.
  rewrite Hitem in Hcoerced.
  change (case (Some "array") "number") with false in Hcoerced.
  change (case (Some "array") "integer") with false in Hcoerced.
  change (case (Some "array") "boolean") with false in Hcoerced.
  change (case (Some "array") "array") with true in Hcoerced.
  cbn [orb] in Hcoerced.
  destruct (elements_of schema input) as [given|] eqn:Hgiven;
    [|congruence].
  destruct (coerce_elements (Schema.type item) given) as [elements|] eqn:Helements;
    [|exfalso; apply Hcoerced; reflexivity].
  exists elements. split; [reflexivity|].
  rewrite (length_coerce_elements _ _ _ Helements).
  split.
  - intros given' ->. cbn [elements_of] in Hgiven.
    injection Hgiven as <-. reflexivity.
  - intros Hscalar.
    assert (Hsplit : split_by_format (format_of schema) input = Some given)
      by (destruct input; (discriminate Hscalar || exact Hgiven)).
    unfold split_by_format in Hsplit.
    assert (Hlength : List.length given
                      = match separator_of (format_of schema),
                              ToString Number_toString input with
                        | Some sep, Some s => S (count_char sep s)
                        | _, _ => 1
                        end).
    { destruct (separator_of (format_of schema)) as [sep|].
      - destruct (ToString Number_toString input) as [s|]; [|discriminate].
        cbn [option_map] in Hsplit. injection Hsplit as <-.
        rewrite length_map. apply length_split.
      - injection Hsplit as <-. reflexivity. }
    split; [|split].
    + intros sep s Hsep Hs. rewrite Hlength, Hsep, Hs. reflexivity.
    + intros Hnone. rewrite Hlength, Hnone. reflexivity.
    + intros Hempty.
      apply (f_equal (@List.length value)) in Hempty.
      rewrite (length_coerce_elements _ _ _ Helements), Hlength in Hempty.
      destruct (separator_of (format_of schema));
        [destruct (ToString Number_toString input)|]; discriminate Hempty.
Qed.

(** X10.  With a schema of type [array] that declares its items and a
    format that has a separator, a string of pieces joined by the separator
    is validated exactly as the array of those pieces, as long as there is
    a piece and no piece holds the separator. *)
Theorem delimited_string_is_validated_as_the_array_of_its_pieces
    (schema item : Schema.t) (sep : ascii) (parts : list string) :
  Schema.type schema = Some "array" ->
  Schema.items schema = Some item ->
  separator_of (format_of schema) = Some sep ->
  parts <> [] ->
  Forall (fun part => occurs sep part = false) parts ->
  stringValidator schema (VStr (join (String sep "") parts))
  = stringValidator schema (VArr (map VStr parts)).
Proof.
  intros Htype Hitem Hsep Hne Hfree.
  rewrite !(stringValidator_array schema item) by (assumption || discriminate).
  cbn [elements_of]. unfold split_by_format. rewrite Hsep.
  cbn [ToString option_map]. rewrite split_join by assumption. reflexivity.
Qed.

(** ** The attachment pass and the validators already there *)

Lemma map_determined {A B C : Type} (f : A -> B) (g : A -> C) :
  (forall a b, f a = f b -> g a = g b) ->
  forall l1 l2, map f l1 = map f l2 -> map g l1 = map g l2.
Proof.
  intros Hfg l1. induction l1 as [|a l1 IH]; intros [|b l2] H;
    try discriminate; [reflexivity|].
  simpl in *. injection H as Hhead Htail.
  rewrite (Hfg a b Hhead), (IH l2 Htail). reflexivity.
Qed.

Lemma compile_parameter_determined (p1 p2 : Param.t) :
  parameter_without_validator p1 = parameter_without_validator p2 ->
  compile_parameter p1 = compile_parameter p2.
Proof.
  destruct p1, p2. unfold parameter_without_validator. simpl.
  intros H. injection H as -> -> -> ->. reflexivity.
Qed.

Lemma compile_response_determined (r1 r2 : Response.t) :
  response_without_validator r1 = response_without_validator r2 ->
  compile_response r1 = compile_response r2.
Proof.
  destruct r1, r2. unfold response_without_validator. simpl.
  intros H. injection H as ->. reflexivity.
Qed.

Lemma compile_operation_determined (o1 o2 : Operation.t) :
  operation_without_validators o1 = operation_without_validators o2 ->
  compile_operation o1 = compile_operation o2.
Proof.
  destruct o1 as [ps1 rs1], o2 as [ps2 rs2].
  unfold operation_without_validators, compile_operation. simpl.
  intros H. injection H as Hps Hrs. f_equal.
  - destruct ps1 as [l1|], ps2 as [l2|]; try discriminate; [|reflexivity].
    simpl in *. injection Hps as Hps. f_equal.
    exact (map_determined _ _ compile_parameter_determined l1 l2 Hps).
  - revert Hrs. apply map_determined.
    intros [c1 r1] [c2 r2] H.
    pose proof (f_equal fst H) as Hc. pose proof (f_equal snd H) as Hr.
    cbn [fst snd] in Hc, Hr. subst c2.
    rewrite (compile_response_determined r1 r2 Hr). reflexivity.
Qed.

Lemma compile_path_determined (i1 i2 : PathItem) :
  path_without_validators i1 = path_without_validators i2 ->
  compile_path i1 = compile_path i2.
Proof.
  unfold path_without_validators, compile_path. apply map_determined.
  intros [n1 o1] [n2 o2] H.
  pose proof (f_equal fst H) as Hn. pose proof (f_equal snd H) as Ho.
  cbn [fst snd] in Hn, Ho. subst n2.
  rewrite (compile_operation_determined o1 o2 Ho). reflexivity.
Qed.

Lemma add_validators_determined (d1 d2 : Document.t) :
  without_validators d1 = without_validators d2 ->
  add_validators d1 = add_validators d2.
Proof.
  destruct d1 as [b1 ps1], d2 as [b2 ps2].
  unfold without_validators, add_validators. simpl.
  intros H. injection H as -> H. f_equal.
  revert H. apply map_determined.
  intros [n1 i1] [n2 i2] H.
  pose proof (f_equal fst H) as Hn. pose proof (f_equal snd H) as Hi.
  cbn [fst snd] in Hn, Hi. subst n2.
  rewrite (compile_path_determined i1 i2 Hi). reflexivity.
Qed.

Lemma compile_parameter_frame (parameter : Param.t) :
  parameter_without_validator (compile_parameter parameter)
  = parameter_without_validator parameter.
Proof.
  unfold compile_parameter.
  destruct (in_query_or_header parameter); reflexivity.
Qed.

Lemma compile_response_frame (response : Response.t) :
  response_without_validator (compile_response response)
  = response_without_validator response.
Proof.
  unfold compile_response, response_without_validator.
  destruct (Response.schema response) eqn:H; simpl; rewrite H; reflexivity.
Qed.

Lemma compile_operation_frame (operation : Operation.t) :
  operation_without_validators (compile_operation operation)
  = operation_without_validators operation.
Proof.
  unfold operation_without_validators, compile_operation. simpl. f_equal.
  - destruct (Operation.parameters operation) as [l|]; [|reflexivity].
    simpl. f_equal. rewrite map_map. apply map_ext.
    apply compile_parameter_frame.
  - rewrite map_map. apply map_ext. intros [statusCode response]. simpl.
    rewrite compile_response_frame. reflexivity.
Qed.

Lemma add_validators_frame (document : Document.t) :
  without_validators (add_validators document) = without_validators document.
Proof.
  unfold without_validators, add_validators. simpl. f_equal.
  rewrite map_map. apply map_ext. intros [pathName path]. simpl. f_equal.
  unfold path_without_validators, compile_path.
  rewrite map_map. apply map_ext. intros [operationName operation]. simpl.
  rewrite compile_operation_frame. reflexivity.
Qed.

(** X11.  The attachment pass overwrites: two documents that differ only
    in the validators they already carry come out the same, and running
    the pass on its own result changes nothing. *)
Theorem validators_already_present_are_overwritten (d1 d2 : Document.t) :
  without_validators d1 = without_validators d2 ->
  add_validators d1 = add_validators d2
  /\ add_validators (add_validators d1) = add_validators d1.
Proof.
  intros H. split.
  - apply add_validators_determined. exact H.
  - apply add_validators_determined. apply add_validators_frame.
Qed.

(** X12.  The attachment pass touches the [validator] members only: the
    base path, the paths, the operations, the status codes and every other
    member of every parameter and response stay as they were, in the same
    order. *)
Theorem attachment_changes_validators_only (document : Document.t) :
  without_validators (add_validators (deref document))
  = without_validators (deref document)
  /\ Document.basePath (add_validators (deref document))
     = Document.basePath (deref document)
  /\ map fst (Document.paths (add_validators (deref document)))
     = map fst (Document.paths (deref document))
  /\ map parameter_without_validator (parameters_of (add_validators (deref document)))
     = map parameter_without_validator (parameters_of (deref document)).
Proof.
  split; [apply add_validators_frame|]. split; [reflexivity|]. split.
  - unfold add_validators. simpl. rewrite map_map. apply map_ext.
    intros [pathName path]. reflexivity.
  - rewrite parameters_of_add_validators, map_map. apply map_ext.
    apply compile_parameter_frame.
Qed.

(** ** What the dispatcher answers *)

Lemma filter_is_nil {A : Type} (f : A -> bool) (l : list A) :
  filter f l = [] -> forall x, In x l -> f x = false.
Proof.
  induction l as [|a l IH]; simpl; intros H x Hin; [contradiction|].
  destruct (f a) eqn:Ha; [discriminate|].
  destruct Hin as [<- | Hin]; [exact Ha|exact (IH H x Hin)].
Qed.

Lemma filter_is_singleton {A : Type} (f : A -> bool) (l : list A) (x : A) :
  filter f l = [x] ->
  exists before after,
    l = (before ++ x :: after)%list
    /\ f x = true
    /\ (forall y, In y before -> f y = false)
    /\ (forall y, In y after -> f y = false).
Proof.
  induction l as [|a l IH]; simpl; intros H; [discriminate|].
  destruct (f a) eqn:Ha.
  - injection H as -> Hrest. exists [], l. simpl.
    repeat split; [exact Ha|contradiction|apply filter_is_nil; exact Hrest].
  - destruct (IH H) as (before & after & -> & Hx & Hbefore & Hafter).
    exists (a :: before), after. repeat split; try assumption.
    intros y [<- | Hy]; [exact Ha|exact (Hbefore y Hy)].
Qed.

Lemma filter_has_two {A : Type} (f : A -> bool) (l : list A) (x y : A)
    (rest : list A) :
  filter f l = x :: y :: rest ->
  exists l1 l2 l3,
    l = (l1 ++ x :: l2 ++ y :: l3)%list /\ f x = true /\ f y = true.
Proof.
  induction l as [|a l IH]; simpl; intros H; [discriminate|].
  destruct (f a) eqn:Ha.
  - injection H as -> Hrest. clear IH.
    assert (Hy : exists l2 l3, l = (l2 ++ y :: l3)%list /\ f y = true).
    { clear Ha. induction l as [|b l IH]; simpl in Hrest; [discriminate|].
      destruct (f b) eqn:Hb.
      - injection Hrest as -> _. exists [], l. split; [reflexivity|exact Hb].
      - destruct (IH Hrest) as (l2 & l3 & -> & Hy).
        exists (b :: l2), l3. split; [reflexivity|exact Hy]. }
    destruct Hy as (l2 & l3 & -> & Hy). exists [], l2, l3.
    repeat split; assumption.
  - destruct (IH H) as (l1 & l2 & l3 & -> & Hx & Hy).
    exists (a :: l1), l2, l3. repeat split; assumption.
Qed.

(** X13.  The dispatcher answers with an entry only when that entry
    matches and no other entry does; and it answers [undefined] only when
    no entry matches or two of them do. *)
Theorem dispatcher_answers_only_for_a_single_match
    (matcher : list CompiledPath.t) (path : string) :
  (forall entry : CompiledPath.t,
      dispatcher matcher path = Some entry ->
      exists before after,
        matcher = (before ++ entry :: after)%list
        /\ matches path entry = true
        /\ (forall other, In other before -> matches path other = false)
        /\ (forall other, In other after -> matches path other = false))
  /\ (dispatcher matcher path = None ->
      (forall entry, In entry matcher -> matches path entry = false)
      \/ exists l1 e1 l2 e2 l3,
           matcher = (l1 ++ e1 :: l2 ++ e2 :: l3)%list
           /\ matches path e1 = true
           /\ matches path e2 = true).
Proof.
  unfold dispatcher. fold (matches path).
  destruct (filter (matches path) matcher) as [|x [|y rest]] eqn:Hfilter;
    simpl; split.
  - discriminate.
  - intros _. left. apply filter_is_nil. exact Hfilter.
  - intros entry H. injection H as <-.
    apply filter_is_singleton. exact Hfilter.
  - discriminate.
  - discriminate.
  - intros _. right.
    destruct (filter_has_two _ _ _ _ _ Hfilter) as (l1 & l2 & l3 & H).
    exists l1, x, l2, y, l3. exact H.
Qed.

(** ** Dispatch and the declared paths *)

Lemma filter_permutation {A : Type} (f : A -> bool) (l l' : list A) :
  Permutation l l' -> Permutation (filter f l) (filter f l').
Proof.
  induction 1 as [|x l l' _ IH|x y l|l l' l'' _ IH1 _ IH2]; simpl.
  - constructor.
  - destruct (f x); [constructor|]; exact IH.
  - destruct (f x), (f y); try apply Permutation_refl.
    apply perm_swap.
  - exact (perm_trans IH1 IH2).
Qed.

Lemma dispatcher_permutation (matcher matcher' : list CompiledPath.t)
    (path : string) :
  Permutation matcher matcher' ->
  dispatcher matcher path = dispatcher matcher' path.
Proof.
  intros H. unfold dispatcher.
  pose proof (filter_permutation
                (fun entry => String_match path (CompiledPath.regex entry))
                _ _ H) as Hfilter.
  pose proof (Permutation_length Hfilter) as Hlength.
  destruct (filter _ matcher) as [|x [|y rest]].
  - apply Permutation_nil in Hfilter. rewrite Hfilter. reflexivity.
  - apply Permutation_length_1_inv in Hfilter. rewrite Hfilter. reflexivity.
  - rewrite <- Hlength. reflexivity.
Qed.

Lemma compile_matcher_permutation (basePath : string)
    (paths paths' : list (string * PathItem)) :
  Permutation paths paths' ->
  forall matcher,
    compile_matcher basePath paths = Normal matcher ->
    exists matcher',
      compile_matcher basePath paths' = Normal matcher'
      /\ Permutation matcher matcher'.
Proof.
  induction 1 as [|[name item] l l' _ IH|[n1 i1] [n2 i2] l|l l' l'' _ IH1 _ IH2];
    intros matcher Hm.
  - exists matcher. split; [exact Hm|apply Permutation_refl].
  - simpl in *.
    destruct (new_RegExp (regex_source basePath name)); try discriminate.
    destruct (compile_matcher basePath l) as [entries| |]; try discriminate.
    destruct (IH entries eq_refl) as (entries' & -> & Hperm).
    injection Hm as <-. eexists. split; [reflexivity|].
    apply perm_skip. exact Hperm.
  - simpl in *.
    destruct (new_RegExp (regex_source basePath n2)); try discriminate.
    destruct (new_RegExp (regex_source basePath n1)); try discriminate.
    destruct (compile_matcher basePath l) as [entries| |]; try discriminate.
    injection Hm as <-. eexists. split; [reflexivity|]. apply perm_swap.
  - destruct (IH1 matcher Hm) as (m' & Hm' & Hperm1).
    destruct (IH2 m' Hm') as (m'' & Hm'' & Hperm2).
    exists m''. split; [exact Hm''|exact (perm_trans Hperm1 Hperm2)].
Qed.

(** X14.  Dispatch does not depend on the order in which the paths are
    declared: two documents with the same base path and the same paths in
    another order compile to functions that give the same answer on every
    request path. *)
Theorem dispatch_ignores_declaration_order
    (d1 d2 : Document.t) (dispatch1 : Compiled) :
  Document.basePath (deref d1) = Document.basePath (deref d2) ->
  Permutation (Document.paths (deref d1)) (Document.paths (deref d2)) ->
  compile d1 = Normal dispatch1 ->
  exists dispatch2 : Compiled,
    compile d2 = Normal dispatch2
    /\ forall path : string, dispatch1 path = dispatch2 path.
Proof.
  unfold compile. intros Hbase Hpaths H1.
  destruct (compile_matcher _ (Document.paths (add_validators (deref d1))))
    as [m1| |] eqn:Hm1; try discriminate.
  injection H1 as <-.
  assert (Hperm : Permutation (Document.paths (add_validators (deref d1)))
                    (Document.paths (add_validators (deref d2))))
    by (unfold add_validators; simpl; apply Permutation_map; exact Hpaths).
  destruct (compile_matcher_permutation _ _ _ Hperm m1 Hm1)
    as (m2 & Hm2 & Hm).
  simpl in Hm2 |- *. rewrite <- Hbase, Hm2.
  eexists. split; [reflexivity|].
  intros path. apply dispatcher_permutation. exact Hm.
Qed.

Lemma dispatcher_answer (matcher : list CompiledPath.t) (path : string)
    (entry : CompiledPath.t) :
  dispatcher matcher path = Some entry ->
  In entry matcher /\ matches path entry = true.
Proof.
  unfold dispatcher. fold (matches path).
  destruct (filter (matches path) matcher) as [|x [|y rest]] eqn:Hfilter;
    simpl; try discriminate.
  intros H. injection H as <-.
  apply (filter_In (matches path)). rewrite Hfilter. left. reflexivity.
Qed.

Lemma same_pattern_same_matches (basePath : string) (e1 e2 : CompiledPath.t) :
  RegExp_parse (regex_source basePath (CompiledPath.name e1))
  = Some (compiled (CompiledPath.regex e1)) ->
  RegExp_parse (regex_source basePath (CompiledPath.name e2))
  = Some (compiled (CompiledPath.regex e2)) ->
  replace_braces "[^/]+" (CompiledPath.name e1)
  = replace_braces "[^/]+" (CompiledPath.name e2) ->
  forall path, matches path e1 = matches path e2.
Proof.
  unfold regex_source. intros H1 H2 Hsame path.
  rewrite Hsame, H2 in H1. injection H1 as H1.
  unfold matches, String_match. rewrite H1. reflexivity.
Qed.

(** X15.  Two declared paths that differ only inside their braces shadow
    each other: their patterns are the same text, so whatever matches one
    matches the other, and the dispatcher never answers with an entry
    that has that pattern. *)
Theorem paths_with_the_same_pattern_are_never_dispatched
    (document : Document.t) (dispatch : Compiled)
    (l1 l2 l3 : list (string * PathItem)) (n1 n2 : string) (i1 i2 : PathItem) :
  compile document = Normal dispatch ->
  Document.paths (deref document)
  = (l1 ++ (n1, i1) :: l2 ++ (n2, i2) :: l3)%list ->
  replace_braces "[^/]+" n1 = replace_braces "[^/]+" n2 ->
  forall (path : string) (entry : CompiledPath.t),
    dispatch path = Some entry ->
    replace_braces "[^/]+" (CompiledPath.name entry)
    <> replace_braces "[^/]+" n1.
Proof.
  unfold compile. intros Hcompile Hpaths Hsame path entry Hanswer Hentry.
  destruct (compile_matcher _ _) as [matcher| |] eqn:Hmatcher;
    try discriminate.
  injection Hcompile as <-.
  apply compile_matcher_entries in Hmatcher.
  set (b := Document.basePath (add_validators (deref document))) in *.
  assert (Hparse : forall e, In e matcher ->
                     RegExp_parse (regex_source b (CompiledPath.name e))
                     = Some (compiled (CompiledPath.regex e))).
  { intros e He.
    destruct (Forall2_in_right _ _ _ _ Hmatcher He)
      as (declared & _ & Hname & _ & _ & _ & Hp).
    rewrite Hname. exact Hp. }
  unfold add_validators in Hmatcher. simpl in Hmatcher.
  rewrite Hpaths, map_app in Hmatcher. simpl in Hmatcher.
  rewrite map_app in Hmatcher. simpl in Hmatcher.
  apply Forall2_app_inv_l in Hmatcher.
  destruct Hmatcher as (m1 & tail1 & _ & Htail1 & Hm).
  inversion Htail1 as [|? e1 ? tail2 (Hn1 & _) Htail2]; subst.
  apply Forall2_app_inv_l in Htail2.
  destruct Htail2 as (m2 & tail3 & _ & Htail3 & ->).
  inversion Htail3 as [|? e2 ? m3 (Hn2 & _) _]; subst.
  simpl in Hn1, Hn2.
  destruct (dispatcher_answer _ _ _ Hanswer) as (Hin & Hmatch).
  assert (Hin1 : In e1 (m1 ++ e1 :: m2 ++ e2 :: m3))
    by (apply in_or_app; right; left; reflexivity).
  assert (Hin2 : In e2 (m1 ++ e1 :: m2 ++ e2 :: m3))
    by (apply in_or_app; right; right; apply in_or_app; right; left; reflexivity).
  assert (H1 : matches path e1 = true).
  { rewrite <- Hmatch. symmetry.
    apply (same_pattern_same_matches b); auto. congruence. }
  assert (H2 : matches path e2 = true).
  { rewrite <- Hmatch. symmetry.
    apply (same_pattern_same_matches b); auto. congruence. }
  rewrite (dispatcher_ambiguous _ m1 m2 m3 e1 e2 path eq_refl H1 H2) in Hanswer.
  discriminate Hanswer.
Qed.

Lemma compile_operation_validators (operation : Operation.t) :
  Forall (fun parameter => Param.validator parameter <> None)
    (parameters_of_operation (compile_operation operation))
  /\ Forall (fun response => Response.validator response <> None)
      (responses_of_operation (compile_operation operation)).
Proof.
  unfold parameters_of_operation, responses_of_operation, compile_operation.
  simpl. split.
  - destruct (Operation.parameters operation) as [l|]; simpl; [|constructor].
    apply Forall_forall. intros p Hp. apply in_map_iff in Hp.
    destruct Hp as (original & <- & _).
    rewrite compile_parameter_validator. discriminate.
  - apply Forall_forall. intros r Hr. apply in_map_iff in Hr.
    destruct Hr as (annotated & <- & Hr). apply in_map_iff in Hr.
    destruct Hr as ([statusCode response] & <- & _). cbn [snd].
    rewrite compile_response_validator. discriminate.
Qed.

(** X16.  Whatever the dispatcher answers is ready to validate with: the
    entry belongs to a declared path and matches the request path, its
    [expected] is read off its name, and every parameter and every
    response of every operation of its path item carries a validator. *)
Theorem dispatched_entry_carries_validators
    (document : Document.t) (dispatch : Compiled)
    (path : string) (entry : CompiledPath.t) :
  compile document = Normal dispatch ->
  dispatch path = Some entry ->
  matches path entry = true
  /\ (exists item : PathItem,
        In (CompiledPath.name entry, item) (Document.paths (deref document))
        /\ CompiledPath.path entry = compile_path item)
  /\ CompiledPath.expected entry = slash_free_runs (CompiledPath.name entry)
  /\ forall (operationName : string) (operation : Operation.t),
       In (operationName, operation) (CompiledPath.path entry) ->
       Forall (fun parameter => Param.validator parameter <> None)
         (parameters_of_operation operation)
       /\ Forall (fun response => Response.validator response <> None)
           (responses_of_operation operation).
Proof.
  unfold compile. intros Hcompile Hanswer.
  destruct (compile_matcher _ _) as [matcher| |] eqn:Hmatcher;
    try discriminate.
  injection Hcompile as <-.
  destruct (dispatcher_answer _ _ _ Hanswer) as (Hin & Hmatch).
  apply compile_matcher_entries in Hmatcher.
  destruct (Forall2_in_right _ _ _ _ Hmatcher Hin)
    as ([name annotated] & Hdeclared & Hname & Hitem & Hexpected & _).
  simpl in Hname, Hitem, Hexpected, Hdeclared.
  apply in_map_iff in Hdeclared.
  destruct Hdeclared as ([name' item] & Heq & Hdeclared).
  injection Heq as -> <-.
  split; [exact Hmatch|]. split; [|split].
  - exists item. rewrite Hname. split; assumption.
  - rewrite Hexpected, Hname. reflexivity.
  - intros operationName operation Hop. rewrite Hitem in Hop.
    unfold compile_path in Hop. apply in_map_iff in Hop.
    destruct Hop as ([n original] & Heq & _). injection Heq as _ <-.
    apply compile_operation_validators.
Qed.

(** X17.  The matcher of lines 174-182 is built for every base path made
    of plain characters and all paths whose names are text and
    placeholders: [new RegExp] refuses none of the patterns, and the
    entries are the declared paths with their path items, in the declared
    order. *)
Theorem plain_paths_give_a_matcher
    (basePath : string) (paths : list (string * PathItem)) :
  all_chars plain basePath = true ->
  Forall (fun declared : string * PathItem =>
            exists t : template,
              fst declared = render t /\ Forall well_formed t) paths ->
  exists matcher : list CompiledPath.t,
    compile_matcher basePath paths = Normal matcher
    /\ map CompiledPath.name matcher = map fst paths
    /\ map CompiledPath.path matcher = map snd paths.
Proof.
  intros Hbase Hpaths.
  induction Hpaths as [|[name item] rest (t & Hname & Ht) _ IH];
    cbn [compile_matcher].
  - exists []. repeat split.
  - cbn [fst] in Hname. subst name.
    destruct (regex_of_template _ t Hbase Ht) as (_ & Hparse & _).
    unfold new_RegExp. rewrite Hparse.
    destruct IH as (entries & -> & Hnames & Hitems).
    eexists. split; [reflexivity|].
    cbn [map CompiledPath.name CompiledPath.path fst snd].
    rewrite Hnames, Hitems. split; reflexivity.
Qed.

(** ** The tokens of a path name *)

Lemma append_empty (a : string) : a ++ "" = a.
Proof.
  induction a as [|x a IH]; simpl; [reflexivity|]. rewrite IH. reflexivity.
Qed.

Lemma occurs_append (c : ascii) (a b : string) :
  occurs c (a ++ b) = occurs c a || occurs c b.
Proof.
  induction a as [|x a IH]; simpl; [reflexivity|].
  rewrite IH, orb_assoc. reflexivity.
Qed.

Lemma slash_free_runs_from_split (run a b : string) :
  slash_free_runs_from run (a ++ String "/" b)
  = (slash_free_runs_from run a ++ slash_free_runs b)%list.
Proof.
  revert run. induction a as [|c a IH]; intros run.
  - reflexivity.
  - change (String c a ++ String "/" b) with (String c (a ++ String "/" b)).
    cbn [slash_free_runs_from]. destruct (is_char c "/").
    + rewrite IH, app_assoc. reflexivity.
    + apply IH.
Qed.

Lemma slash_free_runs_from_segment (run segment : string) :
  occurs "/" segment = false ->
  slash_free_runs_from run segment
  = match run ++ segment with
    | EmptyString => []
    | whole => [whole]
    end.
Proof.
  revert run. induction segment as [|c segment IH]; intros run H.
  - rewrite append_empty. destruct run; reflexivity.
  - simpl in H. apply orb_false_iff in H. destruct H as [Hc Hrest].
    cbn [slash_free_runs_from]. rewrite Hc, (IH _ Hrest), append_assoc.
    reflexivity.
Qed.

Lemma slash_free_runs_from_are_segments (run name : string) :
  occurs "/" run = false ->
  Forall is_segment (slash_free_runs_from run name).
Proof.
  revert run. induction name as [|c name IH]; intros run Hrun.
  - simpl. destruct run; constructor; [|constructor].
    split; [discriminate|exact Hrun].
  - cbn [slash_free_runs_from]. destruct (is_char c "/") eqn:Hc.
    + apply Forall_app. split; [|apply IH; reflexivity].
      destruct run; constructor; [|constructor].
      split; [discriminate|exact Hrun].
    + apply IH. rewrite occurs_append, Hrun. simpl. rewrite Hc. reflexivity.
Qed.

Lemma slash_free_runs_of_segments (segment : string) (rest : list string) :
  is_segment segment ->
  Forall is_segment rest ->
  slash_free_runs (segment ++ path_of_segments rest) = segment :: rest.
Proof.
  intros Hsegment Hrest. revert segment Hsegment.
  induction Hrest as [|next rest Hnext _ IH]; intros segment [Hne Hfree].
  - simpl. unfold slash_free_runs.
    rewrite slash_free_runs_from_segment
      by (rewrite occurs_append, Hfree; reflexivity).
    simpl. rewrite append_empty. destruct segment; [congruence|reflexivity].
  - change (path_of_segments (next :: rest))
      with (String "/" (next ++ path_of_segments rest)).
    unfold slash_free_runs at 1. rewrite slash_free_runs_from_split.
    rewrite (IH next Hnext).
    rewrite slash_free_runs_from_segment by exact Hfree.
    simpl. destruct segment; [congruence|reflexivity].
Qed.

(** X18.  The [expected] tokens of an entry are the segments of its name:
    each is non-empty and holds no [/], a slash only separates (so leading,
    trailing and doubled slashes add no token), and a name written as
    [/s1/s2/...] from non-empty segments gives back exactly [s1; s2; ...]. *)
Theorem expected_tokens_are_the_segments_of_the_name
    (basePath : string) (paths : list (string * PathItem))
    (matcher : list CompiledPath.t) (entry : CompiledPath.t) :
  compile_matcher basePath paths = Normal matcher ->
  In entry matcher ->
  Forall is_segment (CompiledPath.expected entry)
  /\ (forall a b : string,
        CompiledPath.name entry = a ++ String "/" b ->
        CompiledPath.expected entry
        = (slash_free_runs a ++ slash_free_runs b)%list)
  /\ (forall segments : list string,
        Forall is_segment segments ->
        CompiledPath.name entry = path_of_segments segments ->
        CompiledPath.expected entry = segments).
Proof.
  intros Hmatcher Hin.
  apply compile_matcher_entries in Hmatcher.
  destruct (Forall2_in_right _ _ _ _ Hmatcher Hin)
    as (declared & _ & Hname & _ & Hexpected & _).
  rewrite Hexpected, <- Hname. clear. split; [|split].
  - apply slash_free_runs_from_are_segments. reflexivity.
  - intros a b ->. apply slash_free_runs_from_split.
  - intros segments Hsegments ->.
    destruct Hsegments as [|segment rest Hsegment Hrest]; [reflexivity|].
    change (path_of_segments (segment :: rest))
      with ("" ++ String "/" (segment ++ path_of_segments rest)).
    unfold slash_free_runs at 1. rewrite slash_free_runs_from_split.
    rewrite slash_free_runs_of_segments by assumption. reflexivity.
Qed.

(** ** Braces in a path name *)

Lemma replace_braces_before (replacement before rest : string) :
  occurs "{" before = false ->
  replace_braces_from replacement None (before ++ rest)
  = before ++ replace_braces_from replacement None rest.
Proof.
  induction before as [|c before IH]; simpl; intros H; [reflexivity|].
  apply orb_false_iff in H. destruct H as [Hc Hbefore].
  rewrite Hc, (IH Hbefore). reflexivity.
Qed.

Lemma replace_braces_unclosed (replacement held rest : string) :
  occurs "}" rest = false ->
  replace_braces_from replacement (Some held) rest = held ++ rest.
Proof.
  revert held. induction rest as [|c rest IH]; simpl; intros held H.
  - rewrite append_empty. reflexivity.
  - apply orb_false_iff in H. destruct H as [Hc Hrest].
    rewrite Hc, (IH _ Hrest), append_assoc. reflexivity.
Qed.

(** X19.  What line 179 does with braces.  A name without [{] is put into
    the pattern as it is.  A [{] that no [}] follows is left in place with
    all that comes after it.  Otherwise everything from the first [{] to
    the first [}] after it, further [{] included, becomes one wildcard,
    and the rest of the name is treated in the same way. *)
Theorem braces_in_a_path_name (basePath : string) :
  (forall name : string,
      occurs "{" name = false ->
      regex_source basePath name = basePath ++ name ++ "$")
  /\ (forall before rest : string,
        occurs "{" before = false ->
        occurs "}" rest = false ->
        regex_source basePath (before ++ String "{" rest)
        = basePath ++ (before ++ String "{" rest) ++ "$")
  /\ (forall before label rest : string,
        occurs "{" before = false ->
        occurs "}" label = false ->
        replace_braces "[^/]+" (before ++ String "{" (label ++ String "}" rest))
        = before ++ "[^/]+" ++ replace_braces "[^/]+" rest).
Proof.
  unfold regex_source, replace_braces. split; [|split].
  - intros name H.
    rewrite <- (append_empty name) at 1.
    rewrite replace_braces_before by exact H.
    simpl. rewrite append_empty. reflexivity.
  - intros before rest Hbefore Hrest.
    rewrite replace_braces_before by exact Hbefore.
    simpl. rewrite replace_braces_unclosed by exact Hrest. reflexivity.
  - intros before label rest Hbefore Hlabel.
    rewrite replace_braces_before by exact Hbefore.
    simpl. rewrite replace_braces_placeholder by exact Hlabel. reflexivity.
Qed.

(** ** The shape of a matching path *)

Lemma count_char_append (c : ascii) (a b : string) :
  count_char c (a ++ b) = count_char c a + count_char c b.
Proof.
  induction a as [|x a IH]; simpl; [reflexivity|].
  rewrite IH. apply Nat.add_assoc.
Qed.

Lemma count_char_absent (c : ascii) (s : string) :
  occurs c s = false -> count_char c s = 0.
Proof.
  induction s as [|x s IH]; simpl; intros H; [reflexivity|].
  apply orb_false_iff in H. destruct H as [Hx Hs].
  rewrite Hx, (IH Hs). reflexivity.
Qed.

Lemma length_append (a b : string) : length (a ++ b) = length a + length b.
Proof.
  induction a as [|x a IH]; simpl; [reflexivity|]. rewrite IH. reflexivity.
Qed.

Lemma instance_shape (t : template) (instance : string) :
  instance_of t instance ->
  count_char "/" instance = count_char "/" (literal_text t)
  /\ length (literal_text t) + placeholders t <= length instance.
Proof.
  induction 1 as [|text t s _ [IHc IHl]|label t segment s Hne Hfree _ [IHc IHl]];
    simpl.
  - split; [reflexivity|apply Nat.le_refl].
  - rewrite !count_char_append, !length_append, IHc. split; [reflexivity|lia].
  - rewrite count_char_append, length_append, IHc.
    rewrite (count_char_absent _ _ Hfree). split; [reflexivity|].
    destruct segment; [congruence|simpl; lia].
Qed.

(** X20.  A placeholder stands for one segment, never for none and never
    for more: a request path matched by the entry of a template has,
    after the base path, exactly as many [/] as the text of the template
    and at least one character per placeholder besides that text. *)
Theorem matching_path_has_the_segments_of_the_template
    (basePath : string) (paths : list (string * PathItem))
    (matcher : list CompiledPath.t) (entry : CompiledPath.t)
    (t : template) (path : string) :
  compile_matcher basePath paths = Normal matcher ->
  In entry matcher ->
  render t = CompiledPath.name entry ->
  all_chars plain basePath = true ->
  Forall well_formed t ->
  matches path entry = true ->
  exists prefix instance : string,
    path = prefix ++ basePath ++ instance
    /\ count_char "/" instance = count_char "/" (literal_text t)
    /\ length (literal_text t) + placeholders t <= length instance.
Proof.
  intros Hmatcher Hin Hrender Hbase Ht Hmatch.
  apply compile_matcher_entries in Hmatcher.
  destruct (Forall2_in_right _ _ _ _ Hmatcher Hin)
    as (declared & _ & Hname & _ & _ & _ & Hparse).
  rewrite <- Hname, <- Hrender in Hparse.
  destruct (regex_of_template basePath t Hbase Ht) as (_ & Hp & Hiff).
  rewrite Hp in Hparse. injection Hparse as Hcompiled.
  unfold matches, String_match in Hmatch. rewrite <- Hcompiled in Hmatch.
  apply Hiff in Hmatch. destruct Hmatch as (prefix & instance & -> & Hinstance).
  exists prefix, instance. split; [reflexivity|].
  apply instance_shape. exact Hinstance.
Qed.

End Properties.

(* ===================================================================== *)
(** * Part V. The properties on concrete inputs *)
(* ===================================================================== *)

(** ** Sample runs *)

Example coercion_of_numbers :
  sample_validator number_schema (VStr "5") = (Normal true, [VNum (number_of_Z 5)])
  /\ sample_validator number_schema (VStr " 12.5e1 ")
     = (Normal true, [VNum (number_of_Z 125)])
  /\ sample_validator number_schema (VStr "abc") = (Normal false, [VStr "abc"])
  /\ sample_validator number_schema (VStr "") = (Normal true, [VNum (number_of_Z 0)])
  /\ sample_validator number_schema (VArr [VStr "5"])
     = (Normal true, [VNum (number_of_Z 5)]).
Proof. repeat split. Qed.

Example coercion_of_arrays :
  sample_validator tags_schema (VStr "1|2|3")
  = (Normal true,
     [VArr [VNum (number_of_Z 1); VNum (number_of_Z 2); VNum (number_of_Z 3)]])
  /\ sample_validator tags_schema (VStr "1|x|3")
     = (Normal false,
        [VArr [VNum (number_of_Z 1); VStr "x"; VNum (number_of_Z 3)]])
  /\ sample_validator tags_schema (VStr "1||3")
     = (Normal true,
        [VArr [VNum (number_of_Z 1); VNum (number_of_Z 0); VNum (number_of_Z 3)]]).
Proof. repeat split. Qed.

Example dispatch_on_the_sample :
  exists dispatch : Compiled,
    @compile reference_host users_api = Normal dispatch
    /\ option_map CompiledPath.name (dispatch "/api/users/42") = Some "/users/{id}"
    /\ option_map CompiledPath.name (dispatch "/v2/api/users/42") = Some "/users/{id}"
    /\ option_map CompiledPath.name (dispatch "/api/users/42/extra") = None
    /\ option_map CompiledPath.name (dispatch "/api/items/7") = None
    /\ option_map CompiledPath.name (dispatch "/api/orders") = None.
Proof. eexists. split; [reflexivity|]. repeat split. Qed.

(** ** The theorems at the sample *)

Lemma absent_value_depends_on_required_only_witness :
  In compiled_limit (parameters_of compiled_api)
  /\ (Param.in_ compiled_limit = "query" \/ Param.in_ compiled_limit = "header")
  /\ exists validator : Validator,
       Param.validator compiled_limit = Some validator
       /\ validator undefined = (Normal false, []).
Proof.
  assert (Hin : In compiled_limit (parameters_of compiled_api))
    by (simpl; left; reflexivity).
  assert (Hwhere : Param.in_ compiled_limit = "query"
                   \/ Param.in_ compiled_limit = "header")
    by (left; reflexivity).
  split; [exact Hin|]. split; [exact Hwhere|].
  destruct (@absent_value_depends_on_required_only reference_host users_api
              compiled_limit Hin Hwhere)
    as (validator & Hv & _ & _ & Hinline & _).
  exists validator. split; [exact Hv|].
  apply (Hinline eq_refl true). reflexivity.
Defined.

(** C1, as stated, fails: a query parameter that is required and nests its
    schema is compiled to a validator that reads [required] in the nested
    schema (line 154), finds none there, and accepts the absent value. *)
Lemma required_parameter_with_nested_schema_accepts_absent_value :
  In compiled_filter
    (parameters_of (@add_validators reference_host (no_references search_api)))
  /\ Param.in_ compiled_filter = "query"
  /\ Param.required compiled_filter = VBool true
  /\ exists validator : Validator,
       Param.validator compiled_filter = Some validator
       /\ validator undefined = (Normal true, []).
Proof.
  split; [simpl; left; reflexivity|]. split; [reflexivity|].
  split; [reflexivity|].
  eexists. split; reflexivity.
Qed.

Lemma numeric_values_are_converted_witness :
  (Schema.type number_schema = Some "number"
   \/ Schema.type number_schema = Some "integer")
  /\ VStr "5" <> undefined
  /\ (forall n, Number_isFinite n = true -> type_validator number_schema (VNum n) = true)
  /\ (forall s, type_validator number_schema (VStr s) = false)
  /\ sample_validator number_schema (VStr "5") = (Normal true, [VNum (number_of_Z 5)])
  /\ sample_validator number_schema (VStr "abc") = (Normal false, [VStr "abc"]).
Proof.
  assert (Htype : Schema.type number_schema = Some "number"
                  \/ Schema.type number_schema = Some "integer")
    by (left; reflexivity).
  assert (Hdefined : VStr "5" <> undefined) by discriminate.
  assert (Haccept : forall n, Number_isFinite n = true ->
                              type_validator number_schema (VNum n) = true)
    by (intros n H; exact H).
  assert (Hreject : forall s, type_validator number_schema (VStr s) = false)
    by (intros s; reflexivity).
  repeat (split; [assumption|]).
  exact (proj2 (proj2 (proj2 (@numeric_values_are_converted reference_host
                                number_schema (VStr "5")
                                Htype Hdefined Haccept Hreject)))).
Defined.

(** C2, as stated, fails: the object [{toString: "x"}] is not converted to
    a number and not handed on unchanged either; [isNaN(value)] throws at
    line 72 and the underlying validator is not called. *)
Lemma value_without_primitive_is_neither_converted_nor_handed_on :
  Schema.type number_schema = Some "number"
  /\ is_undefined no_primitive_value = false
  /\ sample_validator number_schema no_primitive_value
     = (Throw (TypeError "Cannot convert object to primitive value"), [])
  /\ delegated (sample_validator number_schema no_primitive_value) = [].
Proof. repeat split. Qed.

Lemma values_that_are_not_NaN_become_numbers_witness :
  (Schema.type number_schema = Some "number"
   \/ Schema.type number_schema = Some "integer")
  /\ sample_validator number_schema (VStr "")
     = (Normal true, [VNum (number_of_Z 0)])
  /\ sample_validator number_schema null
     = (Normal true, [VNum (number_of_Z 0)])
  /\ sample_validator number_schema (VStr "  ")
     = (Normal true, [VNum (number_of_Z 0)]).
Proof.
  assert (Htype : Schema.type number_schema = Some "number"
                  \/ Schema.type number_schema = Some "integer")
    by (left; reflexivity).
  split; [exact Htype|].
  destruct (@values_that_are_not_NaN_become_numbers reference_host
              number_schema Htype) as (_ & Hblank & Hempty & Hnull).
  split; [exact Hempty|]. split; [exact Hnull|].
  exact (Hblank "  " eq_refl eq_refl).
Defined.

(** C9, as stated, fails: [true] and the array [["5"]] are no numeric
    strings and [isNaN] is false of both, yet they reach the underlying
    validator as 1 and as 5, not as 0. *)
Lemma true_and_singleton_array_do_not_become_zero :
  (is_numeric_string (VBool true) = false
   /\ isNaN exact_decimal (VBool true) = Some false
   /\ delegated (sample_validator number_schema (VBool true))
      = [VNum (number_of_Z 1)])
  /\ (is_numeric_string (VArr [VStr "5"]) = false
      /\ isNaN exact_decimal (VArr [VStr "5"]) = Some false
      /\ delegated (sample_validator number_schema (VArr [VStr "5"]))
         = [VNum (number_of_Z 5)])
  /\ number_of_Z 1 <> number_of_Z 0
  /\ number_of_Z 5 <> number_of_Z 0.
Proof. repeat split; discriminate. Qed.

Lemma array_values_are_split_then_coerced_witness :
  Schema.type tags_schema = Some "array"
  /\ Schema.items tags_schema = Some number_schema
  /\ VStr "1|2|3" <> undefined
  /\ Array_isArray (VStr "1|2|3") = false
  /\ Schema.collectionFormat tags_schema = Some "pipes"
  /\ @format_of tags_schema = "pipes"
  /\ sample_validator tags_schema (VStr "1|2|3")
     = delegates (type_validator tags_schema)
         (VArr [VNum (number_of_Z 1); VNum (number_of_Z 2); VNum (number_of_Z 3)]).
Proof.
  assert (Hdefined : VStr "1|2|3" <> undefined) by discriminate.
  assert (Hdeclared : "pipes" <> "") by discriminate.
  split; [reflexivity|]. split; [reflexivity|]. split; [exact Hdefined|].
  split; [reflexivity|]. split; [reflexivity|].
  destruct (@array_values_are_split_then_coerced reference_host
              tags_schema number_schema (VStr "1|2|3")
              eq_refl eq_refl Hdefined eq_refl)
    as ((_ & Hformat) & _ & Hsplit & _).
  split; [exact (Hformat "pipes" eq_refl Hdeclared)|].
  destruct (proj1 (Hsplit "|"%char eq_refl) "1|2|3" eq_refl)
    as (coerced & Hcoerced & Hrun & _).
  injection Hcoerced as <-. exact Hrun.
Defined.

(** C3, as stated, fails: a collection format that is declared but empty
    is none of the recognized ones, yet the value is not wrapped: it is
    split at [,], as for [csv] (line 88 reads
    [schema.collectionFormat || 'csv']).  And a value that has no string
    is not split: [String(value)] throws at line 100. *)
Lemma empty_format_is_split_and_value_without_string_throws :
  Schema.collectionFormat empty_format_schema = Some ""
  /\ sample_validator empty_format_schema (VStr "1,2")
     = delegates (type_validator empty_format_schema)
         (VArr [VNum (number_of_Z 1); VNum (number_of_Z 2)])
  /\ Array_isArray no_primitive_value = false
  /\ sample_validator tags_schema no_primitive_value
     = (Throw (TypeError "Cannot convert object to primitive value"), []).
Proof. repeat split. Qed.

Lemma array_elements_are_coerced_without_splitting_witness :
  Schema.type tags_schema = Some "array"
  /\ Schema.items tags_schema = Some number_schema
  /\ sample_validator tags_schema (VArr [VStr "5"; VStr "1|2"])
     = delegates (type_validator tags_schema)
         (VArr [VNum (number_of_Z 5); VStr "1|2"])
  /\ sample_validator tags_schema (VArr [no_primitive_value; VStr "5"])
     = (Throw not_primitive, []).
Proof.
  split; [reflexivity|]. split; [reflexivity|].
  destruct (@array_elements_are_coerced_without_splitting reference_host
              tags_schema number_schema [no_primitive_value; VStr "5"]
              eq_refl eq_refl)
    as (Hnumber & _).
  destruct (Hnumber (or_introl eq_refl)) as (Hrun & Hstrings & _).
  split; [exact (Hstrings ["5"; "1|2"])|exact Hrun].
Defined.

Lemma no_schema_response_requires_no_body_witness :
  In compiled_no_content (responses_of compiled_api)
  /\ Response.schema compiled_no_content = None
  /\ exists validator : Validator,
       Response.validator compiled_no_content = Some validator
       /\ validator undefined = (Normal true, [])
       /\ validator null = (Normal true, [])
       /\ validator (VStr "") = (Normal true, [])
       /\ validator (VStr "{}") = (Normal false, []).
Proof.
  assert (Hin : In compiled_no_content (responses_of compiled_api))
    by (simpl; right; left; reflexivity).
  split; [exact Hin|]. split; [reflexivity|].
  destruct (@no_schema_response_requires_no_body reference_host users_api
              compiled_no_content Hin eq_refl) as (validator & Hv & _).
  exists validator. split; [exact Hv|].
  injection Hv as <-. repeat split.
Defined.

Lemma validator_never_throws_when_items_declared_witness :
  (Schema.type tags_schema = Some "array" -> Schema.items tags_schema <> None)
  /\ converts_to_primitive (VStr "a|b") = true
  /\ exists answer : bool,
       result_of (sample_validator tags_schema (VStr "a|b")) = Normal answer.
Proof.
  assert (Hitems : Schema.type tags_schema = Some "array" ->
                   Schema.items tags_schema <> None)
    by (intros _; discriminate).
  split; [exact Hitems|]. split; [reflexivity|].
  exact (proj1 (@validator_never_throws_when_items_declared reference_host
                  tags_schema (VStr "a|b") Hitems eq_refl)).
Defined.

(** C7, as stated, fails: a schema of type [array] without [items] makes the
    validator throw on every value other than [undefined]; line 108 reads
    [schema.items.type].  And with a schema of type [number] the object
    [{toString: "x"}] makes [isNaN] throw at line 72. *)
Lemma array_schema_without_items_throws :
  sample_validator array_without_items (VStr "1,2")
  = (Throw (TypeError "Cannot read property 'type' of undefined"), [])
  /\ sample_validator number_schema no_primitive_value
     = (Throw (TypeError "Cannot convert object to primitive value"), [])
  /\ forall answer : bool,
       result_of (sample_validator array_without_items (VStr "1,2"))
       <> Normal answer.
Proof. split; [reflexivity|]. split; [reflexivity|]. intros answer. discriminate. Qed.

Lemma path_pattern_is_base_path_and_wildcarded_template_witness :
  compile_matcher "/api" (Document.paths compiled_api) = Normal sample_matcher
  /\ In users_entry sample_matcher
  /\ render [Text "/users/"; Placeholder "id"] = CompiledPath.name users_entry
  /\ all_chars plain "/api" = true
  /\ Forall well_formed [Text "/users/"; Placeholder "id"]
  /\ source (CompiledPath.regex users_entry) = "/api/users/[^/]+$"
  /\ forall path : string,
       matches path users_entry = true
       <-> exists prefix instance : string,
             path = prefix ++ "/api" ++ instance
             /\ instance_of [Text "/users/"; Placeholder "id"] instance.
Proof.
  assert (Hmatcher : compile_matcher "/api" (Document.paths compiled_api)
                     = Normal sample_matcher) by reflexivity.
  assert (Hin : In users_entry sample_matcher) by (left; reflexivity).
  assert (Ht : Forall well_formed [Text "/users/"; Placeholder "id"])
    by (repeat constructor).
  split; [exact Hmatcher|]. split; [exact Hin|]. split; [reflexivity|].
  split; [reflexivity|]. split; [exact Ht|].
  destruct (path_pattern_is_base_path_and_wildcarded_template
              "/api" (Document.paths compiled_api) sample_matcher users_entry
              Hmatcher Hin)
    as (_ & _ & _ & _ & Hgeneral & _).
  exact (Hgeneral [Text "/users/"; Placeholder "id"] eq_refl eq_refl Ht).
Defined.

Lemma dispatcher_returns_the_only_match_witness :
  @compile reference_host users_api = Normal (dispatcher sample_matcher)
  /\ dispatcher sample_matcher "/api/users/42" = Some users_entry
  /\ dispatcher sample_matcher "/api/orders" = None
  /\ dispatcher sample_matcher "/api/items/7" = None.
Proof.
  assert (Hcompile : @compile reference_host users_api
                     = Normal (dispatcher sample_matcher)) by reflexivity.
  split; [exact Hcompile|].
  destruct (@dispatcher_returns_the_only_match reference_host users_api
              (dispatcher sample_matcher) Hcompile)
    as (matcher & Hmatcher & _ & Hcases).
  assert (Hsame : matcher = sample_matcher)
    by (injection Hmatcher as <-; reflexivity).
  subst matcher.
  split; [|split].
  - apply (proj1 (Hcases "/api/users/42") [] users_entry [items_by_id; items_by_sku]).
    + reflexivity.
    + reflexivity.
    + intros other [].
    + intros other [<- | [<- | []]]; reflexivity.
  - apply (proj1 (proj2 (Hcases "/api/orders"))).
    intros entry [<- | [<- | [<- | []]]]; reflexivity.
  - apply (proj2 (proj2 (Hcases "/api/items/7"))
             [users_entry] items_by_id [] items_by_sku []);
      reflexivity.
Defined.

Lemma boolean_literals_are_converted_witness :
  Schema.type boolean_schema = Some "boolean"
  /\ VStr "true" <> undefined
  /\ (forall b, type_validator boolean_schema (VBool b) = true)
  /\ (forall s, type_validator boolean_schema (VStr s) = false)
  /\ sample_validator boolean_schema (VStr "true") = (Normal true, [VBool true])
  /\ sample_validator boolean_schema (VStr "false") = (Normal true, [VBool false])
  /\ sample_validator boolean_schema (VStr "maybe") = (Normal false, [VStr "maybe"]).
Proof.
  assert (Hdefined : VStr "true" <> undefined) by discriminate.
  assert (Haccept : forall b, type_validator boolean_schema (VBool b) = true)
    by (intros b; reflexivity).
  assert (Hreject : forall s, type_validator boolean_schema (VStr s) = false)
    by (intros s; reflexivity).
  split; [reflexivity|]. repeat (split; [assumption|]).
  exact (proj2 (@boolean_literals_are_converted reference_host
                  boolean_schema (VStr "true") eq_refl Hdefined Haccept Hreject)).
Defined.

Lemma other_types_are_not_coerced_witness :
  Schema.type (Schema.make (Some "string") undefined None None []) <> Some "number"
  /\ VStr "5" <> undefined
  /\ sample_validator (Schema.make (Some "string") undefined None None []) (VStr "5")
     = (Normal true, [VStr "5"]).
Proof.
  split; [discriminate|]. split; [discriminate|].
  apply (@other_types_are_not_coerced reference_host
           (Schema.make (Some "string") undefined None None []) (VStr "5"));
    discriminate.
Defined.

Lemma other_parameters_are_validated_as_they_come_witness :
  In compiled_payload (parameters_of compiled_api)
  /\ in_query_or_header compiled_payload = false
  /\ exists validator : Validator,
       Param.validator compiled_payload = Some validator
       /\ validator (VStr "5") = (Normal false, [VStr "5"])
       /\ delegated (validator undefined) = [undefined].
Proof.
  assert (Hin : In compiled_payload (parameters_of compiled_api))
    by (simpl; right; right; left; reflexivity).
  split; [exact Hin|]. split; [reflexivity|].
  destruct (@other_parameters_are_validated_as_they_come reference_host
              users_api compiled_payload Hin eq_refl) as (validator & Hv & Hrun).
  exists validator. split; [exact Hv|].
  rewrite !Hrun. split; reflexivity.
Defined.

Lemma response_with_schema_is_validated_against_it_witness :
  In compiled_count (responses_of compiled_api)
  /\ Response.schema compiled_count = Some number_schema
  /\ exists validator : Validator,
       Response.validator compiled_count = Some validator
       /\ validator (VNum (number_of_Z 3)) = (Normal true, [VNum (number_of_Z 3)])
       /\ validator (VStr "3") = (Normal false, [VStr "3"]).
Proof.
  assert (Hin : In compiled_count (responses_of compiled_api))
    by (simpl; left; reflexivity).
  split; [exact Hin|]. split; [reflexivity|].
  destruct (@response_with_schema_is_validated_against_it reference_host
              users_api compiled_count number_schema Hin eq_refl)
    as (validator & Hv & Hrun).
  exists validator. split; [exact Hv|].
  rewrite !Hrun. split; reflexivity.
Defined.

Lemma coercion_is_idempotent_witness :
  sample_validator number_schema (VStr "5")
  = delegates (type_validator number_schema) (VNum (number_of_Z 5))
  /\ sample_validator number_schema (VNum (number_of_Z 5))
     = delegates (type_validator number_schema) (VNum (number_of_Z 5)).
Proof.
  assert (Hfirst : sample_validator number_schema (VStr "5")
                   = delegates (type_validator number_schema)
                       (VNum (number_of_Z 5))) by reflexivity.
  split; [exact Hfirst|].
  exact (@coercion_is_idempotent reference_host number_schema (VStr "5")
           (VNum (number_of_Z 5)) Hfirst).
Defined.

Lemma coercion_never_produces_NaN_witness :
  Number_isNaN S754_nan = true
  /\ (Schema.type number_schema = Some "number"
      \/ Schema.type number_schema = Some "integer")
  /\ sample_validator number_schema (VNum S754_nan)
     = delegates (type_validator number_schema) (VNum S754_nan)
  /\ VNum S754_nan = VNum S754_nan.
Proof.
  assert (Hnan : Number_isNaN S754_nan = true) by reflexivity.
  assert (Htype : Schema.type number_schema = Some "number"
                  \/ Schema.type number_schema = Some "integer")
    by (left; reflexivity).
  assert (Hrun : sample_validator number_schema (VNum S754_nan)
                 = delegates (type_validator number_schema) (VNum S754_nan))
    by reflexivity.
  split; [exact Hnan|]. split; [exact Htype|]. split; [exact Hrun|].
  exact (proj1 (@coercion_never_produces_NaN reference_host number_schema
                  (VNum S754_nan) S754_nan Hnan) Htype Hrun).
Defined.

Lemma array_schema_delegates_an_array_witness :
  Schema.type tags_schema = Some "array"
  /\ Schema.items tags_schema = Some number_schema
  /\ VStr "" <> undefined
  /\ converts_to_primitive (VStr "") = true
  /\ exists elements : list value,
       sample_validator tags_schema (VStr "")
       = delegates (type_validator tags_schema) (VArr elements)
       /\ List.length elements = 1
       /\ elements <> [].
Proof.
  assert (Hdefined : VStr "" <> undefined) by discriminate.
  split; [reflexivity|]. split; [reflexivity|]. split; [exact Hdefined|].
  split; [reflexivity|].
  destruct (@array_schema_delegates_an_array reference_host
              tags_schema number_schema (VStr "") eq_refl eq_refl Hdefined
              (fun _ => eq_refl))
    as (elements & Hrun & _ & Hscalar).
  destruct (Hscalar eq_refl) as (Hlength & _ & Hnonempty).
  exists elements. split; [exact Hrun|].
  split; [exact (Hlength "|"%char "" eq_refl eq_refl)|exact Hnonempty].
Defined.

Lemma delimited_string_is_validated_as_the_array_of_its_pieces_witness :
  Schema.type tags_schema = Some "array"
  /\ Schema.items tags_schema = Some number_schema
  /\ separator_of (format_of tags_schema) = Some "|"%char
  /\ ["1"; "2"; "3"] <> []
  /\ Forall (fun part => occurs "|" part = false) ["1"; "2"; "3"]
  /\ sample_validator tags_schema (VStr "1|2|3")
     = sample_validator tags_schema (VArr [VStr "1"; VStr "2"; VStr "3"]).
Proof.
  assert (Hparts : ["1"; "2"; "3"] <> []) by discriminate.
  assert (Hfree : Forall (fun part => occurs "|" part = false) ["1"; "2"; "3"])
    by (repeat constructor).
  split; [reflexivity|]. split; [reflexivity|]. split; [reflexivity|].
  split; [exact Hparts|]. split; [exact Hfree|].
  exact (@delimited_string_is_validated_as_the_array_of_its_pieces
           reference_host tags_schema number_schema "|"%char ["1"; "2"; "3"]
           eq_refl eq_refl eq_refl Hparts Hfree).
Defined.

Lemma validators_already_present_are_overwritten_witness :
  @without_validators users_api = @without_validators compiled_api
  /\ @add_validators reference_host users_api
     = @add_validators reference_host compiled_api
  /\ @add_validators reference_host (@add_validators reference_host users_api)
     = @add_validators reference_host users_api.
Proof.
  assert (Hsame : @without_validators users_api
                  = @without_validators compiled_api) by reflexivity.
  split; [exact Hsame|].
  exact (@validators_already_present_are_overwritten reference_host
           users_api compiled_api Hsame).
Defined.

Lemma dispatch_ignores_declaration_order_witness :
  Document.basePath (no_references users_api)
  = Document.basePath (no_references users_api_reordered)
  /\ Permutation (Document.paths (no_references users_api))
       (Document.paths (no_references users_api_reordered))
  /\ @compile reference_host users_api = Normal (dispatcher sample_matcher)
  /\ exists dispatch2 : Compiled,
       @compile reference_host users_api_reordered = Normal dispatch2
       /\ forall path : string, dispatcher sample_matcher path = dispatch2 path.
Proof.
  assert (Hpaths : Permutation (Document.paths (no_references users_api))
                     (Document.paths (no_references users_api_reordered)))
    by (apply (Permutation_rev (Document.paths users_api))).
  assert (Hcompile : @compile reference_host users_api
                     = Normal (dispatcher sample_matcher)) by reflexivity.
  split; [reflexivity|]. split; [exact Hpaths|]. split; [exact Hcompile|].
  exact (@dispatch_ignores_declaration_order reference_host users_api
           users_api_reordered (dispatcher sample_matcher)
           eq_refl Hpaths Hcompile).
Defined.

Lemma paths_with_the_same_pattern_are_never_dispatched_witness :
  @compile reference_host users_api = Normal (dispatcher sample_matcher)
  /\ Document.paths (no_references users_api)
     = ([("/users/{id}", [("get", get_user)])]
        ++ ("/items/{id}", []) :: [] ++ ("/items/{sku}", []) :: [])%list
  /\ replace_braces "[^/]+" "/items/{id}" = replace_braces "[^/]+" "/items/{sku}"
  /\ forall (path : string) (entry : CompiledPath.t),
       dispatcher sample_matcher path = Some entry ->
       replace_braces "[^/]+" (CompiledPath.name entry)
       <> replace_braces "[^/]+" "/items/{id}".
Proof.
  assert (Hcompile : @compile reference_host users_api
                     = Normal (dispatcher sample_matcher)) by reflexivity.
  split; [exact Hcompile|]. split; [reflexivity|]. split; [reflexivity|].
  exact (@paths_with_the_same_pattern_are_never_dispatched reference_host
           users_api (dispatcher sample_matcher)
           [("/users/{id}", [("get", get_user)])] [] []
           "/items/{id}" "/items/{sku}" [] []
           Hcompile eq_refl eq_refl).
Defined.

Lemma dispatched_entry_carries_validators_witness :
  @compile reference_host users_api = Normal (dispatcher sample_matcher)
  /\ dispatcher sample_matcher "/api/users/42" = Some users_entry
  /\ matches "/api/users/42" users_entry = true
  /\ CompiledPath.expected users_entry = slash_free_runs "/users/{id}"
  /\ forall (operationName : string) (operation : Operation.t),
       In (operationName, operation) (CompiledPath.path users_entry) ->
       Forall (fun parameter => Param.validator parameter <> None)
         (parameters_of_operation operation)
       /\ Forall (fun response => Response.validator response <> None)
           (responses_of_operation operation).
Proof.
  assert (Hcompile : @compile reference_host users_api
                     = Normal (dispatcher sample_matcher)) by reflexivity.
  assert (Hanswer : dispatcher sample_matcher "/api/users/42" = Some users_entry)
    by reflexivity.
  split; [exact Hcompile|]. split; [exact Hanswer|].
  destruct (@dispatched_entry_carries_validators reference_host users_api
              (dispatcher sample_matcher) "/api/users/42" users_entry
              Hcompile Hanswer)
    as (Hmatch & _ & Hexpected & Hvalidators).
  split; [exact Hmatch|]. split; [exact Hexpected|]. exact Hvalidators.
Defined.

Lemma plain_paths_give_a_matcher_witness :
  all_chars plain "/api" = true
  /\ Forall (fun declared : string * PathItem =>
               exists t : template,
                 fst declared = render t /\ Forall well_formed t)
       (Document.paths compiled_api)
  /\ exists matcher : list CompiledPath.t,
       compile_matcher "/api" (Document.paths compiled_api) = Normal matcher
       /\ map CompiledPath.name matcher
          = ["/users/{id}"; "/items/{id}"; "/items/{sku}"].
Proof.
  assert (Hpaths : Forall (fun declared : string * PathItem =>
                             exists t : template,
                               fst declared = render t /\ Forall well_formed t)
                     (Document.paths compiled_api)).
  { repeat apply Forall_cons; [| | |apply Forall_nil].
    - exists [Text "/users/"; Placeholder "id"].
      split; [reflexivity|repeat constructor].
    - exists [Text "/items/"; Placeholder "id"].
      split; [reflexivity|repeat constructor].
    - exists [Text "/items/"; Placeholder "sku"].
      split; [reflexivity|repeat constructor]. }
  split; [reflexivity|]. split; [exact Hpaths|].
  destruct (plain_paths_give_a_matcher "/api" (Document.paths compiled_api)
              eq_refl Hpaths) as (matcher & Hmatcher & Hnames & _).
  exists matcher. split; [exact Hmatcher|exact Hnames].
Defined.

Lemma expected_tokens_are_the_segments_of_the_name_witness :
  compile_matcher "/api" (Document.paths compiled_api) = Normal sample_matcher
  /\ In users_entry sample_matcher
  /\ Forall is_segment ["users"; "{id}"]
  /\ CompiledPath.name users_entry = path_of_segments ["users"; "{id}"]
  /\ Forall is_segment (CompiledPath.expected users_entry)
  /\ CompiledPath.expected users_entry = ["users"; "{id}"].
Proof.
  assert (Hmatcher : compile_matcher "/api" (Document.paths compiled_api)
                     = Normal sample_matcher) by reflexivity.
  assert (Hin : In users_entry sample_matcher) by (left; reflexivity).
  assert (Hsegments : Forall is_segment ["users"; "{id}"])
    by (repeat constructor; discriminate).
  split; [exact Hmatcher|]. split; [exact Hin|]. split; [exact Hsegments|].
  split; [reflexivity|].
  destruct (expected_tokens_are_the_segments_of_the_name
              "/api" (Document.paths compiled_api) sample_matcher users_entry
              Hmatcher Hin) as (Hall & _ & Hround).
  split; [exact Hall|]. exact (Hround ["users"; "{id}"] Hsegments eq_refl).
Defined.

Lemma matching_path_has_the_segments_of_the_template_witness :
  compile_matcher "/api" (Document.paths compiled_api) = Normal sample_matcher
  /\ In users_entry sample_matcher
  /\ render [Text "/users/"; Placeholder "id"] = CompiledPath.name users_entry
  /\ all_chars plain "/api" = true
  /\ Forall well_formed [Text "/users/"; Placeholder "id"]
  /\ matches "/v2/api/users/42" users_entry = true
  /\ exists prefix instance : string,
       "/v2/api/users/42" = prefix ++ "/api" ++ instance
       /\ count_char "/" instance = 2
       /\ 8 <= length instance.
Proof.
  assert (Hmatcher : compile_matcher "/api" (Document.paths compiled_api)
                     = Normal sample_matcher) by reflexivity.
  assert (Hin : In users_entry sample_matcher) by (left; reflexivity).
  assert (Ht : Forall well_formed [Text "/users/"; Placeholder "id"])
    by (repeat constructor).
  split; [exact Hmatcher|]. split; [exact Hin|]. split; [reflexivity|].
  split; [reflexivity|]. split; [exact Ht|]. split; [reflexivity|].
  exact (matching_path_has_the_segments_of_the_template
           "/api" (Document.paths compiled_api) sample_matcher users_entry
           [Text "/users/"; Placeholder "id"] "/v2/api/users/42"
           Hmatcher Hin eq_refl eq_refl Ht eq_refl).
Defined.
